(** * JournalCalendar: the calendar widget of static/js/components/calendar.js

    A shallow embedding of the [JournalCalendar] class and of the part of the
    ECMAScript [Date] object it relies on, together with the properties of
    the widget's month grid, navigation, selection and public methods. *)

From Stdlib Require Import ZArith Lia List String Ascii Bool.
Import ListNotations.

Local Open Scope Z_scope.

(** Linear arithmetic with floor division and remainder by constants. *)
Ltac zlia := Z.to_euclidean_division_equations; lia.

(** The integers [lo], [lo + 1], ..., [lo + n - 1]: the values a counting
    loop runs through. *)
Definition zrange (lo : Z) (n : nat) : list Z :=
  map (fun i => lo + Z.of_nat i) (seq 0 n).

(* ====================================================================== *)
(** ** ECMAScript Date arithmetic (ECMA-262, "Date Objects")

    A [Date] holds a time value.  The widget only reads and writes the local
    calendar day of its dates (getFullYear, getMonth, getDate, getDay,
    setMonth, and the (year, month, day) constructor), so a date is modelled
    by its local day number: the number of days since 1970-01-01.  The time
    within the day is kept unchanged by [setMonth] and read by nothing.

    The model is the calendar arithmetic of ECMA-262 without its TimeClip
    step: it describes valid dates, whose day number lies within
    100,000,000 days of the epoch ([within_TimeClip]; the years
    -271820 .. 275759 are safely inside).  Outside that range a Date is
    invalid and its getters return NaN, which the model does not show:
    the statements about dates carry the range as a hypothesis. *)

Module JSDate.

(** A date, as its local day number. *)
Definition t := Z.

(** ECMA-262 DaysInYear. *)
Definition DaysInYear (y : Z) : Z :=
  if negb (y mod 4 =? 0) then 365
  else if negb (y mod 100 =? 0) then 366
  else if negb (y mod 400 =? 0) then 365
  else 366.

(** ECMA-262 DayFromYear: the day number of January 1st of year [y]. *)
Definition DayFromYear (y : Z) : Z :=
  365 * (y - 1970) + (y - 1969) / 4 - (y - 1901) / 100 + (y - 1601) / 400.

(** ECMA-262 YearFromTime: the largest [y] with [DayFromYear y <= d].
    It is computed from the estimate [1970 + d / 365.2425], which is off
    by at most one; [YearFromDay_spec] proves that the result is the year
    ECMA-262 defines. *)
Definition YearFromDay (d : Z) : Z :=
  let ye := 1970 + (400 * d) / 146097 in
  if d <? DayFromYear ye then ye - 1
  else if DayFromYear (ye + 1) <=? d then ye + 1
  else ye.

(** ECMA-262 InLeapYear, as 0 or 1. *)
Definition InLeapYear (d : Z) : Z :=
  if DaysInYear (YearFromDay d) =? 366 then 1 else 0.

Definition DayWithinYear (d : Z) : Z := d - DayFromYear (YearFromDay d).

(** ECMA-262 MonthFromTime, by the table of the standard: the month of
    day [w] of a year, [l] being 1 in a leap year and 0 otherwise. *)
Definition MonthOfYearDay (w l : Z) : Z :=
  if w <? 31 then 0
  else if w <? 59 + l then 1
  else if w <? 90 + l then 2
  else if w <? 120 + l then 3
  else if w <? 151 + l then 4
  else if w <? 181 + l then 5
  else if w <? 212 + l then 6
  else if w <? 243 + l then 7
  else if w <? 273 + l then 8
  else if w <? 304 + l then 9
  else if w <? 334 + l then 10
  else 11.

Definition MonthFromDay (d : Z) : Z :=
  MonthOfYearDay (DayWithinYear d) (InLeapYear d).

(** ECMA-262 DateFromTime, by the table of the standard. *)
Definition DateOfYearDay (w l : Z) : Z :=
  match MonthOfYearDay w l with
  | 0 => w + 1
  | 1 => w - 30
  | 2 => w - 58 - l
  | 3 => w - 89 - l
  | 4 => w - 119 - l
  | 5 => w - 150 - l
  | 6 => w - 180 - l
  | 7 => w - 211 - l
  | 8 => w - 242 - l
  | 9 => w - 272 - l
  | 10 => w - 303 - l
  | _ => w - 333 - l
  end.

Definition DateFromDay (d : Z) : Z :=
  DateOfYearDay (DayWithinYear d) (InLeapYear d).

(** ECMA-262 WeekDay: 0 is Sunday; 1970-01-01 was a Thursday. *)
Definition WeekDay (d : Z) : Z := (d + 4) mod 7.

(** The day within its year on which month [mn] (0..11) starts. *)
Definition MonthStart (mn leap : Z) : Z :=
  match mn with
  | 0 => 0
  | 1 => 31
  | 2 => 59 + leap
  | 3 => 90 + leap
  | 4 => 120 + leap
  | 5 => 151 + leap
  | 6 => 181 + leap
  | 7 => 212 + leap
  | 8 => 243 + leap
  | 9 => 273 + leap
  | 10 => 304 + leap
  | _ => 334 + leap
  end.

(** ECMA-262 MakeDay: months outside 0..11 carry into the year, and the
    day of the month is added as an offset, so that it may run over the
    end of the month (or before its start). *)
Definition MakeDay (year month date : Z) : Z :=
  let ym := year + month / 12 in
  let mn := month mod 12 in
  let leap := if DaysInYear ym =? 366 then 1 else 0 in
  DayFromYear ym + MonthStart mn leap + date - 1.

(** ECMA-262 MakeFullYear: a year from 0 to 99 stands for 1900 + year. *)
Definition MakeFullYear (year : Z) : Z :=
  if (0 <=? year) && (year <=? 99) then 1900 + year else year.

(** [new Date(year, month, date)] *)
Definition make (year month date : Z) : t :=
  MakeDay (MakeFullYear year) month date.

Definition getFullYear (d : t) : Z := YearFromDay d.
Definition getMonth (d : t) : Z := MonthFromDay d.
Definition getDate (d : t) : Z := DateFromDay d.
Definition getDay (d : t) : Z := WeekDay d.

(** [d.setMonth(month)]: the year and the day of the month are kept and
    handed to MakeDay with the new month. *)
Definition setMonth (d : t) (month : Z) : t :=
  MakeDay (YearFromDay d) month (DateFromDay d).

(** ECMA-262 TimeClip makes a Date invalid whose time value, in UTC, lies
    more than 100,000,000 days from the epoch.  A local day number that
    keeps a day's distance from both ends is within that range in every
    time zone and at every time of the day. *)
Definition within_TimeClip (d : t) : Prop :=
  -100000000 < d - 1 /\ d + 1 < 100000000.

End JSDate.

Arguments JSDate.make : simpl never.
Arguments JSDate.MakeDay : simpl never.
Arguments JSDate.YearFromDay : simpl never.
Arguments JSDate.MonthFromDay : simpl never.
Arguments JSDate.DateFromDay : simpl never.
Arguments JSDate.WeekDay : simpl never.
Arguments JSDate.getFullYear : simpl never.
Arguments JSDate.getMonth : simpl never.
Arguments JSDate.getDate : simpl never.
Arguments JSDate.getDay : simpl never.
Arguments JSDate.setMonth : simpl never.

(* ====================================================================== *)
(** ** The Gregorian calendar, stated independently of the Date algorithms *)

Module Gregorian.

Definition is_leap (y : Z) : bool :=
  ((y mod 4 =? 0) && negb (y mod 100 =? 0)) || (y mod 400 =? 0).

(** Number of days of month [m] (zero-based) of year [y]. *)
Definition days_in_month (y m : Z) : Z :=
  match m with
  | 0 => 31
  | 1 => if is_leap y then 29 else 28
  | 2 => 31
  | 3 => 30
  | 4 => 31
  | 5 => 30
  | 6 => 31
  | 7 => 31
  | 8 => 30
  | 9 => 31
  | 10 => 30
  | _ => 31
  end.

(** Zeller's congruence for the Gregorian calendar, turned so that 0 is
    Sunday: the weekday of day [q] of month [m] (zero-based) of year [y].
    January and February count as months 13 and 14 of the year before. *)
Definition weekday (y m q : Z) : Z :=
  let mz := if m <? 2 then m + 13 else m + 1 in
  let yz := if m <? 2 then y - 1 else y in
  let K := yz mod 100 in
  let J := yz / 100 in
  (q + (13 * (mz + 1)) / 5 + K + K / 4 + J / 4 + 5 * J + 6) mod 7.

End Gregorian.

(* ====================================================================== *)
(** ** Strings: number conversion and padStart *)

Module JSString.
Local Open Scope string_scope.

Definition digit_char (k : Z) : ascii := ascii_of_nat (48 + Z.to_nat k).

(** Decimal digits of a non-negative integer, most significant first. *)
Fixpoint digits (fuel : nat) (n : Z) (acc : string) : string :=
  match fuel with
  | O => acc
  | S f =>
      let acc' := String (digit_char (n mod 10)) acc in
      if (n / 10 =? 0)%Z then acc' else digits f (n / 10) acc'
  end.

(** [String(n)], and the conversion a template literal applies, for an
    integer [n].  A number has no more decimal than binary digits. *)
Definition of_number (n : Z) : string :=
  if (n <? 0)%Z then "-" ++ digits (S (Z.to_nat (Z.log2 (- n)))) (- n) ""
  else digits (S (Z.to_nat (Z.log2 n))) n "".

Fixpoint repeat_char (c : ascii) (n : nat) : string :=
  match n with
  | O => ""
  | S k => String c (repeat_char c k)
  end.

(** [s.padStart(targetLength, pad)] for a one-character [pad]. *)
Definition padStart (s : string) (targetLength : nat) (pad : ascii) : string :=
  repeat_char pad (targetLength - String.length s) ++ s.

(** [array.includes(s)] on an array of strings. *)
Definition includes (l : list string) (s : string) : bool :=
  existsb (String.eqb s) l.

(** Truthiness of a string: every string but the empty one. *)
Definition truthy (s : string) : bool := negb (String.eqb s "").

End JSString.

Arguments JSString.of_number : simpl never.
Arguments JSString.padStart : simpl never.

(* ====================================================================== *)
(** ** The calendar-day identifier of the glossary: YYYY-MM-DD *)

Module DayId.
Local Open Scope string_scope.
Import JSString.

Definition is_digit (c : ascii) : bool :=
  let n := nat_of_ascii c in (48 <=? n)%nat && (n <=? 57)%nat.

Definition is_dash (c : ascii) : bool := Ascii.eqb c "-"%char.

(** Four digits, a dash, two digits, a dash, two digits. *)
Definition well_formed (s : string) : bool :=
  match s with
  | String y1 (String y2 (String y3 (String y4 (String d1
      (String m1 (String m2 (String d2 (String a1 (String a2 ""))))))))) =>
      is_digit y1 && is_digit y2 && is_digit y3 && is_digit y4 && is_dash d1
      && is_digit m1 && is_digit m2 && is_dash d2 && is_digit a1 && is_digit a2
  | _ => false
  end.

Definition digit_value (c : ascii) : Z := Z.of_nat (nat_of_ascii c) - 48.

(** The year, the month (1..12) and the day an identifier names. *)
Definition read (s : string) : option (Z * Z * Z) :=
  if well_formed s then
    match s with
    | String y1 (String y2 (String y3 (String y4 (String _
        (String m1 (String m2 (String _ (String a1 (String a2 _))))))))) =>
        Some (1000 * digit_value y1 + 100 * digit_value y2
              + 10 * digit_value y3 + digit_value y4,
              10 * digit_value m1 + digit_value m2,
              10 * digit_value a1 + digit_value a2)%Z
    | _ => None
    end
  else None.

(** The canonical identifier of day [d] of month [m] (1..12) of year [y]
    (1000..9999), written out digit by digit. *)
Definition canonical (y m d : Z) : string :=
  String (digit_char (y / 1000)) (String (digit_char (y / 100 mod 10))
  (String (digit_char (y / 10 mod 10)) (String (digit_char (y mod 10))
  (String "-" (String (digit_char (m / 10)) (String (digit_char (m mod 10))
  (String "-" (String (digit_char (d / 10)) (String (digit_char (d mod 10))
  ""))))))))).

End DayId.

(* ====================================================================== *)
(** ** The rendered subtree of the container *)

Module DOM.

(** A cell of the day grid: [<div class=... data-date=...>text</div>],
    with the number of click listeners bound to the node. *)
Record DayCell := mkDayCell {
  classes : list string;
  data_date : option string;
  text : option Z;
  listeners : nat
}.

(** A navigation button: [<button class="calendar-nav-btn" data-action=...>]. *)
Record NavBtn := mkNavBtn {
  data_action : string;
  nav_listeners : nat
}.

(** What [innerHTML] holds once parsed: the header title, the navigation
    buttons, the weekday row and the day grid. *)
Record Container := mkContainer {
  title : string;
  nav : list NavBtn;
  weekdays : list string;
  days : list DayCell
}.

Definition has_class (c : string) (cell : DayCell) : bool :=
  existsb (String.eqb c) (classes cell).

(** The selector [.calendar-day:not(.other-month)]. *)
Definition day_selector (cell : DayCell) : bool :=
  has_class "calendar-day" cell && negb (has_class "other-month" cell).

(** A filler cell: a grid cell of the adjacent month. *)
Definition is_filler (cell : DayCell) : bool := has_class "other-month" cell.

End DOM.

(* ====================================================================== *)
(** ** The JournalCalendar class *)

Module Calendar.
Import DOM.
Local Open Scope string_scope.

(** Values handed to the host page: a Date object, or an object literal
    [{ year, month }]. *)
Inductive Value :=
| VDate (d : JSDate.t)
| VYearMonth (year month : Z).

(** Reading an own data property of a value; [None] is [undefined].  A
    Date object has no own properties. *)
Definition get_prop (v : Value) (name : string) : option Z :=
  match v with
  | VYearMonth y m =>
      if String.eqb name "year" then Some y
      else if String.eqb name "month" then Some m
      else None
  | VDate _ => None
  end.

(** What the widget sends out: a console diagnostic or a callback call. *)
Inductive Event :=
| ConsoleError (msg : string)
| DateSelect (dateStr : string)
| MonthChange (arg : Value).

Inductive Error := TypeError.

(** [this.options].  A callback is modelled by whether one is configured;
    its calls are recorded in the log.  [highlightToday] is read only as a
    condition and is modelled by its truthiness. *)
Record Options := mkOptions {
  entryDates : list string;
  onDateSelect : bool;
  onMonthChange : bool;
  highlightToday : bool
}.

(** The [options] argument of the constructor, key by key.  The
    constructor spreads the argument over the values it computes, so that
    a key that is present decides, whatever it holds.

    - [entryDates]: [None] is an absent key, [Some (Some l)] an array of
      strings, and [Some None] a key that is present with a value that has
      no [includes] method ([undefined], [null], a number, a boolean).
    - [onDateSelect], [onMonthChange]: [true] is a function, [false] an
      absent key or a falsy value.
    - [highlightToday]: [None] is an absent key, and [Some b] a key that
      is present with a value of truthiness [b] ([Some false] is [false],
      and also [undefined], [null], [0] or the empty string). *)
Record UserOptions := mkUserOptions {
  given_entryDates : option (option (list string));
  given_onDateSelect : bool;
  given_onMonthChange : bool;
  given_highlightToday : option bool
}.

(** A widget instance, with the log of what it sent out. *)
Record Widget := mkWidget {
  container : option Container;
  options : option Options;
  currentDate : option JSDate.t;
  selectedDate : option string;
  log : list Event
}.

Definition set_container (c : Container) (w : Widget) : Widget :=
  mkWidget (Some c) (options w) (currentDate w) (selectedDate w) (log w).
Definition set_options (o : Options) (w : Widget) : Widget :=
  mkWidget (container w) (Some o) (currentDate w) (selectedDate w) (log w).
Definition set_currentDate (d : JSDate.t) (w : Widget) : Widget :=
  mkWidget (container w) (options w) (Some d) (selectedDate w) (log w).
Definition set_selectedDate (s : string) (w : Widget) : Widget :=
  mkWidget (container w) (options w) (currentDate w) (Some s) (log w).
Definition emit (e : Event) (w : Widget) : Widget :=
  mkWidget (container w) (options w) (currentDate w) (selectedDate w)
           (log w ++ [e])%list.

(** A computation that returns, or throws and leaves the instance [this]
    as the statements run before the throw have made it. *)
Inductive Result (A : Type) :=
| Ok (a : A)
| Throw (e : Error) (this : Widget).
Arguments Ok {A} a.
Arguments Throw {A} e this.

Definition bind {A B} (r : Result A) (k : A -> Result B) : Result B :=
  match r with
  | Ok a => k a
  | Throw e this => Throw e this
  end.

Notation "x <- r ;; k" := (bind r (fun x => k))
  (at level 61, r at next level, right associativity).

Fixpoint mapM {A B} (f : A -> Result B) (l : list A) : Result (list B) :=
  match l with
  | [] => Ok []
  | a :: l' => b <- f a ;; bs <- mapM f l' ;; Ok (b :: bs)
  end.

(** Reading a field of [this] that the constructor may have left
    [undefined]: using it throws a TypeError. *)
Definition defined {A} (this : Widget) (o : option A) : Result A :=
  match o with
  | Some a => Ok a
  | None => Throw TypeError this
  end.

(** The [container] argument: a selector string, looked up in the
    document, or an element handle (possibly null). *)
Inductive ContainerArg :=
| Selector (s : string)
| Element (c : option Container).

Definition Document := string -> option Container.

Definition resolve (doc : Document) (arg : ContainerArg) : option Container :=
  match arg with
  | Selector s => doc s
  | Element c => c
  end.

Definition monthNames : list string :=
  ["January"; "February"; "March"; "April"; "May"; "June";
   "July"; "August"; "September"; "October"; "November"; "December"].

Definition weekdayNames : list string :=
  ["Sun"; "Mon"; "Tue"; "Wed"; "Thu"; "Fri"; "Sat"].

(** [<div class="calendar-day other-month"></div>] *)
Definition filler_cell : DayCell :=
  mkDayCell ["calendar-day"; "other-month"] None None 0.

(** The identifier written into [data-date]. *)
Definition dateStr (year month day : Z) : string :=
  JSString.of_number year ++ "-" ++
  JSString.padStart (JSString.of_number (month + 1)) 2 "0" ++ "-" ++
  JSString.padStart (JSString.of_number day) 2 "0".

(** The body of the loop over the days of the month. *)
Definition day_cell (w : Widget) (year month : Z) (today : JSDate.t)
    (day : Z) : Result DayCell :=
  let ds := dateStr year month day in
  o <- defined w (options w) ;;
  let isToday := highlightToday o &&
                 (day =? JSDate.getDate today)%Z &&
                 (month =? JSDate.getMonth today)%Z &&
                 (year =? JSDate.getFullYear today)%Z in
  let hasEntry := JSString.includes (entryDates o) ds in
  let cls := (["calendar-day"] ++ (if isToday then ["today"] else [])
                               ++ (if hasEntry then ["has-entry"] else []))%list in
  Ok (mkDayCell cls (Some ds) (Some day) 0).

(** [render()]; [now] is what [new Date()] returns during the call.  The
    subtree assigned to [innerHTML] is new: its nodes have no listeners. *)
Definition render (now : JSDate.t) (w : Widget) : Result Widget :=
  cd <- defined w (currentDate w) ;;
  let year := JSDate.getFullYear cd in
  let month := JSDate.getMonth cd in
  let today := now in
  let firstDay := JSDate.getDay (JSDate.make year month 1) in
  let daysInMonth := JSDate.getDate (JSDate.make year (month + 1) 0) in
  let header := nth (Z.to_nat month) monthNames "undefined" ++ " " ++
                JSString.of_number year in
  let buttons := [mkNavBtn "prev" 0; mkNavBtn "next" 0] in
  let fillers := repeat filler_cell (Z.to_nat firstDay) in
  cells <- mapM (day_cell w year month today)
                (zrange 1 (Z.to_nat daysInMonth)) ;;
  _ <- defined w (container w) ;;
  Ok (set_container
        (mkContainer header buttons weekdayNames (fillers ++ cells)%list) w).

Definition add_nav_listener (b : NavBtn) : NavBtn :=
  mkNavBtn (data_action b) (S (nav_listeners b)).

Definition add_day_listener (c : DayCell) : DayCell :=
  if day_selector c
  then mkDayCell (classes c) (data_date c) (text c) (S (listeners c))
  else c.

(** [attachEvents()]: one more click listener on every navigation button
    and on every cell matching [.calendar-day:not(.other-month)]. *)
Definition attachEvents (w : Widget) : Result Widget :=
  c <- defined w (container w) ;;
  Ok (set_container
        (mkContainer (title c) (map add_nav_listener (nav c)) (weekdays c)
                     (map add_day_listener (days c))) w).

(** [init()] *)
Definition init (now : JSDate.t) (w : Widget) : Result Widget :=
  w1 <- render now w ;; attachEvents w1.

(** The instance the constructor leaves when the container is missing:
    no field after [this.container] is assigned. *)
Definition inert (l : list Event) : Widget :=
  mkWidget None None None None l.

(** [new JournalCalendar(container, options)].  With [entryDates] present
    but holding no array of any kind, the spread puts that value into
    [this.options];
    [render] then throws at the first day of the month, where it reads
    [includes] off it, and the instance under construction is dropped with
    the exception (its options are left out of the state noted here). *)
Definition constructor (doc : Document) (now : JSDate.t)
    (arg : ContainerArg) (opts : UserOptions) : Result Widget :=
  match resolve doc arg with
  | None => Ok (inert [ConsoleError "Calendar container not found"])
  | Some c =>
      match given_entryDates opts with
      | Some None => Throw TypeError (mkWidget (Some c) None (Some now) None [])
      | given =>
          let o := mkOptions
                     (match given with Some (Some l) => l | _ => [] end)
                     (given_onDateSelect opts)
                     (given_onMonthChange opts)
                     (match given_highlightToday opts with
                      | Some b => b
                      | None => true
                      end) in
          init now (mkWidget (Some c) (Some o) (Some now) None [])
      end
  end.

(** The click listener of a navigation button. *)
Definition nav_handler (now : JSDate.t) (btn : NavBtn) (w : Widget)
    : Result Widget :=
  let action := data_action btn in
  cd <- defined w (currentDate w) ;;
  let cd' :=
    if String.eqb action "prev"
    then JSDate.setMonth cd (JSDate.getMonth cd - 1)
    else if String.eqb action "next"
    then JSDate.setMonth cd (JSDate.getMonth cd + 1)
    else cd in
  w1 <- render now (set_currentDate cd' w) ;;
  w2 <- attachEvents w1 ;;
  o <- defined w2 (options w2) ;;
  if onMonthChange o then Ok (emit (MonthChange (VDate cd')) w2) else Ok w2.

(** The click listener of a day cell. *)
Definition day_handler (cell : DayCell) (w : Widget) : Result Widget :=
  match data_date cell with
  | None => Ok w
  | Some ds =>
      if JSString.truthy ds then
        o <- defined w (options w) ;;
        if onDateSelect o
        then Ok (emit (DateSelect ds) (set_selectedDate ds w))
        else Ok w
      else Ok w
  end.

(** Dispatching a click runs every listener bound to the clicked node. *)
Fixpoint dispatch (n : nat) (h : Widget -> Result Widget) (w : Widget)
    : Result Widget :=
  match n with
  | O => Ok w
  | S k => w1 <- h w ;; dispatch k h w1
  end.

(** A click on the [i]-th navigation button of the rendered subtree. *)
Definition click_nav (now : JSDate.t) (i : nat) (w : Widget) : Result Widget :=
  match container w with
  | None => Ok w
  | Some c =>
      match nth_error (nav c) i with
      | None => Ok w
      | Some btn => dispatch (nav_listeners btn) (nav_handler now btn) w
      end
  end.

(** A click on the [i]-th cell of the day grid. *)
Definition click_day (i : nat) (w : Widget) : Result Widget :=
  match container w with
  | None => Ok w
  | Some c =>
      match nth_error (days c) i with
      | None => Ok w
      | Some cell => dispatch (listeners cell) (day_handler cell) w
      end
  end.

(** [setEntryDates(dates)] *)
Definition setEntryDates (dates : list string) (now : JSDate.t) (w : Widget)
    : Result Widget :=
  o <- defined w (options w) ;;
  let w1 := set_options (mkOptions dates (onDateSelect o) (onMonthChange o)
                                   (highlightToday o)) w in
  w2 <- render now w1 ;;
  attachEvents w2.

(** [goToMonth(year, month)] *)
Definition goToMonth (year month : Z) (now : JSDate.t) (w : Widget)
    : Result Widget :=
  let w1 := set_currentDate (JSDate.make year month 1) w in
  w2 <- render now w1 ;;
  attachEvents w2.

(** [getCurrentMonth()] *)
Definition getCurrentMonth (w : Widget) : Result Value :=
  cd <- defined w (currentDate w) ;;
  Ok (VYearMonth (JSDate.getFullYear cd) (JSDate.getMonth cd)).

End Calendar.

(* ====================================================================== *)
(** ** The widget as a state machine *)

Module Machine.
Import DOM Calendar.

(** The instances a host page can hold: a constructed one, and whatever
    the clicks and the public methods that return make of it, at any
    clock readings. *)
Inductive reachable : Widget -> Prop :=
| reach_new doc now arg opts w :
    constructor doc now arg opts = Ok w -> reachable w
| reach_click_nav now i w w' :
    reachable w -> click_nav now i w = Ok w' -> reachable w'
| reach_click_day i w w' :
    reachable w -> click_day i w = Ok w' -> reachable w'
| reach_setEntryDates dates now w w' :
    reachable w -> setEntryDates dates now w = Ok w' -> reachable w'
| reach_goToMonth year month now w w' :
    reachable w -> goToMonth year month now w = Ok w' -> reachable w'.

(** What a call leaves of the instance, whether it returns or throws. *)
Definition left_by (r : Result Widget) : Widget :=
  match r with
  | Ok w => w
  | Throw _ w => w
  end.

(** What a host page makes of an instance [w0] by calling the public
    methods that write to it, catching what they throw. *)
Inductive called_on (w0 : Widget) : Widget -> Prop :=
| called_none : called_on w0 w0
| called_setEntryDates dates now w :
    called_on w0 w -> called_on w0 (left_by (setEntryDates dates now w))
| called_goToMonth year month now w :
    called_on w0 w -> called_on w0 (left_by (goToMonth year month now w)).

End Machine.

(* ====================================================================== *)
(** ** Counting loops *)

Lemma zrange_In lo n x : In x (zrange lo n) <-> lo <= x < lo + Z.of_nat n.
Proof.
  unfold zrange. rewrite in_map_iff. split.
  - intros [i [<- Hi]]. apply in_seq in Hi. lia.
  - intros Hx. exists (Z.to_nat (x - lo)). split; [lia |].
    apply in_seq. lia.
Qed.

Lemma zrange_length lo n : List.length (zrange lo n) = n.
Proof. unfold zrange. rewrite length_map, length_seq. reflexivity. Qed.

Lemma zrange_nth lo n i :
  (i < n)%nat -> nth_error (zrange lo n) i = Some (lo + Z.of_nat i).
Proof.
  intros Hi. unfold zrange. rewrite nth_error_map.
  rewrite nth_error_seq. destruct (Nat.ltb_spec i n); [reflexivity | lia].
Qed.

(* ====================================================================== *)
(** ** Facts about the Date arithmetic *)

Module JSDateFacts.
Import JSDate.

Lemma DaysInYear_cases y : DaysInYear y = 365 \/ DaysInYear y = 366.
Proof.
  unfold DaysInYear.
  destruct (y mod 4 =? 0), (y mod 100 =? 0), (y mod 400 =? 0); simpl; auto.
Qed.

Lemma DaysInYear_leap y :
  DaysInYear y = if Gregorian.is_leap y then 366 else 365.
Proof.
  unfold DaysInYear, Gregorian.is_leap.
  destruct (Z.eqb_spec (y mod 4) 0), (Z.eqb_spec (y mod 100) 0),
           (Z.eqb_spec (y mod 400) 0); simpl; try reflexivity; zlia.
Qed.

Lemma div_succ a k :
  0 < k -> (a + 1) / k = a / k + (if (a + 1) mod k =? 0 then 1 else 0).
Proof.
  intros Hk.
  pose proof (Z.div_mod (a + 1) k ltac:(lia)) as Hdm.
  pose proof (Z.mod_pos_bound (a + 1) k Hk) as Hb.
  destruct (Z.eqb_spec ((a + 1) mod k) 0) as [E | E].
  - enough (a / k = (a + 1) / k - 1) by lia.
    symmetry. apply (Z.div_unique a k _ (k - 1)); lia.
  - rewrite Z.add_0_r.
    apply (Z.div_unique a k _ ((a + 1) mod k - 1)); lia.
Qed.

(** Consecutive years are [DaysInYear] apart. *)
Lemma DayFromYear_succ y : DayFromYear (y + 1) = DayFromYear y + DaysInYear y.
Proof.
  unfold DayFromYear, DaysInYear.
  replace (y + 1 - 1969) with (y - 1969 + 1) by lia.
  replace (y + 1 - 1901) with (y - 1901 + 1) by lia.
  replace (y + 1 - 1601) with (y - 1601 + 1) by lia.
  rewrite !div_succ by lia.
  replace ((y - 1969 + 1) mod 4) with (y mod 4) by zlia.
  replace ((y - 1901 + 1) mod 100) with (y mod 100) by zlia.
  replace ((y - 1601 + 1) mod 400) with (y mod 400) by zlia.
  destruct (Z.eqb_spec (y mod 4) 0), (Z.eqb_spec (y mod 100) 0),
           (Z.eqb_spec (y mod 400) 0); cbn [negb]; try lia; exfalso; zlia.
Qed.

Lemma DayFromYear_mono a b : a <= b -> DayFromYear a <= DayFromYear b.
Proof.
  revert b. apply Z.le_ind.
  - intros x y ->. reflexivity.
  - lia.
  - intros m _ IH. unfold Z.succ. rewrite DayFromYear_succ.
    destruct (DaysInYear_cases m); lia.
Qed.

(** The first day of year [y] lies within a day and a half of
    [365.2425 * (y - 1970)]. *)
Lemma DayFromYear_bounds y :
  146097 * (y - 1970) - 506 <= 400 * DayFromYear y <= 146097 * (y - 1970) + 589.
Proof. unfold DayFromYear. zlia. Qed.

(** [YearFromDay d] is the year ECMA-262 asks for: the one whose first day
    is the last first-of-January not after [d]. *)
Lemma YearFromDay_spec d :
  DayFromYear (YearFromDay d) <= d < DayFromYear (YearFromDay d + 1).
Proof.
  unfold YearFromDay.
  set (ye := 1970 + 400 * d / 146097).
  assert (Hye : 146097 * (ye - 1970) <= 400 * d < 146097 * (ye - 1970) + 146097)
    by (subst ye; zlia).
  destruct (Z.ltb_spec d (DayFromYear ye)) as [Hlt | Hge].
  - replace (ye - 1 + 1) with ye by lia. split; [| exact Hlt].
    pose proof (DayFromYear_bounds (ye - 1)). lia.
  - destruct (Z.leb_spec (DayFromYear (ye + 1)) d) as [Hle | Hlt'].
    + split; [exact Hle |].
      pose proof (DayFromYear_bounds (ye + 1 + 1)). lia.
    + split; assumption.
Qed.

Lemma YearFromDay_unique d y :
  DayFromYear y <= d < DayFromYear (y + 1) -> YearFromDay d = y.
Proof.
  intros [Hlo Hhi]. pose proof (YearFromDay_spec d) as [Slo Shi].
  destruct (Z.lt_trichotomy (YearFromDay d) y) as [Hlt | [Heq | Hgt]].
  - pose proof (DayFromYear_mono (YearFromDay d + 1) y ltac:(lia)). lia.
  - exact Heq.
  - pose proof (DayFromYear_mono (y + 1) (YearFromDay d) ltac:(lia)). lia.
Qed.

Definition leap_flag (y : Z) : Z := if DaysInYear y =? 366 then 1 else 0.

Lemma leap_flag_cases y :
  (leap_flag y = 0 /\ DaysInYear y = 365) \/ (leap_flag y = 1 /\ DaysInYear y = 366).
Proof.
  unfold leap_flag. destruct (DaysInYear_cases y) as [-> | ->]; simpl; auto.
Qed.

(** A day given by its year and its offset within the year. *)
Lemma YearFromDay_offset y w :
  0 <= w < DaysInYear y -> YearFromDay (DayFromYear y + w) = y.
Proof.
  intros Hw. apply YearFromDay_unique. rewrite DayFromYear_succ. lia.
Qed.

Lemma DayWithinYear_offset y w :
  0 <= w < DaysInYear y -> DayWithinYear (DayFromYear y + w) = w.
Proof.
  intros Hw. unfold DayWithinYear. rewrite YearFromDay_offset by exact Hw. lia.
Qed.

Lemma InLeapYear_offset y w :
  0 <= w < DaysInYear y -> InLeapYear (DayFromYear y + w) = leap_flag y.
Proof.
  intros Hw. unfold InLeapYear. rewrite YearFromDay_offset by exact Hw. reflexivity.
Qed.

Lemma MakeDay_in_range y mn dt :
  0 <= mn <= 11 ->
  MakeDay y mn dt = DayFromYear y + (MonthStart mn (leap_flag y) + dt - 1).
Proof.
  intros Hm. unfold MakeDay, leap_flag.
  replace (mn / 12) with 0 by zlia. replace (mn mod 12) with mn by zlia.
  rewrite Z.add_0_r. lia.
Qed.

(** Months outside 0..11 carry into the year. *)
Lemma MakeDay_carry y m dt : MakeDay y m dt = MakeDay (y + m / 12) (m mod 12) dt.
Proof.
  unfold MakeDay.
  replace ((m mod 12) / 12) with 0 by zlia.
  replace ((m mod 12) mod 12) with (m mod 12) by zlia.
  rewrite Z.add_0_r. reflexivity.
Qed.

(** Length of month [mn] in a year with leap flag [l]. *)
Definition month_length (l mn : Z) : Z :=
  match mn with
  | 1 => 28 + l
  | 3 | 5 | 8 | 10 => 30
  | _ => 31
  end.

Lemma days_in_month_flag y mn :
  Gregorian.days_in_month y mn = month_length (leap_flag y) mn.
Proof.
  unfold Gregorian.days_in_month, month_length, leap_flag.
  rewrite DaysInYear_leap.
  destruct (Gregorian.is_leap y);
    (destruct mn as [| p | p]; [reflexivity | | reflexivity]);
    do 4 (try destruct p as [p | p |]); reflexivity.
Qed.

Lemma days_in_month_pos y mn : 28 <= Gregorian.days_in_month y mn <= 31.
Proof.
  unfold Gregorian.days_in_month.
  destruct (Gregorian.is_leap y);
    (destruct mn as [| p | p]; [lia | | lia]);
    do 4 (try destruct p as [p | p |]); lia.
Qed.

(** The tables of MonthFromTime and DateFromTime, checked on every day of
    every month of a common year and of a leap year. *)
Definition check_day (l mn dt : Z) : bool :=
  let w := MonthStart mn l + dt - 1 in
  (0 <=? w) && (w <? 365 + l) &&
  (MonthOfYearDay w l =? mn) && (DateOfYearDay w l =? dt) &&
  (MonthStart mn l + month_length l mn =?
     if mn =? 11 then 365 + l else MonthStart (mn + 1) l).

Definition check_year (l : Z) : bool :=
  forallb (fun mn =>
    forallb (check_day l mn) (zrange 1 (Z.to_nat (month_length l mn))))
    (zrange 0 12).

Lemma tables_checked : forallb check_year [0; 1] = true.
Proof. vm_compute. reflexivity. Qed.

Lemma check_day_holds l mn dt :
  l = 0 \/ l = 1 -> 0 <= mn <= 11 -> 1 <= dt <= month_length l mn ->
  check_day l mn dt = true.
Proof.
  intros Hl Hm Hd.
  pose proof tables_checked as T. rewrite forallb_forall in T.
  assert (Hy : check_year l = true)
    by (apply T; destruct Hl as [-> | ->]; simpl; auto).
  unfold check_year in Hy. rewrite forallb_forall in Hy.
  specialize (Hy mn (proj2 (zrange_In 0 12 mn) ltac:(lia))).
  rewrite forallb_forall in Hy. apply Hy, zrange_In. lia.
Qed.

Lemma leap_flag_01 y : leap_flag y = 0 \/ leap_flag y = 1.
Proof. destruct (leap_flag_cases y) as [[-> _] | [-> _]]; auto. Qed.

Lemma DaysInYear_flag y : DaysInYear y = 365 + leap_flag y.
Proof. destruct (leap_flag_cases y) as [[-> ->] | [-> ->]]; reflexivity. Qed.

(** Reading back the fields of a date built from a day of a month. *)
Theorem civil_roundtrip y mn dt :
  0 <= mn <= 11 -> 1 <= dt <= Gregorian.days_in_month y mn ->
  YearFromDay (MakeDay y mn dt) = y /\
  MonthFromDay (MakeDay y mn dt) = mn /\
  DateFromDay (MakeDay y mn dt) = dt.
Proof.
  intros Hm Hd. rewrite days_in_month_flag in Hd.
  pose proof (check_day_holds _ mn dt (leap_flag_01 y) Hm Hd) as C.
  unfold check_day in C. cbv zeta in C.
  rewrite !andb_true_iff in C. destruct C as [[[[C1 C2] C3] C4] _].
  apply Z.leb_le in C1. apply Z.ltb_lt in C2.
  apply Z.eqb_eq in C3. apply Z.eqb_eq in C4.
  rewrite <- DaysInYear_flag in C2.
  rewrite MakeDay_in_range by exact Hm.
  split; [apply YearFromDay_offset; lia |].
  unfold DateFromDay, MonthFromDay.
  rewrite DayWithinYear_offset, InLeapYear_offset by lia.
  split; assumption.
Qed.

(** Day 0 of the next month is the last day of this month. *)
Lemma MakeDay_day0_next y mn :
  0 <= mn <= 11 ->
  MakeDay y (mn + 1) 0 = MakeDay y mn (Gregorian.days_in_month y mn).
Proof.
  intros Hm. rewrite days_in_month_flag.
  pose proof (days_in_month_pos y mn) as Hp. rewrite days_in_month_flag in Hp.
  pose proof (check_day_holds _ mn 1 (leap_flag_01 y) Hm ltac:(lia)) as C.
  unfold check_day in C. cbv zeta in C.
  rewrite !andb_true_iff in C. destruct C as [_ C]. apply Z.eqb_eq in C.
  destruct (Z.eqb_spec mn 11) as [E | Hne] in C.
  - subst mn. unfold MakeDay.
    change ((11 + 1) / 12) with 1. change ((11 + 1) mod 12) with 0.
    change (11 / 12) with 0. change (11 mod 12) with 11.
    replace (y + 0) with y by lia. rewrite DayFromYear_succ.
    fold (leap_flag y). fold (leap_flag (y + 1)).
    rewrite DaysInYear_flag.
    change (MonthStart 0 (leap_flag (y + 1))) with 0. lia.
  - rewrite !MakeDay_in_range by lia. lia.
Qed.

(** Days from the (proleptic) start of the calendar to the end of year
    [Y], up to a constant. *)
Definition days_to (Y : Z) : Z := 365 * Y + Y / 4 - Y / 100 + Y / 400.

Lemma DayFromYear_days_to y : DayFromYear y = days_to (y - 1) - 719162.
Proof.
  unfold DayFromYear, days_to.
  assert ((y - 1969) / 4 = (y - 1) / 4 - 492) by zlia.
  assert ((y - 1901) / 100 = (y - 1) / 100 - 19) by zlia.
  assert ((y - 1601) / 400 = (y - 1) / 400 - 4) by zlia.
  lia.
Qed.

(** The same count by centuries, as Zeller's congruence splits the year. *)
Lemma days_to_century Y :
  days_to Y =
  36524 * (Y / 100) + 365 * (Y mod 100) + (Y mod 100) / 4 + (Y / 100) / 4.
Proof.
  unfold days_to.
  assert (Y / 4 = 25 * (Y / 100) + (Y mod 100) / 4) by zlia.
  assert (Y / 400 = (Y / 100) / 4) by zlia.
  zlia.
Qed.

Lemma DayFromYear_leap_days_to y :
  DayFromYear y + leap_flag y = days_to y - 719527.
Proof.
  pose proof (DayFromYear_succ y) as S. rewrite DaysInYear_flag in S.
  rewrite DayFromYear_days_to in S. replace (y + 1 - 1) with y in S by lia.
  lia.
Qed.

Ltac month_cases m H :=
  assert (m = 0 \/ m = 1 \/ m = 2 \/ m = 3 \/ m = 4 \/ m = 5 \/ m = 6 \/
          m = 7 \/ m = 8 \/ m = 9 \/ m = 10 \/ m = 11) as H by lia;
  repeat destruct H as [H | H]; subst m.

(** getDay of the first of a month agrees with Zeller's congruence. *)
Theorem WeekDay_first_of_month y mn :
  0 <= mn <= 11 -> WeekDay (MakeDay y mn 1) = Gregorian.weekday y mn 1.
Proof.
  intros Hm. rewrite MakeDay_in_range by exact Hm.
  unfold WeekDay, Gregorian.weekday.
  destruct (Z.ltb_spec mn 2) as [Hlt | Hge].
  - rewrite DayFromYear_days_to, days_to_century.
    generalize ((y - 1) mod 100 / 4) ((y - 1) / 100 / 4)
               ((y - 1) mod 100) ((y - 1) / 100).
    intros k4 j4 k j.
    assert (H : mn = 0 \/ mn = 1) by lia.
    destruct H as [-> | ->]; cbv [MonthStart]; zlia.
  - assert (Hs : DayFromYear y + (MonthStart mn (leap_flag y) + 1 - 1) + 4 =
                 days_to y - 719527 + MonthStart mn 0 + 4).
    { rewrite <- DayFromYear_leap_days_to.
      month_cases mn H; cbv [MonthStart]; lia. }
    rewrite Hs, days_to_century.
    generalize (y mod 100 / 4) (y / 100 / 4) (y mod 100) (y / 100).
    intros k4 j4 k j.
    month_cases mn H; cbv [MonthStart]; zlia.
Qed.

(** *** Every date is a day of a month *)

Lemma DayWithinYear_range d :
  0 <= DayWithinYear d < DaysInYear (YearFromDay d).
Proof.
  pose proof (YearFromDay_spec d) as [Hlo Hhi].
  rewrite DayFromYear_succ in Hhi. unfold DayWithinYear. lia.
Qed.

Lemma InLeapYear_flag d : InLeapYear d = leap_flag (YearFromDay d).
Proof. reflexivity. Qed.

(** The day of the month is at least 1 and the day is where MakeDay puts
    that day of that month. *)
Lemma DateOfYearDay_spec w l :
  0 <= w ->
  1 <= DateOfYearDay w l /\
  w = MonthStart (MonthOfYearDay w l) l + DateOfYearDay w l - 1.
Proof.
  intros Hw. unfold DateOfYearDay, MonthOfYearDay.
  repeat match goal with
         | |- context [if ?a <? ?b then _ else _] =>
             destruct (Z.ltb_spec a b); cbv beta iota;
             [cbv [MonthStart]; lia |]
         end.
  cbv [MonthStart]. lia.
Qed.

Theorem date_decomposition d :
  1 <= DateFromDay d /\
  d = MakeDay (YearFromDay d) (MonthFromDay d) (DateFromDay d).
Proof.
  pose proof (DayWithinYear_range d) as Hw.
  destruct (DateOfYearDay_spec (DayWithinYear d) (InLeapYear d) (proj1 Hw))
    as [Hpos Hsum].
  split; [exact Hpos |].
  assert (Hm : 0 <= MonthFromDay d <= 11).
  { unfold MonthFromDay, MonthOfYearDay.
    repeat match goal with
           | |- context [if ?b then _ else _] => destruct b; [lia |]
           end.
    lia. }
  rewrite MakeDay_in_range by exact Hm.
  unfold MonthFromDay, DateFromDay. rewrite <- InLeapYear_flag.
  unfold DayWithinYear in Hsum at 1. lia.
Qed.

(** [setMonth] on a date whose day of the month exists in every month. *)
Theorem setMonth_short_day d m :
  DateFromDay d <= 28 ->
  YearFromDay (setMonth d m) = YearFromDay d + m / 12 /\
  MonthFromDay (setMonth d m) = m mod 12 /\
  DateFromDay (setMonth d m) = DateFromDay d.
Proof.
  intros Hd. destruct (date_decomposition d) as [Hpos _].
  unfold setMonth. rewrite MakeDay_carry.
  pose proof (days_in_month_pos (YearFromDay d + m / 12) (m mod 12)) as Hp.
  apply civil_roundtrip; [zlia | lia].
Qed.

(** The days of the months from May -271821 to August 275760 are valid
    dates. *)
Lemma MakeDay_within_TimeClip y mn dt :
  0 <= mn <= 11 -> 1 <= dt <= 31 ->
  12 * -271821 + 4 <= 12 * y + mn <= 12 * 275760 + 7 ->
  within_TimeClip (MakeDay y mn dt).
Proof.
  intros Hm Hd Hc. rewrite MakeDay_in_range by exact Hm.
  unfold within_TimeClip.
  pose proof (leap_flag_01 y) as Hl.
  assert (Elo : DayFromYear (-271821) = -100000109) by reflexivity.
  assert (Ehi : DayFromYear 275760 = 99999744) by reflexivity.
  assert (Hs : 0 <= MonthStart mn (leap_flag y) <= 335 /\
               (4 <= mn -> 120 <= MonthStart mn (leap_flag y)) /\
               (mn <= 7 -> MonthStart mn (leap_flag y) <= 213)).
  { clear Hc. month_cases mn Hcase; cbn [MonthStart]; lia. }
  destruct Hs as (Hs & Hs4 & Hs7).
  destruct (Z.eq_dec y (-271821)) as [E1 | N1];
    [subst y; rewrite Elo; lia |].
  destruct (Z.eq_dec y 275760) as [E2 | N2];
    [subst y; rewrite Ehi; lia |].
  pose proof (DayFromYear_mono (-271820) y ltac:(lia)) as Mlo.
  pose proof (DayFromYear_mono (y + 1) 275760 ltac:(lia)) as Mhi.
  assert (Elo' : DayFromYear (-271820) = -99999744) by reflexivity.
  rewrite DayFromYear_succ in Mhi.
  pose proof (DaysInYear_flag y) as Hf.
  lia.
Qed.

Lemma date_within_TimeClip d :
  DateFromDay d <= 31 ->
  12 * -271821 + 4 <= 12 * YearFromDay d + MonthFromDay d <= 12 * 275760 + 7 ->
  within_TimeClip d.
Proof.
  intros Hd Hc. destruct (date_decomposition d) as [Hpos Hdec].
  rewrite Hdec. apply MakeDay_within_TimeClip; try lia.
  unfold MonthFromDay, MonthOfYearDay.
  repeat match goal with
         | |- context [if ?b then _ else _] => destruct b; [lia |]
         end.
  lia.
Qed.

(** The dates of the years -271820 .. 275759 are valid dates. *)
Lemma year_within_TimeClip d :
  -271820 <= getFullYear d <= 275759 -> within_TimeClip d.
Proof.
  unfold getFullYear, within_TimeClip. intros [Hlo Hhi].
  pose proof (YearFromDay_spec d) as [Slo Shi].
  pose proof (DayFromYear_mono (-271820) (YearFromDay d) Hlo) as Mlo.
  pose proof (DayFromYear_mono (YearFromDay d + 1) 275760 ltac:(lia)) as Mhi.
  assert (Elo : DayFromYear (-271820) = -99999744) by reflexivity.
  assert (Ehi : DayFromYear 275760 = 99999744) by reflexivity.
  lia.
Qed.

End JSDateFacts.

(* ====================================================================== *)
(** ** Years the Date constructor takes at face value *)

(** [new Date(year, month, day)] reads a year from 0 to 99 as 1900 + year,
    and a Date is valid only within 100,000,000 days of the epoch.  The
    statements about a displayed year are for years outside 0..99 and
    inside that range. *)
Definition plain_year (y : Z) : Prop :=
  -271820 <= y <= 275759 /\ ~ (0 <= y <= 99).

Lemma MakeFullYear_plain y : plain_year y -> JSDate.MakeFullYear y = y.
Proof.
  intros [_ Hy]. unfold JSDate.MakeFullYear.
  destruct (Z.leb_spec 0 y), (Z.leb_spec y 99); cbn [andb]; try reflexivity. lia.
Qed.

Lemma make_plain_year y m d :
  plain_year y -> JSDate.make y m d = JSDate.MakeDay y m d.
Proof.
  intros Hy. unfold JSDate.make. rewrite MakeFullYear_plain by exact Hy.
  reflexivity.
Qed.

(* ====================================================================== *)
(** ** What render and attachEvents produce on a live widget *)

Module Grid.
Import DOM Calendar.
Local Open Scope string_scope.

(** The cell of one day, given the options in force. *)
Definition cell_of (o : Options) (year month : Z) (today : JSDate.t)
    (day : Z) : DayCell :=
  let ds := dateStr year month day in
  let isToday := highlightToday o &&
                 (day =? JSDate.getDate today)%Z &&
                 (month =? JSDate.getMonth today)%Z &&
                 (year =? JSDate.getFullYear today)%Z in
  let hasEntry := JSString.includes (entryDates o) ds in
  mkDayCell (["calendar-day"] ++ (if isToday then ["today"] else [])
                              ++ (if hasEntry then ["has-entry"] else []))%list
            (Some ds) (Some day) 0.

Definition firstDay_of (year month : Z) : Z :=
  JSDate.getDay (JSDate.make year month 1).

Definition daysInMonth_of (year month : Z) : Z :=
  JSDate.getDate (JSDate.make year (month + 1) 0).

(** The subtree [render] builds for a displayed month. *)
Definition grid (o : Options) (year month : Z) (today : JSDate.t) : Container :=
  mkContainer
    (nth (Z.to_nat month) monthNames "undefined" ++ " " ++
     JSString.of_number year)
    [mkNavBtn "prev" 0; mkNavBtn "next" 0]
    weekdayNames
    (repeat filler_cell (Z.to_nat (firstDay_of year month)) ++
     map (cell_of o year month today)
         (zrange 1 (Z.to_nat (daysInMonth_of year month))))%list.

(** The same subtree once [attachEvents] has run over it. *)
Definition attach (c : Container) : Container :=
  mkContainer (title c) (map add_nav_listener (nav c)) (weekdays c)
              (map add_day_listener (days c)).

(** A live instance: the constructor found its container. *)
Definition live (w : Widget) : Prop :=
  exists c o cd,
    container w = Some c /\ options w = Some o /\ currentDate w = Some cd.

(** The container holds the rendering of the instance's own state, with
    its listeners attached once. *)
Definition rendered (w : Widget) : Prop :=
  exists o cd today,
    options w = Some o /\ currentDate w = Some cd /\
    container w =
      Some (attach (grid o (JSDate.getFullYear cd) (JSDate.getMonth cd) today)).

Lemma rendered_live w : rendered w -> live w.
Proof.
  intros (o & cd & today & Ho & Hcd & Hc).
  exists (attach (grid o (JSDate.getFullYear cd) (JSDate.getMonth cd) today)), o, cd.
  auto.
Qed.

Lemma mapM_day_cell w o year month today l :
  options w = Some o ->
  mapM (day_cell w year month today) l = Ok (map (cell_of o year month today) l).
Proof.
  intros Ho. induction l as [| d l IH]; [reflexivity |].
  cbn [mapM map]. rewrite IH. unfold day_cell. rewrite Ho. reflexivity.
Qed.

Lemma render_live now w c o cd :
  container w = Some c -> options w = Some o -> currentDate w = Some cd ->
  render now w =
  Ok (set_container (grid o (JSDate.getFullYear cd) (JSDate.getMonth cd) now) w).
Proof.
  intros Hc Ho Hcd. unfold render. rewrite Hcd. cbn [defined bind].
  rewrite (mapM_day_cell w o) by exact Ho. cbn [bind].
  rewrite Hc. cbn [defined bind].
  unfold grid, firstDay_of, daysInMonth_of. reflexivity.
Qed.

Lemma init_live now w c o cd :
  container w = Some c -> options w = Some o -> currentDate w = Some cd ->
  init now w =
  Ok (set_container
        (attach (grid o (JSDate.getFullYear cd) (JSDate.getMonth cd) now)) w).
Proof.
  intros Hc Ho Hcd. unfold init.
  rewrite (render_live now w c o cd) by assumption. reflexivity.
Qed.

Lemma init_rendered now w w' : live w -> init now w = Ok w' -> rendered w'.
Proof.
  intros (c & o & cd & Hc & Ho & Hcd) H.
  rewrite (init_live now w c o cd) in H by assumption.
  injection H as <-. exists o, cd, now. auto.
Qed.

(** *** The cells of the attached grid *)

Lemma cell_of_selected o year month today day :
  day_selector (cell_of o year month today day) = true /\
  is_filler (cell_of o year month today day) = false.
Proof.
  unfold day_selector, is_filler, has_class, cell_of. cbv zeta.
  cbn [classes].
  destruct (highlightToday o && (day =? JSDate.getDate today)%Z &&
            (month =? JSDate.getMonth today)%Z &&
            (year =? JSDate.getFullYear today)%Z);
    destruct (JSString.includes (entryDates o) (dateStr year month day));
    split; reflexivity.
Qed.

(** A day cell with its one click listener. *)
Definition listening (c : DayCell) : DayCell :=
  mkDayCell (classes c) (data_date c) (text c) 1.

Lemma add_day_listener_cell o year month today day :
  add_day_listener (cell_of o year month today day) =
  listening (cell_of o year month today day).
Proof.
  unfold add_day_listener.
  rewrite (proj1 (cell_of_selected o year month today day)). reflexivity.
Qed.

Lemma add_day_listener_filler : add_day_listener filler_cell = filler_cell.
Proof. reflexivity. Qed.

Lemma attach_grid_days o year month today :
  days (attach (grid o year month today)) =
  (repeat filler_cell (Z.to_nat (firstDay_of year month)) ++
   map (fun day => listening (cell_of o year month today day))
       (zrange 1 (Z.to_nat (daysInMonth_of year month))))%list.
Proof.
  unfold attach, grid. cbn [days]. rewrite map_app. f_equal.
  - induction (Z.to_nat (firstDay_of year month)) as [| n IH];
      [reflexivity |].
    cbn [repeat map]. rewrite IH, add_day_listener_filler. reflexivity.
  - rewrite map_map. apply map_ext. intros day.
    apply add_day_listener_cell.
Qed.

Lemma attach_grid_nav o year month today :
  nav (attach (grid o year month today)) =
  [mkNavBtn "prev" 1; mkNavBtn "next" 1].
Proof. reflexivity. Qed.

(** Every cell of the attached grid is a leading filler or the cell of
    one day, in order. *)
Lemma attach_grid_nth o year month today i cell :
  nth_error (days (attach (grid o year month today))) i = Some cell ->
  ((i < Z.to_nat (firstDay_of year month))%nat /\ cell = filler_cell) \/
  (exists k,
      i = (Z.to_nat (firstDay_of year month) + k)%nat /\
      (k < Z.to_nat (daysInMonth_of year month))%nat /\
      cell = listening (cell_of o year month today (1 + Z.of_nat k))).
Proof.
  rewrite attach_grid_days. intros H.
  set (F := Z.to_nat (firstDay_of year month)) in *.
  set (D := Z.to_nat (daysInMonth_of year month)) in *.
  destruct (Nat.ltb_spec i F) as [Hlt | Hge].
  - left. split; [exact Hlt |].
    rewrite nth_error_app1 in H by (rewrite repeat_length; exact Hlt).
    rewrite nth_error_repeat in H by exact Hlt. congruence.
  - right. exists (i - F)%nat.
    rewrite nth_error_app2 in H by (rewrite repeat_length; exact Hge).
    rewrite repeat_length, nth_error_map in H.
    assert (Hk : (i - F < D)%nat).
    { destruct (Nat.ltb_spec (i - F) D) as [Hk | Hk]; [exact Hk |].
      rewrite (proj2 (nth_error_None _ _)) in H; [discriminate |].
      rewrite zrange_length. exact Hk. }
    rewrite zrange_nth in H by exact Hk. cbn [option_map] in H.
    repeat split; [lia | exact Hk | congruence].
Qed.

(** *** Entry marks *)

Lemma includes_In l s : JSString.includes l s = true <-> In s l.
Proof.
  unfold JSString.includes. rewrite existsb_exists. split.
  - intros [x [Hin Heq]]. apply String.eqb_eq in Heq. subst x. exact Hin.
  - intros Hin. exists s. split; [exact Hin | apply String.eqb_refl].
Qed.

Lemma cell_of_has_entry o year month today day :
  has_class "has-entry" (cell_of o year month today day) =
  JSString.includes (entryDates o) (dateStr year month day).
Proof.
  unfold has_class, cell_of. cbv zeta. cbn [classes].
  destruct (highlightToday o && (day =? JSDate.getDate today)%Z &&
            (month =? JSDate.getMonth today)%Z &&
            (year =? JSDate.getFullYear today)%Z);
    destruct (JSString.includes (entryDates o) (dateStr year month day));
    reflexivity.
Qed.

Lemma cell_of_today o year month today day :
  has_class "today" (cell_of o year month today day) =
  (highlightToday o && (day =? JSDate.getDate today)%Z &&
   (month =? JSDate.getMonth today)%Z && (year =? JSDate.getFullYear today)%Z)%bool.
Proof.
  unfold has_class, cell_of. cbv zeta. cbn [classes].
  destruct (highlightToday o && (day =? JSDate.getDate today)%Z &&
            (month =? JSDate.getMonth today)%Z &&
            (year =? JSDate.getFullYear today)%Z);
    destruct (JSString.includes (entryDates o) (dateStr year month day));
    reflexivity.
Qed.

(** The cells of an attached grid, one by one. *)
Lemma attach_grid_In o year month today cell :
  In cell (days (attach (grid o year month today))) ->
  cell = filler_cell \/
  exists day,
    1 <= day <= daysInMonth_of year month /\
    cell = listening (cell_of o year month today day).
Proof.
  intros Hin. apply In_nth_error in Hin. destruct Hin as [i Hi].
  destruct (attach_grid_nth _ _ _ _ _ _ Hi) as [[_ ->] | (k & _ & Hk & ->)].
  - left. reflexivity.
  - right. exists (1 + Z.of_nat k). split; [lia | reflexivity].
Qed.

End Grid.

(* ====================================================================== *)
(** ** Facts about the identifiers *)

Module IdFacts.
Import JSString DayId.
Local Open Scope string_scope.

Lemma digits_nonempty fuel n acc : acc <> "" -> digits fuel n acc <> "".
Proof.
  revert n acc. induction fuel as [| f IH]; intros n acc Hacc; [exact Hacc |].
  cbn [digits]. destruct (n / 10 =? 0)%Z; [discriminate |].
  apply IH. discriminate.
Qed.

Lemma of_number_nonempty n : of_number n <> "".
Proof.
  unfold of_number. destruct (n <? 0)%Z; [discriminate |].
  cbn [digits]. destruct (n / 10 =? 0)%Z; [discriminate |].
  apply digits_nonempty. discriminate.
Qed.

Lemma append_nonempty s t : s <> "" -> s ++ t <> "".
Proof. destruct s; [congruence | discriminate]. Qed.

(** The identifier of a day cell is never the empty string, so the click
    listener's test [dateStr && ...] never stops at it. *)
Lemma dateStr_truthy year month day :
  truthy (Calendar.dateStr year month day) = true.
Proof.
  unfold truthy, Calendar.dateStr.
  destruct (String.eqb_spec
              (of_number year ++ "-" ++
               padStart (of_number (month + 1)) 2 "0" ++ "-" ++
               padStart (of_number day) 2 "0") "") as [E | E];
    [| reflexivity].
  exfalso. revert E. apply append_nonempty, of_number_nonempty.
Qed.

(** *** Number conversion writes every digit *)

(** Reading a string of decimal digits back, most significant digit first. *)
Fixpoint decode_from (a : Z) (s : string) : Z :=
  match s with
  | EmptyString => a
  | String c s' => decode_from (10 * a + digit_value c) s'
  end.

Definition decode (s : string) : Z := decode_from 0 s.

Lemma digit_char_value k : 0 <= k <= 9 -> digit_value (digit_char k) = k.
Proof.
  intros Hk. unfold digit_value, digit_char.
  rewrite nat_ascii_embedding by lia. lia.
Qed.

(** The number spelled by [a] followed by the digits of [n]. *)
Fixpoint lead (fuel : nat) (a n : Z) : Z :=
  match fuel with
  | O => a
  | S f =>
      if (n / 10 =? 0)%Z then 10 * a + n mod 10
      else 10 * lead f a (n / 10) + n mod 10
  end.

Lemma decode_digits fuel : forall n a acc,
  0 <= n -> decode_from a (digits fuel n acc) = decode_from (lead fuel a n) acc.
Proof.
  induction fuel as [| f IH]; intros n a acc Hn; [reflexivity |].
  cbn [digits lead]. destruct (n / 10 =? 0)%Z.
  - cbn [decode_from]. rewrite digit_char_value by zlia. reflexivity.
  - rewrite IH by zlia. cbn [decode_from].
    rewrite digit_char_value by zlia. reflexivity.
Qed.

Lemma lead_zero fuel : forall n,
  0 <= n < 10 ^ Z.of_nat fuel -> lead fuel 0 n = n.
Proof.
  induction fuel as [| f IH]; intros n Hn.
  - cbn in Hn. cbn [lead]. lia.
  - cbn [lead]. destruct (Z.eqb_spec (n / 10) 0) as [E | E]; [zlia |].
    rewrite IH; [zlia |].
    rewrite Nat2Z.inj_succ, Z.pow_succ_r in Hn by lia. zlia.
Qed.

(** The fuel of [of_number] is enough: a number has no more decimal than
    binary digits. *)
Lemma fuel_suffices n : 0 <= n -> n < 10 ^ Z.of_nat (S (Z.to_nat (Z.log2 n))).
Proof.
  intros Hn. rewrite Nat2Z.inj_succ, Z2Nat.id by apply Z.log2_nonneg.
  destruct (Z.eq_dec n 0) as [-> | Hne]; [reflexivity |].
  pose proof (Z.log2_spec n ltac:(lia)) as [_ Hhi].
  pose proof (Z.log2_nonneg n) as Hlog.
  assert (2 ^ Z.succ (Z.log2 n) <= 10 ^ Z.succ (Z.log2 n))
    by (apply Z.pow_le_mono_l; lia).
  lia.
Qed.

(** [of_number] writes every digit of a non-negative integer: reading the
    string back gives the integer. *)
Theorem of_number_decode n : 0 <= n -> decode (of_number n) = n.
Proof.
  intros Hn. unfold of_number, decode.
  destruct (Z.ltb_spec n 0) as [Hlt | _]; [lia |].
  rewrite decode_digits by exact Hn.
  apply lead_zero. split; [exact Hn | apply fuel_suffices; exact Hn].
Qed.

(** *** Identifiers of four-digit years *)

(** The digits of a four-digit year and of a two-digit field. *)
Definition year_digits (y : Z) : string :=
  String (digit_char (y / 1000)) (String (digit_char (y / 100 mod 10))
  (String (digit_char (y / 10 mod 10)) (String (digit_char (y mod 10)) ""))).

Definition field_digits (n : Z) : string :=
  String (digit_char (n / 10)) (String (digit_char (n mod 10)) "").

(** Months and days are padded to two digits: checked on 0..99. *)
Lemma fields_checked :
  forallb (fun n => String.eqb (padStart (of_number n) 2 "0") (field_digits n))
          (zrange 0 100) = true.
Proof. vm_compute. reflexivity. Qed.

(** Four rounds of [digits] write a four-digit year. *)
Lemma digits_year fuel y acc :
  1000 <= y <= 9999 ->
  digits (S (S (S (S fuel)))) y acc = year_digits y ++ acc.
Proof.
  intros Hy. cbn [digits].
  replace (y / 10 =? 0)%Z with false by (symmetry; apply Z.eqb_neq; zlia).
  replace (y / 10 / 10 =? 0)%Z with false by (symmetry; apply Z.eqb_neq; zlia).
  replace (y / 10 / 10 / 10 =? 0)%Z with false
    by (symmetry; apply Z.eqb_neq; zlia).
  replace (y / 10 / 10 / 10 / 10 =? 0)%Z with true
    by (symmetry; apply Z.eqb_eq; zlia).
  unfold year_digits. cbn [append].
  replace (y / 10 / 10 / 10 mod 10) with (y / 1000) by zlia.
  replace (y / 10 / 10 mod 10) with (y / 100 mod 10) by zlia.
  reflexivity.
Qed.

Lemma of_number_year y : 1000 <= y <= 9999 -> of_number y = year_digits y.
Proof.
  intros Hy. unfold of_number.
  destruct (Z.ltb_spec y 0) as [Hlt | _]; [lia |].
  assert (Hlog : 9 <= Z.log2 y).
  { change 9 with (Z.log2 1000). apply Z.log2_le_mono. lia. }
  destruct (Z.to_nat (Z.log2 y)) as [| [| [| n]]] eqn:E; try lia.
  rewrite digits_year by exact Hy.
  unfold year_digits. reflexivity.
Qed.

Lemma padStart_field n :
  0 <= n <= 99 -> padStart (of_number n) 2 "0" = field_digits n.
Proof.
  intros Hn. pose proof fields_checked as C. rewrite forallb_forall in C.
  apply String.eqb_eq, C, zrange_In. lia.
Qed.

Lemma dateStr_canonical year month day :
  1000 <= year <= 9999 -> 0 <= month <= 11 -> 1 <= day <= 31 ->
  Calendar.dateStr year month day = canonical year (month + 1) day.
Proof.
  intros Hy Hm Hd. unfold Calendar.dateStr.
  rewrite of_number_year by exact Hy.
  rewrite !padStart_field by lia. reflexivity.
Qed.

Lemma is_digit_digit_char k : 0 <= k <= 9 -> is_digit (digit_char k) = true.
Proof.
  intros Hk.
  assert (H : In k (zrange 0 10)) by (apply zrange_In; lia).
  cbv [zrange seq map] in H. cbn [In] in H.
  repeat destruct H as [<- | H]; try reflexivity. contradiction.
Qed.

Lemma canonical_well_formed y m d :
  1000 <= y <= 9999 -> 1 <= m <= 12 -> 1 <= d <= 31 ->
  well_formed (canonical y m d) = true.
Proof.
  intros Hy Hm Hd. unfold canonical, well_formed.
  rewrite !is_digit_digit_char by zlia. reflexivity.
Qed.

(** A canonical identifier reads back as the day it was written for. *)
Lemma read_canonical y m d :
  1000 <= y <= 9999 -> 1 <= m <= 12 -> 1 <= d <= 31 ->
  read (canonical y m d) = Some (y, m, d).
Proof.
  intros Hy Hm Hd. unfold read.
  rewrite canonical_well_formed by assumption.
  unfold canonical. rewrite !digit_char_value by zlia.
  f_equal. f_equal; [f_equal |]; zlia.
Qed.

End IdFacts.

(* ====================================================================== *)
(** ** Clicks and public methods on a rendered instance *)

Module Behaviour.
Import DOM Calendar Machine Grid.
Local Open Scope string_scope.

Lemma rendered_set_selectedDate s w : rendered w -> rendered (set_selectedDate s w).
Proof. intros (o & cd & t & H). exists o, cd, t. exact H. Qed.

Lemma rendered_emit e w : rendered w -> rendered (emit e w).
Proof. intros (o & cd & t & H). exists o, cd, t. exact H. Qed.

Lemma live_set_options o w : live w -> live (set_options o w).
Proof. intros (c & o' & cd & Hc & _ & Hcd). exists c, o, cd. auto. Qed.

Lemma live_set_currentDate d w : live w -> live (set_currentDate d w).
Proof. intros (c & o & cd & Hc & Ho & _). exists c, o, d. auto. Qed.

(** The month a navigation click moves the internal date to. *)
Definition nav_target (action : string) (cd : JSDate.t) : JSDate.t :=
  if String.eqb action "prev"
  then JSDate.setMonth cd (JSDate.getMonth cd - 1)
  else if String.eqb action "next"
  then JSDate.setMonth cd (JSDate.getMonth cd + 1)
  else cd.

(** The instance after one run of the navigation listener. *)
Definition navigated (now : JSDate.t) (action : string) (o : Options)
    (cd : JSDate.t) (w : Widget) : Widget :=
  let cd' := nav_target action cd in
  let w2 := set_container
              (attach (grid o (JSDate.getFullYear cd') (JSDate.getMonth cd') now))
              (set_currentDate cd' w) in
  if onMonthChange o then emit (MonthChange (VDate cd')) w2 else w2.

Lemma nav_handler_live now btn w c o cd :
  container w = Some c -> options w = Some o -> currentDate w = Some cd ->
  nav_handler now btn w = Ok (navigated now (data_action btn) o cd w).
Proof.
  intros Hc Ho Hcd. unfold nav_handler. rewrite Hcd. cbn [defined bind].
  fold (nav_target (data_action btn) cd).
  set (cd' := nav_target (data_action btn) cd).
  rewrite (render_live now (set_currentDate cd' w) c o cd' Hc Ho eq_refl).
  cbn [bind]. unfold attachEvents. cbn [set_container container defined bind].
  cbn [options set_container set_currentDate]. rewrite Ho. cbn [defined bind].
  unfold navigated. fold cd'. cbv zeta.
  destruct (onMonthChange o); reflexivity.
Qed.

Lemma navigated_rendered now action o cd w :
  options w = Some o -> rendered (navigated now action o cd w).
Proof.
  intros Ho. unfold navigated. cbv zeta.
  destruct (onMonthChange o); [apply rendered_emit |];
    exists o, (nav_target action cd), now; cbn; auto.
Qed.

(** A click on the previous (index 0) or next (index 1) button of a
    rendered instance runs the listener once. *)
Lemma click_nav_rendered now i w o cd today :
  options w = Some o -> currentDate w = Some cd ->
  container w =
    Some (attach (grid o (JSDate.getFullYear cd) (JSDate.getMonth cd) today)) ->
  click_nav now i w =
  match i with
  | 0%nat => Ok (navigated now "prev" o cd w)
  | 1%nat => Ok (navigated now "next" o cd w)
  | _ => Ok w
  end.
Proof.
  intros Ho Hcd Hc. unfold click_nav. rewrite Hc, attach_grid_nav.
  destruct i as [| [| i]]; cbn [nth_error nav_listeners dispatch].
  - rewrite (nav_handler_live now _ w _ o cd Hc Ho Hcd). reflexivity.
  - rewrite (nav_handler_live now _ w _ o cd Hc Ho Hcd). reflexivity.
  - destruct i; reflexivity.
Qed.

(** The instance after one run of a day cell's listener. *)
Definition selected (o : Options) (ds : string) (w : Widget) : Widget :=
  if onDateSelect o then emit (DateSelect ds) (set_selectedDate ds w) else w.

Lemma click_day_rendered i w o cd today cell :
  options w = Some o -> currentDate w = Some cd ->
  container w =
    Some (attach (grid o (JSDate.getFullYear cd) (JSDate.getMonth cd) today)) ->
  nth_error
    (days (attach (grid o (JSDate.getFullYear cd) (JSDate.getMonth cd) today))) i
    = Some cell ->
  (is_filler cell = true /\ data_date cell = None /\ listeners cell = 0%nat /\
   click_day i w = Ok w) \/
  (is_filler cell = false /\ listeners cell = 1%nat /\
   exists day,
     1 <= day <= Grid.daysInMonth_of (JSDate.getFullYear cd) (JSDate.getMonth cd) /\
     text cell = Some day /\
     data_date cell =
       Some (dateStr (JSDate.getFullYear cd) (JSDate.getMonth cd) day) /\
     has_class "has-entry" cell =
       JSString.includes (entryDates o)
         (dateStr (JSDate.getFullYear cd) (JSDate.getMonth cd) day) /\
     click_day i w =
       Ok (selected o (dateStr (JSDate.getFullYear cd) (JSDate.getMonth cd) day) w)).
Proof.
  intros Ho Hcd Hc Hnth. unfold click_day. rewrite Hc, Hnth.
  destruct (attach_grid_nth _ _ _ _ _ _ Hnth) as [[_ ->] | (k & _ & Hk & ->)].
  - left. repeat split; reflexivity.
  - right. split; [apply cell_of_selected | split; [reflexivity |]].
    exists (1 + Z.of_nat k). split; [lia |]. split; [reflexivity |].
    split; [reflexivity |].
    split; [apply cell_of_has_entry |].
    cbn [listening listeners dispatch bind]. unfold day_handler.
    cbn [listening data_date cell_of]. rewrite IdFacts.dateStr_truthy, Ho.
    cbn [defined bind]. unfold selected.
    destruct (onDateSelect o); reflexivity.
Qed.

Lemma selected_rendered o ds w : rendered w -> rendered (selected o ds w).
Proof.
  intros H. unfold selected. destruct (onDateSelect o); [| exact H].
  apply rendered_emit, rendered_set_selectedDate, H.
Qed.

(** *** The invariant of the state machine *)

Lemma constructor_cases doc now arg opts w :
  constructor doc now arg opts = Ok w ->
  (resolve doc arg = None /\
   w = inert [ConsoleError "Calendar container not found"]) \/
  (resolve doc arg <> None /\ rendered w).
Proof.
  unfold constructor. destruct (resolve doc arg) as [c |].
  - intros H. right. split; [discriminate |].
    destruct (given_entryDates opts) as [[l |] |]; [| discriminate |];
      (apply (init_rendered now _ w) in H; [exact H |]);
      eexists _, _, _; cbn; eauto.
  - intros [= <-]. left. split; reflexivity.
Qed.

Lemma click_nav_keeps_rendered now i w w' :
  rendered w -> click_nav now i w = Ok w' -> rendered w'.
Proof.
  intros (o & cd & today & Ho & Hcd & Hc) H.
  rewrite (click_nav_rendered now i w o cd today Ho Hcd Hc) in H.
  destruct i as [| [| i]]; injection H as <-;
    try (apply navigated_rendered; exact Ho).
  exists o, cd, today. auto.
Qed.

Lemma click_day_keeps_rendered i w w' :
  rendered w -> click_day i w = Ok w' -> rendered w'.
Proof.
  intros R H. pose proof R as (o & cd & today & Ho & Hcd & Hc).
  destruct (nth_error
              (days (attach (grid o (JSDate.getFullYear cd)
                                  (JSDate.getMonth cd) today))) i)
    as [cell |] eqn:Hnth.
  - destruct (click_day_rendered i w o cd today cell Ho Hcd Hc Hnth)
      as [(_ & _ & _ & E) | (_ & _ & day & _ & _ & _ & _ & E)];
      rewrite E in H; injection H as <-.
    + exact R.
    + apply selected_rendered, R.
  - unfold click_day in H. rewrite Hc, Hnth in H. injection H as <-. exact R.
Qed.

Lemma setEntryDates_init dates now w o :
  options w = Some o ->
  setEntryDates dates now w =
  init now (set_options (mkOptions dates (onDateSelect o) (onMonthChange o)
                                   (highlightToday o)) w).
Proof.
  intros Ho. unfold setEntryDates, init. rewrite Ho. reflexivity.
Qed.

Lemma goToMonth_init year month now w :
  goToMonth year month now w =
  init now (set_currentDate (JSDate.make year month 1) w).
Proof. unfold goToMonth, init. reflexivity. Qed.

Lemma setEntryDates_keeps_rendered dates now w w' :
  rendered w -> setEntryDates dates now w = Ok w' -> rendered w'.
Proof.
  intros R H. pose proof R as (o & cd & today & Ho & Hcd & Hc).
  rewrite (setEntryDates_init dates now w o Ho) in H.
  apply (init_rendered now _ w') in H; [exact H |].
  apply live_set_options, rendered_live, R.
Qed.

Lemma goToMonth_keeps_rendered year month now w w' :
  rendered w -> goToMonth year month now w = Ok w' -> rendered w'.
Proof.
  intros R H. rewrite goToMonth_init in H.
  apply (init_rendered now _ w') in H; [exact H |].
  apply live_set_currentDate, rendered_live, R.
Qed.

(** The public methods throw on an instance the constructor left without
    options and container; what they assigned before is left behind. *)
Lemma setEntryDates_no_options dates now w :
  options w = None -> setEntryDates dates now w = Throw TypeError w.
Proof. intros Ho. unfold setEntryDates. rewrite Ho. reflexivity. Qed.

Lemma mapM_throws {A B} (f : A -> Result B) this (l : list A) :
  (forall a, f a = Throw TypeError this) ->
  mapM f l = Ok [] \/ mapM f l = Throw TypeError this.
Proof.
  intros Hf. destruct l as [| a l]; [left; reflexivity |].
  right. cbn [mapM]. rewrite Hf. reflexivity.
Qed.

Lemma render_no_container now w :
  container w = None -> options w = None -> render now w = Throw TypeError w.
Proof.
  intros Hc Ho. unfold render.
  destruct (currentDate w) as [cd |]; cbn [defined bind]; [| reflexivity].
  destruct (mapM_throws
              (day_cell w (JSDate.getFullYear cd) (JSDate.getMonth cd) now) w
              (zrange 1 (Z.to_nat (JSDate.getDate
                                     (JSDate.make (JSDate.getFullYear cd)
                                                  (JSDate.getMonth cd + 1) 0)))))
    as [E | E].
  - intros day. unfold day_cell. rewrite Ho. reflexivity.
  - rewrite E. cbn [bind]. rewrite Hc. reflexivity.
  - rewrite E. reflexivity.
Qed.

Lemma goToMonth_no_container year month now w :
  container w = None -> options w = None ->
  goToMonth year month now w =
  Throw TypeError (set_currentDate (JSDate.make year month 1) w).
Proof.
  intros Hc Ho. unfold goToMonth. cbv zeta.
  rewrite render_no_container by assumption. reflexivity.
Qed.

Lemma setEntryDates_inert dates now l w' :
  setEntryDates dates now (inert l) <> Ok w'.
Proof. rewrite setEntryDates_no_options by reflexivity. discriminate. Qed.

Lemma goToMonth_inert year month now l w' :
  goToMonth year month now (inert l) <> Ok w'.
Proof. rewrite goToMonth_no_container by reflexivity. discriminate. Qed.

Lemma getCurrentMonth_no_date w :
  currentDate w = None -> getCurrentMonth w = Throw TypeError w.
Proof. intros H. unfold getCurrentMonth. rewrite H. reflexivity. Qed.

(** Every instance a host page can hold is the inert one or holds the
    attached rendering of its own state. *)
Theorem reachable_cases w :
  reachable w -> (exists l, w = inert l) \/ rendered w.
Proof.
  induction 1 as [doc now arg opts w H
                 | now i w w' _ IH H
                 | i w w' _ IH H
                 | dates now w w' _ IH H
                 | year month now w w' _ IH H].
  - destruct (constructor_cases _ _ _ _ _ H) as [[_ ->] | [_ R]];
      [left; eexists; reflexivity | right; exact R].
  - destruct IH as [[l ->] | R].
    + left. exists l. injection H as <-. reflexivity.
    + right. exact (click_nav_keeps_rendered _ _ _ _ R H).
  - destruct IH as [[l ->] | R].
    + left. exists l. injection H as <-. reflexivity.
    + right. exact (click_day_keeps_rendered _ _ _ R H).
  - destruct IH as [[l ->] | R].
    + destruct (setEntryDates_inert _ _ _ _ H).
    + right. exact (setEntryDates_keeps_rendered _ _ _ _ R H).
  - destruct IH as [[l ->] | R].
    + destruct (goToMonth_inert _ _ _ _ _ H).
    + right. exact (goToMonth_keeps_rendered _ _ _ _ _ R H).
Qed.

Lemma reachable_rendered w c :
  reachable w -> container w = Some c -> rendered w.
Proof.
  intros R Hc. destruct (reachable_cases w R) as [[l ->] | H];
    [discriminate | exact H].
Qed.

End Behaviour.

(* ====================================================================== *)
(** ** The month grid: day count and leading fillers *)

Module GridFacts.
Import DOM Calendar Grid JSDateFacts.

Lemma getMonth_range d : 0 <= JSDate.getMonth d <= 11.
Proof.
  unfold JSDate.getMonth, JSDate.MonthFromDay, JSDate.MonthOfYearDay.
  repeat match goal with
         | |- context [if ?b then _ else _] => destruct b; [lia |]
         end.
  lia.
Qed.

(** Whatever year is displayed, the Date constructor computes with the year
    MakeFullYear makes of it. *)
Lemma daysInMonth_of_full_year year month :
  0 <= month <= 11 ->
  daysInMonth_of year month =
  Gregorian.days_in_month (JSDate.MakeFullYear year) month.
Proof.
  intros Hm. unfold daysInMonth_of, JSDate.getDate, JSDate.make.
  rewrite MakeDay_day0_next by exact Hm.
  pose proof (days_in_month_pos (JSDate.MakeFullYear year) month) as Hp.
  apply civil_roundtrip; [exact Hm | lia].
Qed.

(** A year from 1 to 99 and the year 1900 later are both leap years or
    neither is; the year 0 is a leap year and 1900 is none. *)
Lemma is_leap_full_year year :
  year <> 0 ->
  Gregorian.is_leap (JSDate.MakeFullYear year) = Gregorian.is_leap year.
Proof.
  intros Hy. unfold JSDate.MakeFullYear.
  destruct (Z.leb_spec 0 year), (Z.leb_spec year 99); cbn [andb];
    try reflexivity.
  unfold Gregorian.is_leap.
  replace ((1900 + year) mod 4) with (year mod 4) by zlia.
  replace ((1900 + year) mod 100 =? 0) with false
    by (symmetry; apply Z.eqb_neq; zlia).
  replace (year mod 100 =? 0) with false
    by (symmetry; apply Z.eqb_neq; zlia).
  replace ((1900 + year) mod 400 =? 0) with false
    by (symmetry; apply Z.eqb_neq; zlia).
  replace (year mod 400 =? 0) with false
    by (symmetry; apply Z.eqb_neq; zlia).
  reflexivity.
Qed.

(** In every displayed year but 0, the "day 0 of next month" computation
    gives the Gregorian length of the month. *)
Lemma daysInMonth_of_year year month :
  year <> 0 -> 0 <= month <= 11 ->
  daysInMonth_of year month = Gregorian.days_in_month year month.
Proof.
  intros Hy Hm. rewrite daysInMonth_of_full_year by exact Hm.
  unfold Gregorian.days_in_month. rewrite is_leap_full_year by exact Hy.
  reflexivity.
Qed.

(** The "day 0 of next month" computation gives the Gregorian length of
    the month. *)
Lemma daysInMonth_of_gregorian year month :
  plain_year year -> 0 <= month <= 11 ->
  daysInMonth_of year month = Gregorian.days_in_month year month.
Proof.
  intros Hy Hm. unfold daysInMonth_of, JSDate.getDate.
  rewrite make_plain_year by exact Hy.
  rewrite MakeDay_day0_next by exact Hm.
  pose proof (days_in_month_pos year month) as Hp.
  apply civil_roundtrip; [exact Hm | lia].
Qed.

(** The weekday of the first of the month, as the Date object computes
    it, is the one of the Gregorian calendar. *)
Lemma firstDay_of_gregorian year month :
  plain_year year -> 0 <= month <= 11 ->
  firstDay_of year month = Gregorian.weekday year month 1.
Proof.
  intros Hy Hm. unfold firstDay_of, JSDate.getDay.
  rewrite make_plain_year by exact Hy.
  apply WeekDay_first_of_month. exact Hm.
Qed.

Lemma weekday_range y m q : 0 <= Gregorian.weekday y m q <= 6.
Proof. unfold Gregorian.weekday. cbv zeta. zlia. Qed.

Definition non_filler (c : DayCell) : bool := negb (is_filler c).

Lemma filter_fillers n l :
  filter non_filler (repeat filler_cell n ++ l) = filter non_filler l.
Proof.
  induction n as [| n IH]; [reflexivity |].
  cbn [repeat app filter]. exact IH.
Qed.

Lemma filter_cells o year month today l :
  filter non_filler (map (cell_of o year month today) l) =
  map (cell_of o year month today) l.
Proof.
  induction l as [| d l IH]; [reflexivity |].
  cbn [map filter]. unfold non_filler at 1.
  rewrite (proj2 (cell_of_selected o year month today d)).
  cbn [negb]. rewrite IH. reflexivity.
Qed.

(** The non-filler cells of a rendered grid are the cells of the days
    1 .. daysInMonth, in order. *)
Lemma grid_day_cells o year month today :
  filter non_filler (days (grid o year month today)) =
  map (cell_of o year month today)
      (zrange 1 (Z.to_nat (daysInMonth_of year month))).
Proof. unfold grid. cbn [days]. rewrite filter_fillers. apply filter_cells. Qed.

End GridFacts.

Import DOM Calendar Machine Grid.

(* ====================================================================== *)
(** ** Instances used to evaluate the widget *)

Definition blank_container : Container := mkContainer "" [] [] [].

Definition no_document : Document := fun _ => None.

Definition no_options : UserOptions := mkUserOptions None false false None.

Definition with_callbacks : UserOptions := mkUserOptions None true true None.

(** A live instance whose internal date is [d], before its first render. *)
Definition widget_at (d : JSDate.t) (o : Options) : Widget :=
  mkWidget (Some blank_container) (Some o) (Some d) None [].

Definition plain_options : Options := mkOptions [] false false true.

(** The instance a host page holds after constructing the widget on
    2024-01-31 with options [o]: January 2024, rendered and attached. *)
Definition january_2024 (o : Options) : Widget :=
  set_container (attach (grid o 2024 0 (JSDate.make 2024 0 31)))
                (widget_at (JSDate.make 2024 0 31) o).

Lemma january_2024_reachable (f g : bool) :
  reachable (january_2024 (mkOptions [] f g true)).
Proof.
  apply (reach_new no_document (JSDate.make 2024 0 31)
                   (Element (Some blank_container))
                   (mkUserOptions None f g None)).
  unfold constructor. cbn [resolve given_entryDates given_onDateSelect
                           given_onMonthChange given_highlightToday].
  fold (widget_at (JSDate.make 2024 0 31) (mkOptions [] f g true)).
  rewrite (init_live (JSDate.make 2024 0 31)
                     (widget_at (JSDate.make 2024 0 31) (mkOptions [] f g true))
                     blank_container
                     (mkOptions [] f g true) (JSDate.make 2024 0 31)
                     eq_refl eq_refl eq_refl).
  unfold january_2024. repeat f_equal.
Qed.

(** The number of leading filler cells of a rendered grid. *)
Fixpoint leading_fillers (cells : list DayCell) : nat :=
  match cells with
  | cell :: rest => if is_filler cell then S (leading_fillers rest) else 0
  | [] => 0
  end.

(** The cells of a container that carry the class [has-entry], by their
    day numbers. *)
Definition marked_days (c : Container) : list (option Z) :=
  map text (filter (has_class "has-entry") (days c)).

(* ====================================================================== *)
(** ** Auxiliary facts for the properties below *)

(** The first of a month built by the Date constructor: the month index is
    reduced into 0..11 and its overflow carried into the year. *)
Lemma make_first_of_month year month :
  JSDate.getFullYear (JSDate.make year month 1) =
    JSDate.MakeFullYear year + month / 12 /\
  JSDate.getMonth (JSDate.make year month 1) = month mod 12.
Proof.
  unfold JSDate.make, JSDate.getFullYear, JSDate.getMonth.
  rewrite JSDateFacts.MakeDay_carry.
  pose proof (JSDateFacts.days_in_month_pos
                (JSDate.MakeFullYear year + month / 12) (month mod 12)) as Hp.
  destruct (JSDateFacts.civil_roundtrip
              (JSDate.MakeFullYear year + month / 12) (month mod 12) 1)
    as (Hy & Hm & _); [zlia | lia |].
  split; assumption.
Qed.

(** Entry dates are used as a set: only membership is looked at. *)
Definition same_entries (l1 l2 : list string) : Prop :=
  forall s, In s l1 <-> In s l2.

Lemma includes_same_entries l1 l2 s :
  same_entries l1 l2 -> JSString.includes l1 s = JSString.includes l2 s.
Proof.
  intros H. specialize (H s). rewrite <- !includes_In in H.
  destruct (JSString.includes l1 s), (JSString.includes l2 s);
    try reflexivity; destruct H as [H1 H2];
    [symmetry; apply H1; reflexivity | apply H2; reflexivity].
Qed.

Lemma cell_of_ext o1 o2 year month today day :
  same_entries (entryDates o1) (entryDates o2) ->
  highlightToday o1 = highlightToday o2 ->
  cell_of o1 year month today day = cell_of o2 year month today day.
Proof.
  intros He Hh. unfold cell_of.
  rewrite (includes_same_entries _ _ _ He), Hh. reflexivity.
Qed.

Lemma grid_ext o1 o2 year month today :
  same_entries (entryDates o1) (entryDates o2) ->
  highlightToday o1 = highlightToday o2 ->
  grid o1 year month today = grid o2 year month today.
Proof.
  intros He Hh. unfold grid. f_equal. f_equal.
  apply map_ext. intros day. apply cell_of_ext; assumption.
Qed.

(* ====================================================================== *)
(** ** Properties of the widget *)

(** *** Navigation clicks *)

(** Constructed on 2024-01-31, the widget displays January 2024; one click
    on "next" sets the internal date to "February 31st", which the Date
    object normalises to March 2nd, and the widget displays March 2024.
    A click on "previous" from 2024-03-31 stays in March.  [claim C1] *)
Lemma nav_skips_or_keeps_month_on_day_31 :
  (w <- constructor no_document (JSDate.make 2024 0 31)
          (Element (Some blank_container)) no_options ;;
   before <- getCurrentMonth w ;;
   w' <- click_nav (JSDate.make 2024 0 31) 1 w ;;
   after <- getCurrentMonth w' ;;
   c' <- defined w' (container w') ;;
   Ok (before, after, title c'))
  = Ok (VYearMonth 2024 0, VYearMonth 2024 2, "March 2024"%string) /\
  (w <- constructor no_document (JSDate.make 2024 2 31)
          (Element (Some blank_container)) no_options ;;
   before <- getCurrentMonth w ;;
   w' <- click_nav (JSDate.make 2024 2 31) 0 w ;;
   after <- getCurrentMonth w' ;;
   c' <- defined w' (container w') ;;
   Ok (before, after, title c'))
  = Ok (VYearMonth 2024 2, VYearMonth 2024 2, "March 2024"%string).
Proof. vm_compute. split; reflexivity. Qed.

(** While the internal date carries a day from 1 to 28, in a year inside
    the range of valid dates, a click on "next" moves the displayed month
    forward by exactly one month and a click on "previous" backward by
    exactly one, December carrying into January of the next year and
    January into December of the year before; the internal date stays a
    valid date. *)
Theorem nav_click_moves_one_month
    (now : JSDate.t) (w : Widget) (c : Container) (cd : JSDate.t) :
  reachable w -> container w = Some c -> currentDate w = Some cd ->
  JSDate.getDate cd <= 28 ->
  -271820 <= JSDate.getFullYear cd <= 275759 ->
  (exists w' cd',
     click_nav now 1 w = Ok w' /\
     getCurrentMonth w' =
       Ok (VYearMonth
             (if JSDate.getMonth cd =? 11 then JSDate.getFullYear cd + 1
              else JSDate.getFullYear cd)
             (if JSDate.getMonth cd =? 11 then 0 else JSDate.getMonth cd + 1)) /\
     currentDate w' = Some cd' /\ JSDate.within_TimeClip cd') /\
  (exists w' cd',
     click_nav now 0 w = Ok w' /\
     getCurrentMonth w' =
       Ok (VYearMonth
             (if JSDate.getMonth cd =? 0 then JSDate.getFullYear cd - 1
              else JSDate.getFullYear cd)
             (if JSDate.getMonth cd =? 0 then 11 else JSDate.getMonth cd - 1)) /\
     currentDate w' = Some cd' /\ JSDate.within_TimeClip cd').
Proof.
  intros R Hc Hcd Hday Hrange.
  destruct (Behaviour.reachable_rendered w c R Hc)
    as (o & cd0 & today & Ho & Hcd0 & Hc').
  assert (cd0 = cd) by congruence. subst cd0.
  pose proof (GridFacts.getMonth_range cd) as Hm.
  assert (Hget : forall action,
             getCurrentMonth (Behaviour.navigated now action o cd w) =
             Ok (VYearMonth (JSDate.getFullYear (Behaviour.nav_target action cd))
                            (JSDate.getMonth (Behaviour.nav_target action cd))) /\
             currentDate (Behaviour.navigated now action o cd w) =
             Some (Behaviour.nav_target action cd)).
  { intros action. unfold Behaviour.navigated. cbv zeta.
    destruct (onMonthChange o); split; reflexivity. }
  split.
  - rewrite (Behaviour.click_nav_rendered now 1 w o cd today Ho Hcd Hc').
    eexists _, _. split; [reflexivity |].
    destruct (Hget "next"%string) as [-> ->].
    change (Behaviour.nav_target "next" cd)
      with (JSDate.setMonth cd (JSDate.getMonth cd + 1)).
    destruct (JSDateFacts.setMonth_short_day cd (JSDate.getMonth cd + 1) Hday)
      as (Hy & Hmo & Hdt).
    unfold JSDate.getFullYear, JSDate.getMonth, JSDate.getDate in *.
    split; [| split; [reflexivity |]].
    + rewrite Hy, Hmo.
      destruct (Z.eqb_spec (JSDate.MonthFromDay cd) 11) as [E | E].
      * rewrite E. reflexivity.
      * replace ((JSDate.MonthFromDay cd + 1) / 12) with 0 by zlia.
        replace ((JSDate.MonthFromDay cd + 1) mod 12)
          with (JSDate.MonthFromDay cd + 1) by zlia.
        rewrite Z.add_0_r. reflexivity.
    + apply JSDateFacts.date_within_TimeClip; rewrite ?Hy, ?Hmo, ?Hdt; zlia.
  - rewrite (Behaviour.click_nav_rendered now 0 w o cd today Ho Hcd Hc').
    eexists _, _. split; [reflexivity |].
    destruct (Hget "prev"%string) as [-> ->].
    change (Behaviour.nav_target "prev" cd)
      with (JSDate.setMonth cd (JSDate.getMonth cd - 1)).
    destruct (JSDateFacts.setMonth_short_day cd (JSDate.getMonth cd - 1) Hday)
      as (Hy & Hmo & Hdt).
    unfold JSDate.getFullYear, JSDate.getMonth, JSDate.getDate in *.
    split; [| split; [reflexivity |]].
    + rewrite Hy, Hmo.
      destruct (Z.eqb_spec (JSDate.MonthFromDay cd) 0) as [E | E].
      * rewrite E. reflexivity.
      * replace ((JSDate.MonthFromDay cd - 1) / 12) with 0 by zlia.
        replace ((JSDate.MonthFromDay cd - 1) mod 12)
          with (JSDate.MonthFromDay cd - 1) by zlia.
        rewrite Z.add_0_r. reflexivity.
    + apply JSDateFacts.date_within_TimeClip; rewrite ?Hy, ?Hmo, ?Hdt; zlia.
Qed.

Lemma nav_click_moves_one_month_witness :
  (exists w' cd',
     click_nav (JSDate.make 2024 11 3) 1
       (set_container (attach (grid plain_options 2024 11 (JSDate.make 2024 11 3)))
                      (widget_at (JSDate.make 2024 11 3) plain_options)) = Ok w' /\
     getCurrentMonth w' = Ok (VYearMonth 2025 0) /\
     currentDate w' = Some cd' /\ JSDate.within_TimeClip cd') /\
  (exists w' cd',
     click_nav (JSDate.make 2024 11 3) 0
       (set_container (attach (grid plain_options 2024 11 (JSDate.make 2024 11 3)))
                      (widget_at (JSDate.make 2024 11 3) plain_options)) = Ok w' /\
     getCurrentMonth w' = Ok (VYearMonth 2024 10) /\
     currentDate w' = Some cd' /\ JSDate.within_TimeClip cd').
Proof.
  apply (nav_click_moves_one_month
           (JSDate.make 2024 11 3)
           (set_container (attach (grid plain_options 2024 11 (JSDate.make 2024 11 3)))
                          (widget_at (JSDate.make 2024 11 3) plain_options))
           (attach (grid plain_options 2024 11 (JSDate.make 2024 11 3)))
           (JSDate.make 2024 11 3)).
  - apply (reach_new no_document (JSDate.make 2024 11 3)
                     (Element (Some blank_container)) no_options).
    vm_compute. reflexivity.
  - reflexivity.
  - reflexivity.
  - vm_compute. discriminate.
  - vm_compute. split; discriminate.
Defined.

(** *** The missing container *)

(** The instance the constructor leaves without a container stays without
    container, options, selection and log entries of its own, whatever
    public methods are called on it. *)
Lemma called_on_inert l w' :
  called_on (inert l) w' ->
  container w' = None /\ options w' = None /\ selectedDate w' = None /\
  log w' = l /\ (currentDate w' = None -> w' = inert l).
Proof.
  induction 1 as [| dates now w _ IH | year month now w _ IH].
  - repeat split; reflexivity.
  - destruct IH as (Hc & Ho & Hs & Hl & Hd).
    rewrite Behaviour.setEntryDates_no_options by exact Ho.
    cbn [left_by]. repeat split; assumption.
  - destruct IH as (Hc & Ho & Hs & Hl & Hd).
    rewrite Behaviour.goToMonth_no_container by assumption.
    cbn [left_by set_currentDate container options selectedDate log currentDate].
    repeat split; try assumption. discriminate.
Qed.

(** When the container argument resolves to nothing, the constructor
    returns without throwing: it logs one diagnostic and leaves an instance
    with no container, no options and no internal date.  The public
    methods are not guarded.  Whatever calls the host page has made on that
    instance before, catching what they threw, [setEntryDates] throws a
    TypeError and changes nothing, and [goToMonth] throws a TypeError after
    it has assigned the internal date; nothing is rendered, selected or
    logged.  [getCurrentMonth] throws a TypeError as long as no [goToMonth]
    call has been made; after such a call it returns, with the month the
    call was given.  [claim C2, amended] *)
Theorem missing_container_leaves_inert_instance
    (doc : Document) (now : JSDate.t) (arg : ContainerArg) (opts : UserOptions) :
  resolve doc arg = None ->
  exists w,
    constructor doc now arg opts = Ok w /\
    w = inert [ConsoleError "Calendar container not found"] /\
    getCurrentMonth w = Throw TypeError w /\
    forall w', called_on w w' ->
      container w' = None /\ options w' = None /\
      selectedDate w' = None /\ log w' = log w /\
      (forall dates now', setEntryDates dates now' w' = Throw TypeError w') /\
      (forall year month now',
          goToMonth year month now' w' =
            Throw TypeError (set_currentDate (JSDate.make year month 1) w') /\
          (-271820 <= JSDate.MakeFullYear year + month / 12 <= 275759 ->
           getCurrentMonth (left_by (goToMonth year month now' w')) =
             Ok (VYearMonth (JSDate.MakeFullYear year + month / 12)
                            (month mod 12)))) /\
      (currentDate w' = None <-> w' = w) /\
      (currentDate w' = None -> getCurrentMonth w' = Throw TypeError w') /\
      (currentDate w' <> None -> exists v, getCurrentMonth w' = Ok v).
Proof.
  intros Hres. eexists. unfold constructor. rewrite Hres.
  split; [reflexivity |]. split; [reflexivity |]. split; [reflexivity |].
  intros w' Hcalls.
  destruct (called_on_inert _ w' Hcalls) as (Hc & Ho & Hs & Hl & Hd).
  split; [exact Hc |]. split; [exact Ho |]. split; [exact Hs |].
  split; [exact Hl |].
  split; [intros; apply Behaviour.setEntryDates_no_options; exact Ho |].
  split.
  { intros year month now'.
    rewrite Behaviour.goToMonth_no_container by assumption.
    split; [reflexivity |]. intros _.
    cbn [left_by]. unfold getCurrentMonth.
    cbn [currentDate set_currentDate defined bind].
    destruct (make_first_of_month year month) as [-> ->]. reflexivity. }
  split.
  { split; [exact Hd | intros ->; reflexivity]. }
  split; [apply Behaviour.getCurrentMonth_no_date |].
  intros Hsome. unfold getCurrentMonth.
  destruct (currentDate w') as [cd |]; [| contradiction].
  eexists. reflexivity.
Qed.

Lemma missing_container_leaves_inert_instance_witness :
  exists w,
    constructor no_document (JSDate.make 2024 0 31) (Selector "#calendar")
                no_options = Ok w /\
    w = inert [ConsoleError "Calendar container not found"] /\
    getCurrentMonth w = Throw TypeError w /\
    forall w', called_on w w' ->
      container w' = None /\ options w' = None /\
      selectedDate w' = None /\ log w' = log w /\
      (forall dates now', setEntryDates dates now' w' = Throw TypeError w') /\
      (forall year month now',
          goToMonth year month now' w' =
            Throw TypeError (set_currentDate (JSDate.make year month 1) w') /\
          (-271820 <= JSDate.MakeFullYear year + month / 12 <= 275759 ->
           getCurrentMonth (left_by (goToMonth year month now' w')) =
             Ok (VYearMonth (JSDate.MakeFullYear year + month / 12)
                            (month mod 12)))) /\
      (currentDate w' = None <-> w' = w) /\
      (currentDate w' = None -> getCurrentMonth w' = Throw TypeError w') /\
      (currentDate w' <> None -> exists v, getCurrentMonth w' = Ok v).
Proof.
  apply (missing_container_leaves_inert_instance
           no_document (JSDate.make 2024 0 31) (Selector "#calendar") no_options).
  reflexivity.
Defined.

(** On the instance constructed from a selector that matches nothing, the
    three public methods throw instead of doing nothing, and [goToMonth]
    is no no-op either: it leaves the internal date set, so that
    [getCurrentMonth] returns afterwards.  [claim C2, as stated] *)
Lemma public_methods_throw_on_inert_instance :
  (w <- constructor no_document (JSDate.make 2024 0 31) (Selector "#calendar")
          no_options ;;
   setEntryDates ["2024-01-15"%string] (JSDate.make 2024 0 31) w)
  = Throw TypeError (inert [ConsoleError "Calendar container not found"]) /\
  (w <- constructor no_document (JSDate.make 2024 0 31) (Selector "#calendar")
          no_options ;;
   goToMonth 2025 5 (JSDate.make 2024 0 31) w)
  = Throw TypeError
      (set_currentDate (JSDate.make 2025 5 1)
                       (inert [ConsoleError "Calendar container not found"])) /\
  (w <- constructor no_document (JSDate.make 2024 0 31) (Selector "#calendar")
          no_options ;;
   getCurrentMonth w)
  = Throw TypeError (inert [ConsoleError "Calendar container not found"]) /\
  (w <- constructor no_document (JSDate.make 2024 0 31) (Selector "#calendar")
          no_options ;;
   getCurrentMonth (left_by (goToMonth 2025 5 (JSDate.make 2024 0 31) w)))
  = Ok (VYearMonth 2025 5).
Proof. vm_compute. repeat split; reflexivity. Qed.

(** *** The month grid *)




(** In a displayed month of a year the Date constructor takes at face value,
    the grid starts with as many filler cells as the weekday index
    (0 = Sunday .. 6 = Saturday) of the first of the month, and the cell of
    day 1 follows them.  A filler cell carries no date identifier and no
    listener, and a click on it changes nothing.  [claim C4, amended] *)
Theorem leading_fillers_match_weekday
    (now : JSDate.t) (w : Widget) (c : Container) (o : Options)
    (cd : JSDate.t) (year month : Z) :
  container w = Some c -> options w = Some o -> currentDate w = Some cd ->
  JSDate.getFullYear cd = year -> JSDate.getMonth cd = month ->
  plain_year year ->
  exists w' c' first rest,
    init now w = Ok w' /\ container w' = Some c' /\
    days c' =
      (repeat filler_cell (Z.to_nat (Gregorian.weekday year month 1)) ++
       first :: rest)%list /\
    0 <= Gregorian.weekday year month 1 <= 6 /\
    text first = Some 1 /\
    Forall (fun cell => is_filler cell = false) (first :: rest) /\
    is_filler filler_cell = true /\
    data_date filler_cell = None /\
    listeners filler_cell = 0%nat /\
    forall i, (i < Z.to_nat (Gregorian.weekday year month 1))%nat ->
              click_day i w' = Ok w'.
Proof.
  intros Hc Ho Hcd Hyear Hmonth Hplain.
  assert (Hm : 0 <= month <= 11) by (subst month; apply GridFacts.getMonth_range).
  rewrite (init_live now w c o cd Hc Ho Hcd), Hyear, Hmonth.
  pose proof (attach_grid_days o year month now) as Hdays.
  rewrite GridFacts.firstDay_of_gregorian in Hdays by assumption.
  rewrite GridFacts.daysInMonth_of_gregorian in Hdays by assumption.
  pose proof (JSDateFacts.days_in_month_pos year month) as Hpos.
  destruct (Z.to_nat (Gregorian.days_in_month year month)) as [| n] eqn:En; [lia |].
  change (zrange 1 (S n)) with (1 + Z.of_nat 0 :: map (fun i => 1 + Z.of_nat i) (seq 1 n))
    in Hdays.
  cbn [map] in Hdays.
  eexists _, _, _, _. split; [reflexivity |]. split; [reflexivity |].
  split; [exact Hdays |].
  split; [apply GridFacts.weekday_range |].
  split; [reflexivity |].
  split.
  { constructor; [apply cell_of_selected |].
    apply Forall_forall. intros cell Hin. apply in_map_iff in Hin.
    destruct Hin as [d [<- _]]. apply cell_of_selected. }
  split; [reflexivity |]. split; [reflexivity |]. split; [reflexivity |].
  intros i Hi. unfold click_day. cbn [container set_container].
  rewrite Hdays, nth_error_app1 by (rewrite repeat_length; exact Hi).
  rewrite nth_error_repeat by exact Hi. reflexivity.
Qed.

Lemma leading_fillers_match_weekday_witness :
  exists w' c' first rest,
    init (JSDate.make 2024 0 31)
         (widget_at (JSDate.make 2024 0 31) plain_options) = Ok w' /\
    container w' = Some c' /\
    days c' = (repeat filler_cell 1 ++ first :: rest)%list /\
    0 <= Gregorian.weekday 2024 0 1 <= 6 /\
    text first = Some 1 /\
    Forall (fun cell => is_filler cell = false) (first :: rest) /\
    is_filler filler_cell = true /\
    data_date filler_cell = None /\
    listeners filler_cell = 0%nat /\
    forall i, (i < 1)%nat -> click_day i w' = Ok w'.
Proof.
  apply (leading_fillers_match_weekday
           (JSDate.make 2024 0 31)
           (widget_at (JSDate.make 2024 0 31) plain_options)
           blank_container plain_options (JSDate.make 2024 0 31) 2024 0);
    try reflexivity.
  unfold plain_year. lia.
Defined.

(** The displayed month of year 50 is reached by [goToMonth(100, -600)];
    its grid is laid out for January 1950, which began on a Sunday, while
    January of year 50 began on a Saturday.  [claim C4, as stated] *)
Lemma fillers_of_year_50_follow_1950 :
  (w <- constructor no_document (JSDate.make 2024 0 31)
          (Element (Some blank_container)) no_options ;;
   w' <- goToMonth 100 (-600) (JSDate.make 2024 0 31) w ;;
   m <- getCurrentMonth w' ;;
   c' <- defined w' (container w') ;;
   Ok (m, leading_fillers (days c')))
  = Ok (VYearMonth 50 0, 0%nat) /\
  Gregorian.weekday 50 0 1 = 6 /\
  JSDate.getDay (JSDate.MakeDay 50 0 1) = 6 /\
  JSDate.getDay (JSDate.make 50 0 1) = 0.
Proof. vm_compute. repeat split; reflexivity. Qed.

(** *** Clicks on day cells *)

(** On every instance a host page can hold, a click on a filler cell
    changes nothing and calls nothing.  A click on a non-filler cell, which
    carries an identifier, depends on the [onDateSelect] option: with a
    callback configured it sets [selectedDate] to the identifier and calls
    the callback once with it, and nothing else changes; with none
    configured it changes nothing, [selectedDate] included.
    [claim C5, amended] *)
Theorem day_click_selects_only_with_callback
    (w : Widget) (c : Container) (i : nat) (cell : DayCell) :
  reachable w -> container w = Some c -> nth_error (days c) i = Some cell ->
  exists o,
    options w = Some o /\
    (is_filler cell = true -> click_day i w = Ok w) /\
    (is_filler cell = false ->
     exists ds,
       data_date cell = Some ds /\
       (onDateSelect o = true ->
        click_day i w =
          Ok (mkWidget (container w) (options w) (currentDate w) (Some ds)
                       (log w ++ [DateSelect ds]))) /\
       (onDateSelect o = false -> click_day i w = Ok w)).
Proof.
  intros R Hc Hnth.
  destruct (Behaviour.reachable_rendered w c R Hc) as (o & cd & today & Ho & Hcd & Hc').
  assert (Ec : c = attach (grid o (JSDate.getFullYear cd) (JSDate.getMonth cd) today))
    by congruence.
  subst c. exists o. split; [exact Ho |].
  destruct (Behaviour.click_day_rendered i w o cd today cell Ho Hcd Hc' Hnth)
    as [(Hf & _ & _ & E) | (Hf & _ & day & _ & _ & Hid & _ & E)].
  - split; [intros _; exact E | congruence].
  - split; [congruence |]. intros _. eexists. split; [exact Hid |].
    unfold Behaviour.selected in E.
    split; intros Hcb; rewrite Hcb in E; exact E.
Qed.

Lemma day_click_selects_only_with_callback_witness :
  exists o,
    options (january_2024 (mkOptions [] true false true)) = Some o /\
    (is_filler (listening (cell_of (mkOptions [] true false true) 2024 0
                                   (JSDate.make 2024 0 31) 15)) = true ->
     click_day 15 (january_2024 (mkOptions [] true false true)) =
       Ok (january_2024 (mkOptions [] true false true))) /\
    (is_filler (listening (cell_of (mkOptions [] true false true) 2024 0
                                   (JSDate.make 2024 0 31) 15)) = false ->
     exists ds,
       data_date (listening (cell_of (mkOptions [] true false true) 2024 0
                                     (JSDate.make 2024 0 31) 15)) = Some ds /\
       (onDateSelect o = true ->
        click_day 15 (january_2024 (mkOptions [] true false true)) =
          Ok (mkWidget (container (january_2024 (mkOptions [] true false true)))
                       (options (january_2024 (mkOptions [] true false true)))
                       (currentDate (january_2024 (mkOptions [] true false true)))
                       (Some ds)
                       (log (january_2024 (mkOptions [] true false true))
                        ++ [DateSelect ds]))) /\
       (onDateSelect o = false ->
        click_day 15 (january_2024 (mkOptions [] true false true)) =
          Ok (january_2024 (mkOptions [] true false true)))).
Proof.
  apply (day_click_selects_only_with_callback
           (january_2024 (mkOptions [] true false true))
           (attach (grid (mkOptions [] true false true) 2024 0
                         (JSDate.make 2024 0 31)))
           15
           (listening (cell_of (mkOptions [] true false true) 2024 0
                               (JSDate.make 2024 0 31) 15))).
  - apply january_2024_reachable.
  - reflexivity.
  - vm_compute. reflexivity.
Defined.

(** Without an [onDateSelect] callback, a click on the cell of 2024-01-15
    leaves [selectedDate] unset.  [claim C5, as stated] *)
Lemma day_click_without_callback_selects_nothing :
  (w <- constructor no_document (JSDate.make 2024 0 31)
          (Element (Some blank_container)) no_options ;;
   c <- defined w (container w) ;;
   cell <- defined w (nth_error (days c) 15) ;;
   w' <- click_day 15 w ;;
   Ok (data_date cell, is_filler cell, selectedDate w', log w'))
  = Ok (Some "2024-01-15"%string, false, None, []).
Proof. vm_compute. reflexivity. Qed.

(** *** The month-change callback *)

(** On every instance a host page can hold, a click on a navigation button
    returns; afterwards [getCurrentMonth] reads the displayed month off the
    internal date, and [onMonthChange], when configured, has been called
    once, with that internal Date object itself: a value with no [year] and
    no [month] property, whose month is read with getFullYear and getMonth.
    With no callback configured nothing is called.  [claim C6, amended] *)
Theorem nav_click_hands_over_the_date
    (now : JSDate.t) (w : Widget) (c : Container) (i : nat) (btn : NavBtn) :
  reachable w -> container w = Some c -> nth_error (nav c) i = Some btn ->
  exists o cd' w',
    options w = Some o /\
    click_nav now i w = Ok w' /\
    currentDate w' = Some cd' /\
    getCurrentMonth w' =
      Ok (VYearMonth (JSDate.getFullYear cd') (JSDate.getMonth cd')) /\
    (onMonthChange o = true -> log w' = (log w ++ [MonthChange (VDate cd')])%list) /\
    (onMonthChange o = false -> log w' = log w) /\
    get_prop (VDate cd') "year" = None /\
    get_prop (VDate cd') "month" = None.
Proof.
  intros R Hc Hnth.
  destruct (Behaviour.reachable_rendered w c R Hc)
    as (o & cd & today & Ho & Hcd & Hc').
  assert (Ec : c = attach (grid o (JSDate.getFullYear cd) (JSDate.getMonth cd) today))
    by congruence.
  subst c. rewrite attach_grid_nav in Hnth.
  pose proof (Behaviour.click_nav_rendered now i w o cd today Ho Hcd Hc') as E.
  assert (Hnav : exists action,
             click_nav now i w = Ok (Behaviour.navigated now action o cd w)).
  { destruct i as [| [| i]]; [eexists; exact E | eexists; exact E |].
    destruct i; discriminate. }
  destruct Hnav as [action Hnav].
  exists o, (Behaviour.nav_target action cd),
         (Behaviour.navigated now action o cd w).
  split; [exact Ho |]. split; [exact Hnav |].
  unfold Behaviour.navigated. cbv zeta.
  destruct (onMonthChange o); cbn; repeat split; congruence.
Qed.

Lemma nav_click_hands_over_the_date_witness :
  exists o cd' w',
    options (january_2024 (mkOptions [] false true true)) = Some o /\
    click_nav (JSDate.make 2024 1 2) 1
              (january_2024 (mkOptions [] false true true)) = Ok w' /\
    currentDate w' = Some cd' /\
    getCurrentMonth w' =
      Ok (VYearMonth (JSDate.getFullYear cd') (JSDate.getMonth cd')) /\
    (onMonthChange o = true ->
     log w' = (log (january_2024 (mkOptions [] false true true))
               ++ [MonthChange (VDate cd')])%list) /\
    (onMonthChange o = false ->
     log w' = log (january_2024 (mkOptions [] false true true))) /\
    get_prop (VDate cd') "year" = None /\
    get_prop (VDate cd') "month" = None.
Proof.
  apply (nav_click_hands_over_the_date
           (JSDate.make 2024 1 2)
           (january_2024 (mkOptions [] false true true))
           (attach (grid (mkOptions [] false true true) 2024 0
                         (JSDate.make 2024 0 31)))
           1 (mkNavBtn "next" 1)).
  - apply january_2024_reachable.
  - reflexivity.
  - reflexivity.
Defined.

(** After a click on "next" from January 2024, [onMonthChange] has received
    a Date object, on which [year] and [month] are undefined, and not the
    object [{year: 2024, month: 1}] that [getCurrentMonth] returns.
    [claim C6, as stated] *)
Lemma onMonthChange_receives_a_date_object :
  (w <- constructor no_document (JSDate.make 2024 0 15)
          (Element (Some blank_container)) with_callbacks ;;
   w' <- click_nav (JSDate.make 2024 0 15) 1 w ;;
   m <- getCurrentMonth w' ;;
   Ok (log w', m))
  = Ok ([MonthChange (VDate (JSDate.make 2024 1 15))], VYearMonth 2024 1) /\
  get_prop (VDate (JSDate.make 2024 1 15)) "year" = None /\
  get_prop (VDate (JSDate.make 2024 1 15)) "month" = None /\
  VDate (JSDate.make 2024 1 15) <> VYearMonth 2024 1.
Proof. vm_compute. repeat split; try reflexivity. discriminate. Qed.

(** *** Jumping to a month *)

(** [goToMonth(year, month)] on a live instance returns, sets the displayed
    month to month [month mod 12] of year [year + floor(month / 12)] -- a
    year from 0 to 99 being read as 1900 + year by the Date constructor --
    re-renders that month with its listeners, and calls no callback: the
    log, the options and the selected date are unchanged.  The target month
    is taken inside the range of valid dates.  [claim C7, amended] *)
Theorem goToMonth_jumps_without_callback
    (year month : Z) (now : JSDate.t) (w : Widget) (c : Container)
    (o : Options) (cd : JSDate.t) :
  container w = Some c -> options w = Some o -> currentDate w = Some cd ->
  -271820 <= JSDate.MakeFullYear year + month / 12 <= 275759 ->
  exists w',
    goToMonth year month now w = Ok w' /\
    getCurrentMonth w' =
      Ok (VYearMonth (JSDate.MakeFullYear year + month / 12) (month mod 12)) /\
    container w' =
      Some (attach (grid o (JSDate.MakeFullYear year + month / 12)
                         (month mod 12) now)) /\
    log w' = log w /\ options w' = options w /\
    selectedDate w' = selectedDate w /\
    (~ (0 <= year <= 99) -> JSDate.MakeFullYear year = year).
Proof.
  intros Hc Ho Hcd _.
  rewrite Behaviour.goToMonth_init.
  rewrite (init_live now (set_currentDate (JSDate.make year month 1) w) c o
             (JSDate.make year month 1) Hc Ho eq_refl).
  destruct (make_first_of_month year month) as [Hy Hm].
  eexists. split; [reflexivity |].
  unfold getCurrentMonth. cbn [currentDate set_container set_currentDate defined bind].
  rewrite Hy, Hm. cbn [container log options selectedDate].
  repeat split; try assumption.
  intros Hn. unfold JSDate.MakeFullYear.
  destruct (Z.leb_spec 0 year), (Z.leb_spec year 99); cbn [andb];
    try reflexivity. lia.
Qed.

Lemma goToMonth_jumps_without_callback_witness :
  exists w',
    goToMonth 2025 5 (JSDate.make 2024 0 31)
      (widget_at (JSDate.make 2024 0 31) (mkOptions [] true true true)) = Ok w' /\
    getCurrentMonth w' = Ok (VYearMonth 2025 5) /\
    container w' =
      Some (attach (grid (mkOptions [] true true true) 2025 5
                         (JSDate.make 2024 0 31))) /\
    log w' = [] /\ options w' = Some (mkOptions [] true true true) /\
    selectedDate w' = None /\
    (~ (0 <= 2025 <= 99) -> JSDate.MakeFullYear 2025 = 2025).
Proof.
  apply (goToMonth_jumps_without_callback
           2025 5 (JSDate.make 2024 0 31)
           (widget_at (JSDate.make 2024 0 31) (mkOptions [] true true true))
           blank_container (mkOptions [] true true true) (JSDate.make 2024 0 31));
    try reflexivity.
  vm_compute. split; discriminate.
Defined.

(** [goToMonth(50, 0)] displays January 1950, not January of year 50.
    [claim C7, as stated] *)
Lemma goToMonth_reads_year_50_as_1950 :
  (w <- constructor no_document (JSDate.make 2024 0 31)
          (Element (Some blank_container)) no_options ;;
   w' <- goToMonth 50 0 (JSDate.make 2024 0 31) w ;;
   getCurrentMonth w')
  = Ok (VYearMonth 1950 0).
Proof. vm_compute. reflexivity. Qed.

(** *** Entry dates *)

(** [setEntryDates(dates)] on a live instance returns; it replaces the whole
    list of entry dates, keeps the displayed month, the callbacks and the
    log, and re-renders: a cell of the new grid has the class [has-entry]
    exactly when it carries an identifier that is a member of [dates].
    While the displayed year is in 1000..9999, a string that is not of the
    form YYYY-MM-DD is the identifier of no cell.  [claim C8, amended] *)
Theorem setEntryDates_marks_members
    (dates : list string) (now : JSDate.t) (w : Widget) (c : Container)
    (o : Options) (cd : JSDate.t) :
  container w = Some c -> options w = Some o -> currentDate w = Some cd ->
  exists w' c',
    setEntryDates dates now w = Ok w' /\
    options w' = Some (mkOptions dates (onDateSelect o) (onMonthChange o)
                                 (highlightToday o)) /\
    currentDate w' = Some cd /\ log w' = log w /\
    selectedDate w' = selectedDate w /\
    container w' = Some c' /\
    c' = attach (grid (mkOptions dates (onDateSelect o) (onMonthChange o)
                                 (highlightToday o))
                      (JSDate.getFullYear cd) (JSDate.getMonth cd) now) /\
    (forall cell, In cell (days c') ->
       (has_class "has-entry" cell = true <->
        exists ds, data_date cell = Some ds /\ In ds dates)) /\
    (1000 <= JSDate.getFullYear cd <= 9999 ->
     forall s cell, DayId.well_formed s = false -> In cell (days c') ->
                    data_date cell <> Some s).
Proof.
  intros Hc Ho Hcd.
  set (o' := mkOptions dates (onDateSelect o) (onMonthChange o) (highlightToday o)).
  rewrite (Behaviour.setEntryDates_init dates now w o Ho). fold o'.
  rewrite (init_live now (set_options o' w) c o' cd Hc eq_refl Hcd).
  eexists _, _. split; [reflexivity |].
  cbn [options currentDate log selectedDate container set_container set_options].
  repeat (split; [reflexivity || assumption |]).
  split.
  - intros cell Hin.
    destruct (attach_grid_In _ _ _ _ _ Hin) as [-> | (day & _ & ->)].
    + split; [discriminate | intros (ds & Hds & _); discriminate].
    + change (has_class "has-entry" (listening ?x)) with (has_class "has-entry" x).
      rewrite cell_of_has_entry, includes_In. cbn [entryDates o'].
      split.
      * intros Hin'. eexists. split; [reflexivity | exact Hin'].
      * intros (ds & [= <-] & Hin'). exact Hin'.
  - intros Hyear s cell Hs Hin.
    destruct (attach_grid_In _ _ _ _ _ Hin) as [-> | (day & Hday & ->)];
      [discriminate |].
    cbn [listening data_date cell_of]. intros [= <-].
    assert (Hplain : plain_year (JSDate.getFullYear cd))
      by (unfold plain_year; lia).
    pose proof (GridFacts.getMonth_range cd) as Hm.
    rewrite GridFacts.daysInMonth_of_gregorian in Hday by assumption.
    pose proof (JSDateFacts.days_in_month_pos
                  (JSDate.getFullYear cd) (JSDate.getMonth cd)) as Hp.
    rewrite IdFacts.dateStr_canonical in Hs by lia.
    rewrite IdFacts.canonical_well_formed in Hs by lia.
    exact (Bool.diff_true_false Hs).
Qed.

Lemma setEntryDates_marks_members_witness :
  (exists w' c',
     setEntryDates ["2024-01-15"%string] (JSDate.make 2024 0 31)
       (widget_at (JSDate.make 2024 0 31) plain_options) = Ok w' /\
     options w' = Some (mkOptions ["2024-01-15"%string] false false true) /\
     currentDate w' = Some (JSDate.make 2024 0 31) /\ log w' = [] /\
     selectedDate w' = None /\
     container w' = Some c' /\
     c' = attach (grid (mkOptions ["2024-01-15"%string] false false true)
                       (JSDate.getFullYear (JSDate.make 2024 0 31))
                       (JSDate.getMonth (JSDate.make 2024 0 31))
                       (JSDate.make 2024 0 31)) /\
     (forall cell, In cell (days c') ->
        (has_class "has-entry" cell = true <->
         exists ds, data_date cell = Some ds /\ In ds ["2024-01-15"%string])) /\
     (1000 <= JSDate.getFullYear (JSDate.make 2024 0 31) <= 9999 ->
      forall s cell, DayId.well_formed s = false -> In cell (days c') ->
                     data_date cell <> Some s)) /\
  (w' <- setEntryDates ["2024-01-15"%string] (JSDate.make 2024 0 31)
           (widget_at (JSDate.make 2024 0 31) plain_options) ;;
   c' <- defined w' (container w') ;;
   Ok (title c', marked_days c'))
  = Ok ("January 2024"%string, [Some 15]).
Proof.
  split.
  - apply (setEntryDates_marks_members
             ["2024-01-15"%string] (JSDate.make 2024 0 31)
             (widget_at (JSDate.make 2024 0 31) plain_options)
             blank_container plain_options (JSDate.make 2024 0 31));
      reflexivity.
  - vm_compute. reflexivity.
Defined.

(** In the displayed month January 999 the identifiers have a three-digit
    year, and the entry [999-01-15], which is not of the form YYYY-MM-DD,
    marks the cell of day 15.  [claim C8, as stated] *)
Lemma malformed_entry_matches_in_year_999 :
  (w <- constructor no_document (JSDate.make 2024 0 31)
          (Element (Some blank_container)) no_options ;;
   w1 <- goToMonth 999 0 (JSDate.make 2024 0 31) w ;;
   w2 <- setEntryDates ["999-01-15"%string] (JSDate.make 2024 0 31) w1 ;;
   c <- defined w2 (container w2) ;;
   Ok (title c, marked_days c))
  = Ok ("January 999"%string, [Some 15]) /\
  DayId.well_formed "999-01-15" = false.
Proof. vm_compute. split; reflexivity. Qed.

(** *** Determinism of the rendering *)

(** Two renderings with the same displayed month, the same set of entry
    dates (in any order), the same reading of today and the same
    [highlightToday] produce the same
    subtree -- title, buttons, filler cells, day cells with their
    identifiers and classes -- whatever else differs between the two
    instances (the day of the internal date, the callbacks, the selected
    date, the log, the subtree rendered before).  With [highlightToday]
    false no cell of it has the class [today].  [claim C9] *)
Theorem render_is_deterministic
    (now : JSDate.t) (w1 w2 : Widget) (c1 c2 : Container)
    (o1 o2 : Options) (cd1 cd2 : JSDate.t) :
  container w1 = Some c1 -> options w1 = Some o1 -> currentDate w1 = Some cd1 ->
  container w2 = Some c2 -> options w2 = Some o2 -> currentDate w2 = Some cd2 ->
  JSDate.getFullYear cd1 = JSDate.getFullYear cd2 ->
  JSDate.getMonth cd1 = JSDate.getMonth cd2 ->
  same_entries (entryDates o1) (entryDates o2) ->
  highlightToday o1 = highlightToday o2 ->
  exists g,
    render now w1 = Ok (set_container g w1) /\
    render now w2 = Ok (set_container g w2) /\
    (highlightToday o1 = false ->
     forall cell, In cell (days g) -> has_class "today" cell = false).
Proof.
  intros Hc1 Ho1 Hd1 Hc2 Ho2 Hd2 Hy Hm He Hh.
  exists (grid o1 (JSDate.getFullYear cd1) (JSDate.getMonth cd1) now).
  split; [apply (render_live now w1 c1 o1 cd1); assumption |].
  split.
  - rewrite (render_live now w2 c2 o2 cd2) by assumption.
    rewrite <- Hy, <- Hm, (grid_ext o1 o2) by assumption. reflexivity.
  - intros Hoff cell Hin. unfold grid in Hin. cbn [days] in Hin.
    apply in_app_or in Hin. destruct Hin as [Hin | Hin].
    + apply repeat_spec in Hin. subst cell. reflexivity.
    + apply in_map_iff in Hin. destruct Hin as [day [<- _]].
      rewrite cell_of_today, Hoff. reflexivity.
Qed.

Lemma render_is_deterministic_witness :
  exists g,
    render (JSDate.make 2024 0 15)
           (widget_at (JSDate.make 2024 0 15)
                      (mkOptions ["2024-01-02"; "2024-01-09"]%string
                                 false false false))
      = Ok (set_container g
              (widget_at (JSDate.make 2024 0 15)
                         (mkOptions ["2024-01-02"; "2024-01-09"]%string
                                    false false false))) /\
    render (JSDate.make 2024 0 15)
           (mkWidget (Some (grid plain_options 1999 11 0))
                     (Some (mkOptions ["2024-01-09"; "2024-01-02"; "2024-01-09"]%string
                                      true true false))
                     (Some (JSDate.make 2024 0 31))
                     (Some "2023-12-25"%string)
                     [DateSelect "2023-12-25"])
      = Ok (set_container g
              (mkWidget (Some (grid plain_options 1999 11 0))
                        (Some (mkOptions
                                 ["2024-01-09"; "2024-01-02"; "2024-01-09"]%string
                                 true true false))
                        (Some (JSDate.make 2024 0 31))
                        (Some "2023-12-25"%string)
                        [DateSelect "2023-12-25"])) /\
    (false = false ->
     forall cell, In cell (days g) -> has_class "today" cell = false).
Proof.
  apply (render_is_deterministic
           (JSDate.make 2024 0 15)
           (widget_at (JSDate.make 2024 0 15)
                      (mkOptions ["2024-01-02"; "2024-01-09"]%string
                                 false false false))
           (mkWidget (Some (grid plain_options 1999 11 0))
                     (Some (mkOptions ["2024-01-09"; "2024-01-02"; "2024-01-09"]%string
                                      true true false))
                     (Some (JSDate.make 2024 0 31))
                     (Some "2023-12-25"%string)
                     [DateSelect "2023-12-25"])
           blank_container (grid plain_options 1999 11 0)
           (mkOptions ["2024-01-02"; "2024-01-09"]%string false false false)
           (mkOptions ["2024-01-09"; "2024-01-02"; "2024-01-09"]%string
                      true true false)
           (JSDate.make 2024 0 15) (JSDate.make 2024 0 31));
    try reflexivity.
  intros s. cbn [entryDates In]. tauto.
Defined.

(** *** Date identifiers *)

(** While the displayed year is in 1000..9999, every non-filler cell of the
    rendered and attached grid is the cell of a day 1 .. daysInMonth whose
    [data-date] is the canonical zero-padded YYYY-MM-DD identifier of that
    day (month + 1 and day on two digits): it has the form of the glossary
    and reads back as that year, month and day.  That identifier is the string
    tested for membership in the entry dates and the string a click on the
    cell hands to [onDateSelect].  [claim C10] *)
Theorem day_cell_ids_are_canonical
    (now : JSDate.t) (w : Widget) (c : Container) (o : Options)
    (cd : JSDate.t) (year month : Z) :
  container w = Some c -> options w = Some o -> currentDate w = Some cd ->
  JSDate.getFullYear cd = year -> JSDate.getMonth cd = month ->
  1000 <= year <= 9999 ->
  exists w' c',
    init now w = Ok w' /\ container w' = Some c' /\
    forall i cell,
      nth_error (days c') i = Some cell -> is_filler cell = false ->
      exists day,
        1 <= day <= Gregorian.days_in_month year month /\
        text cell = Some day /\
        data_date cell = Some (DayId.canonical year (month + 1) day) /\
        DayId.well_formed (DayId.canonical year (month + 1) day) = true /\
        DayId.read (DayId.canonical year (month + 1) day)
          = Some (year, month + 1, day) /\
        (has_class "has-entry" cell = true <->
         In (DayId.canonical year (month + 1) day) (entryDates o)) /\
        click_day i w' =
          Ok (Behaviour.selected o (DayId.canonical year (month + 1) day) w').
Proof.
  intros Hc Ho Hcd Hyear Hmonth Hrange.
  assert (Hm : 0 <= month <= 11) by (subst month; apply GridFacts.getMonth_range).
  assert (Hplain : plain_year year) by (unfold plain_year; lia).
  rewrite (init_live now w c o cd Hc Ho Hcd).
  eexists _, _. split; [reflexivity |]. split; [reflexivity |].
  intros i cell Hnth Hnf.
  destruct (Behaviour.click_day_rendered
              i (set_container
                   (attach (grid o (JSDate.getFullYear cd) (JSDate.getMonth cd) now)) w)
              o cd now cell Ho Hcd eq_refl Hnth)
    as [(Hf & _) | (_ & _ & day & Hday & Htext & Hid & Hentry & Hclick)];
    [congruence |].
  rewrite Hyear, Hmonth in *.
  rewrite GridFacts.daysInMonth_of_gregorian in Hday by assumption.
  pose proof (JSDateFacts.days_in_month_pos year month) as Hp.
  rewrite IdFacts.dateStr_canonical in Hid, Hentry, Hclick by lia.
  exists day. split; [exact Hday |]. split; [exact Htext |].
  split; [exact Hid |].
  split; [apply IdFacts.canonical_well_formed; lia |].
  split; [apply IdFacts.read_canonical; lia |].
  split; [| exact Hclick].
  rewrite Hentry. apply includes_In.
Qed.

Lemma day_cell_ids_are_canonical_witness :
  exists w' c',
    init (JSDate.make 2024 0 31)
         (widget_at (JSDate.make 2024 0 31) plain_options) = Ok w' /\
    container w' = Some c' /\
    forall i cell,
      nth_error (days c') i = Some cell -> is_filler cell = false ->
      exists day,
        1 <= day <= Gregorian.days_in_month 2024 0 /\
        text cell = Some day /\
        data_date cell = Some (DayId.canonical 2024 (0 + 1) day) /\
        DayId.well_formed (DayId.canonical 2024 (0 + 1) day) = true /\
        DayId.read (DayId.canonical 2024 (0 + 1) day) = Some (2024, 0 + 1, day) /\
        (has_class "has-entry" cell = true <->
         In (DayId.canonical 2024 (0 + 1) day) (entryDates plain_options)) /\
        click_day i w' =
          Ok (Behaviour.selected plain_options
                (DayId.canonical 2024 (0 + 1) day) w').
Proof.
  apply (day_cell_ids_are_canonical
           (JSDate.make 2024 0 31)
           (widget_at (JSDate.make 2024 0 31) plain_options)
           blank_container plain_options (JSDate.make 2024 0 31) 2024 0);
    try reflexivity.
  lia.
Defined.

(** *** Listeners and the displayed month *)

(** On every instance a host page can hold, each navigation button and each
    non-filler cell of the rendered subtree has exactly one click listener,
    and each filler cell has none: re-rendering leaves no listener behind
    and attaches each one once. *)
Theorem one_listener_per_control (w : Widget) (c : Container) :
  reachable w -> container w = Some c ->
  Forall (fun btn => nav_listeners btn = 1%nat) (nav c) /\
  Forall (fun cell => listeners cell = if is_filler cell then 0%nat else 1%nat)
         (days c).
Proof.
  intros R Hc.
  destruct (Behaviour.reachable_rendered w c R Hc)
    as (o & cd & today & Ho & Hcd & Hc').
  assert (Ec : c = attach (grid o (JSDate.getFullYear cd) (JSDate.getMonth cd) today))
    by congruence.
  subst c. split.
  - rewrite attach_grid_nav. repeat constructor.
  - apply Forall_forall. intros cell Hin.
    destruct (attach_grid_In _ _ _ _ _ Hin) as [-> | (day & _ & ->)];
      [reflexivity |].
    change (is_filler (listening ?x)) with (is_filler x).
    rewrite (proj2 (cell_of_selected _ _ _ _ _)). reflexivity.
Qed.

Lemma one_listener_per_control_witness :
  Forall (fun btn => nav_listeners btn = 1%nat)
         (nav (attach (grid (mkOptions [] true true true) 2024 0
                            (JSDate.make 2024 0 31)))) /\
  Forall (fun cell => listeners cell = if is_filler cell then 0%nat else 1%nat)
         (days (attach (grid (mkOptions [] true true true) 2024 0
                             (JSDate.make 2024 0 31)))).
Proof.
  apply (one_listener_per_control (january_2024 (mkOptions [] true true true))).
  - apply january_2024_reachable.
  - reflexivity.
Defined.

(** What [getCurrentMonth] returns on an instance that displays a month
    inside the range of valid dates is a year and a month index 0..11, and
    handing the two back to [goToMonth] displays that same month again,
    with nothing called or selected on the way, provided the year lies
    outside 0..99; a displayed year from 0 to 99 does not survive the
    round trip, the Date constructor reading it as 1900 + year. *)
Theorem displayed_month_round_trip
    (now : JSDate.t) (w : Widget) (c : Container) (year month : Z) :
  reachable w -> container w = Some c ->
  getCurrentMonth w = Ok (VYearMonth year month) ->
  -271820 <= year <= 275759 ->
  0 <= month <= 11 /\
  exists o w',
    options w = Some o /\
    goToMonth year month now w = Ok w' /\
    getCurrentMonth w' = Ok (VYearMonth (JSDate.MakeFullYear year) month) /\
    container w' =
      Some (attach (grid o (JSDate.MakeFullYear year) month now)) /\
    options w' = options w /\ selectedDate w' = selectedDate w /\
    log w' = log w /\
    (~ (0 <= year <= 99) ->
     getCurrentMonth w' = getCurrentMonth w /\
     exists c', container w' = Some c' /\ title c' = title c) /\
    (0 <= year <= 99 ->
     getCurrentMonth w' = Ok (VYearMonth (1900 + year) month)).
Proof.
  intros R Hc Hget _.
  destruct (Behaviour.reachable_rendered w c R Hc)
    as (o & cd & today & Ho & Hcd & Hc').
  unfold getCurrentMonth in Hget. rewrite Hcd in Hget.
  cbn [defined bind] in Hget. injection Hget as Hy Hm.
  assert (Hr : 0 <= month <= 11) by (subst month; apply GridFacts.getMonth_range).
  split; [exact Hr |].
  rewrite Behaviour.goToMonth_init.
  rewrite (init_live now (set_currentDate (JSDate.make year month 1) w) _ o
             (JSDate.make year month 1) Hc' Ho eq_refl).
  destruct (make_first_of_month year month) as [Ey Em].
  replace (month / 12) with 0 in Ey by zlia.
  replace (month mod 12) with month in Em by zlia.
  rewrite Z.add_0_r in Ey. rewrite Ey, Em.
  exists o. eexists. split; [exact Ho |]. split; [reflexivity |].
  assert (Hget' :
            getCurrentMonth
              (set_container
                 (attach (grid o (JSDate.MakeFullYear year) month now))
                 (set_currentDate (JSDate.make year month 1) w)) =
            Ok (VYearMonth (JSDate.MakeFullYear year) month)).
  { unfold getCurrentMonth.
    cbn [currentDate set_container set_currentDate defined bind].
    rewrite Ey, Em. reflexivity. }
  split; [exact Hget' |].
  split; [reflexivity |]. split; [reflexivity |]. split; [reflexivity |].
  split; [reflexivity |].
  unfold JSDate.MakeFullYear in *.
  destruct (Z.leb_spec 0 year), (Z.leb_spec year 99); cbn [andb] in *;
    (split; [intros Hn | intros Hn]); try lia.
  - exact Hget'.
  - split.
    + rewrite Hget'. unfold getCurrentMonth. rewrite Hcd.
      cbn [defined bind]. rewrite Hy, Hm. reflexivity.
    + eexists. split; [reflexivity |].
      assert (Ec : c = attach (grid o (JSDate.getFullYear cd)
                                    (JSDate.getMonth cd) today)) by congruence.
      rewrite Ec, Hy, Hm. reflexivity.
  - split.
    + rewrite Hget'. unfold getCurrentMonth. rewrite Hcd.
      cbn [defined bind]. rewrite Hy, Hm. reflexivity.
    + eexists. split; [reflexivity |].
      assert (Ec : c = attach (grid o (JSDate.getFullYear cd)
                                    (JSDate.getMonth cd) today)) by congruence.
      rewrite Ec, Hy, Hm. reflexivity.
Qed.

Lemma displayed_month_round_trip_witness :
  0 <= 0 <= 11 /\
  exists o w',
    options (january_2024 plain_options) = Some o /\
    goToMonth 2024 0 (JSDate.make 2024 1 2) (january_2024 plain_options) = Ok w' /\
    getCurrentMonth w' = Ok (VYearMonth (JSDate.MakeFullYear 2024) 0) /\
    container w' =
      Some (attach (grid o (JSDate.MakeFullYear 2024) 0 (JSDate.make 2024 1 2))) /\
    options w' = options (january_2024 plain_options) /\
    selectedDate w' = selectedDate (january_2024 plain_options) /\
    log w' = log (january_2024 plain_options) /\
    (~ (0 <= 2024 <= 99) ->
     getCurrentMonth w' = getCurrentMonth (january_2024 plain_options) /\
     exists c',
       container w' = Some c' /\
       title c' =
         title (attach (grid plain_options 2024 0 (JSDate.make 2024 0 31)))) /\
    (0 <= 2024 <= 99 ->
     getCurrentMonth w' = Ok (VYearMonth (1900 + 2024) 0)).
Proof.
  apply (displayed_month_round_trip
           (JSDate.make 2024 1 2) (january_2024 plain_options)
           (attach (grid plain_options 2024 0 (JSDate.make 2024 0 31))) 2024 0).
  - apply (january_2024_reachable false false).
  - reflexivity.
  - vm_compute. reflexivity.
  - lia.
Defined.

(* ====================================================================== *)
(** ** The month grid in any year *)

Module GridShape.
Import JSDateFacts GridFacts.

Lemma firstDay_of_range year month : 0 <= firstDay_of year month <= 6.
Proof. unfold firstDay_of, JSDate.getDay, JSDate.WeekDay. zlia. Qed.

Lemma text_fillers n : map text (repeat filler_cell n) = repeat None n.
Proof. induction n as [| n IH]; [reflexivity |]. cbn [repeat map]. rewrite IH. reflexivity. Qed.

Lemma monthNames_nth m :
  0 <= m <= 11 -> In (nth (Z.to_nat m) monthNames "undefined"%string) monthNames.
Proof.
  intros Hm. apply nth_In. change (List.length monthNames) with 12%nat. lia.
Qed.

(** The day of the month of a date exists in its month. *)
Lemma DateOfYearDay_le w l :
  0 <= w < 365 + l -> l = 0 \/ l = 1 ->
  JSDate.DateOfYearDay w l <= month_length l (JSDate.MonthOfYearDay w l).
Proof.
  intros Hw Hl. unfold JSDate.DateOfYearDay, JSDate.MonthOfYearDay.
  repeat match goal with
         | |- context [if ?a <? ?b then _ else _] =>
             destruct (Z.ltb_spec a b); cbv beta iota;
             [cbv [month_length]; lia |]
         end.
  cbv [month_length]. lia.
Qed.

Lemma getDate_le_month d :
  1 <= JSDate.getDate d <=
  Gregorian.days_in_month (JSDate.getFullYear d) (JSDate.getMonth d).
Proof.
  split; [apply date_decomposition |].
  unfold JSDate.getDate, JSDate.getFullYear, JSDate.getMonth.
  rewrite days_in_month_flag.
  unfold JSDate.DateFromDay, JSDate.MonthFromDay. rewrite InLeapYear_flag.
  pose proof (DayWithinYear_range d) as Hw. rewrite DaysInYear_flag in Hw.
  apply DateOfYearDay_le; [exact Hw | apply leap_flag_01].
Qed.

End GridShape.

Import JSDateFacts GridFacts GridShape.

(** *** The shape of the month grid *)



(** *** The cell of today *)

Module Today.

Lemma filter_eqb_zrange k lo n :
  filter (fun d => d =? k) (zrange lo n) =
  if (lo <=? k) && (k <? lo + Z.of_nat n) then [k] else [].
Proof.
  unfold zrange. induction n as [| n IH].
  - cbn [seq map filter]. replace (lo + Z.of_nat 0) with lo by lia.
    destruct (Z.leb_spec lo k), (Z.ltb_spec k lo); try reflexivity. lia.
  - rewrite seq_S, map_app, filter_app, IH. cbn [map filter Nat.add].
    destruct (Z.eqb_spec (lo + Z.of_nat n) k) as [E | E];
      destruct (Z.leb_spec lo k), (Z.ltb_spec k (lo + Z.of_nat n)),
               (Z.ltb_spec k (lo + Z.of_nat (S n)));
      cbn [andb app]; try reflexivity; try lia.
    subst k. reflexivity.
Qed.

Lemma filter_false {A} (l : list A) : filter (fun _ => false) l = [].
Proof. induction l; [reflexivity | assumption]. Qed.

Lemma filter_today_fillers n :
  filter (has_class "today") (repeat filler_cell n) = [].
Proof. induction n as [| n IH]; [reflexivity | exact IH]. Qed.

(** The cells of a rendered month that carry the class [today]. *)
Lemma today_cells o year month today :
  map text (filter (has_class "today") (days (attach (grid o year month today)))) =
  if highlightToday o && (month =? JSDate.getMonth today)
     && (year =? JSDate.getFullYear today)
     && (JSDate.getDate today <=? daysInMonth_of year month)
  then [Some (JSDate.getDate today)] else [].
Proof.
  rewrite attach_grid_days, filter_app, filter_today_fillers. cbn [app].
  rewrite filter_map_swap, map_map.
  pose proof (proj1 (GridShape.getDate_le_month today)) as H1.
  destruct (highlightToday o && (month =? JSDate.getMonth today)
            && (year =? JSDate.getFullYear today)) eqn:Ec.
  - rewrite (filter_ext _ (fun d => d =? JSDate.getDate today)).
    + rewrite filter_eqb_zrange. cbn [andb].
      destruct (Z.leb_spec 1 (JSDate.getDate today)); [| lia]. cbn [andb].
      destruct (Z.ltb_spec (JSDate.getDate today)
                  (1 + Z.of_nat (Z.to_nat (daysInMonth_of year month)))),
               (Z.leb_spec (JSDate.getDate today) (daysInMonth_of year month));
        try reflexivity; lia.
    + intros d. change (has_class "today" (listening ?x)) with (has_class "today" x).
      rewrite cell_of_today.
      destruct (highlightToday o), (month =? JSDate.getMonth today),
               (year =? JSDate.getFullYear today); try discriminate.
      cbn [andb]. rewrite !andb_true_r. reflexivity.
  - cbn [andb]. rewrite (filter_ext _ (fun _ => false)).
    + rewrite filter_false. reflexivity.
    + intros d. change (has_class "today" (listening ?x)) with (has_class "today" x).
      rewrite cell_of_today.
      destruct (highlightToday o), (month =? JSDate.getMonth today),
               (year =? JSDate.getFullYear today), (d =? JSDate.getDate today);
        try discriminate; reflexivity.
Qed.

(** With a clock in a year the Date constructor takes at face value, the
    clock's day exists in the clock's month as the grid counts it. *)
Lemma today_cells_clock o year month now :
  plain_year (JSDate.getFullYear now) ->
  map text (filter (has_class "today") (days (attach (grid o year month now)))) =
  if highlightToday o && (month =? JSDate.getMonth now)
     && (year =? JSDate.getFullYear now)
  then [Some (JSDate.getDate now)] else [].
Proof.
  intros Hplain. rewrite today_cells.
  destruct (highlightToday o); cbn [andb]; [| reflexivity].
  destruct (Z.eqb_spec month (JSDate.getMonth now)) as [Em | _];
    cbn [andb]; [| reflexivity].
  destruct (Z.eqb_spec year (JSDate.getFullYear now))
    as [Ey | _]; cbn [andb]; [| reflexivity].
  rewrite Em, Ey.
  rewrite GridFacts.daysInMonth_of_gregorian
    by (try exact Hplain; apply GridFacts.getMonth_range).
  destruct (Z.leb_spec (JSDate.getDate now)
              (Gregorian.days_in_month (JSDate.getFullYear now)
                                       (JSDate.getMonth now))) as [_ | Hgt];
    [reflexivity |].
  pose proof (GridShape.getDate_le_month now). lia.
Qed.

End Today.

(** Whenever the widget renders its subtree (the constructor, a navigation
    click, [setEntryDates] and [goToMonth] all do), the class [today] is on
    exactly one cell, the one of the clock's day of the month, when
    [highlightToday] is on and the displayed month and year are those of the
    clock; otherwise it is on no cell. *)
Theorem today_highlight_follows_clock
    (now : JSDate.t) (w : Widget) (c : Container) (o : Options) (cd : JSDate.t) :
  container w = Some c -> options w = Some o -> currentDate w = Some cd ->
  plain_year (JSDate.getFullYear now) ->
  exists w' c',
    init now w = Ok w' /\ container w' = Some c' /\
    map text (filter (has_class "today") (days c')) =
      if highlightToday o && (JSDate.getMonth cd =? JSDate.getMonth now)
         && (JSDate.getFullYear cd =? JSDate.getFullYear now)
      then [Some (JSDate.getDate now)] else [].
Proof.
  intros Hc Ho Hcd Hplain.
  rewrite (init_live now w c o cd Hc Ho Hcd).
  eexists _, _. split; [reflexivity |]. split; [reflexivity |].
  apply Today.today_cells_clock. exact Hplain.
Qed.

Lemma today_highlight_follows_clock_witness :
  exists w' c',
    init (JSDate.make 2024 0 31)
         (widget_at (JSDate.make 2024 0 31) plain_options) = Ok w' /\
    container w' = Some c' /\
    map text (filter (has_class "today") (days c')) = [Some 31].
Proof.
  apply (today_highlight_follows_clock
           (JSDate.make 2024 0 31)
           (widget_at (JSDate.make 2024 0 31) plain_options)
           blank_container plain_options (JSDate.make 2024 0 31));
    try reflexivity.
  unfold plain_year. vm_compute. split; [split; discriminate |].
  intros [_ H]. apply H. reflexivity.
Defined.

Lemma no_entries_no_marks o year month today :
  entryDates o = [] ->
  marked_days (attach (grid o year month today)) = [].
Proof.
  intros He. unfold marked_days.
  rewrite (filter_ext_in _ (fun _ => false));
    [rewrite Today.filter_false; reflexivity |].
  intros cell Hin.
  destruct (attach_grid_In _ _ _ _ _ Hin) as [-> | (day & _ & ->)];
    [reflexivity |].
  change (has_class "has-entry" (listening ?x)) with (has_class "has-entry" x).
  rewrite cell_of_has_entry, He. reflexivity.
Qed.

(** *** Construction *)


(** An [entryDates] key holding [null], as a page writes it that has no
    entries to show. *)
Definition null_entries : UserOptions :=
  mkUserOptions (Some None) false false None.


(** *** Runs of navigation clicks *)

(** A run of clicks on the [i]-th navigation button, one per clock
    reading. *)
Fixpoint click_nav_each (clocks : list JSDate.t) (i : nat) (w : Widget)
    : Result Widget :=
  match clocks with
  | [] => Ok w
  | now :: rest => w1 <- click_nav now i w ;; click_nav_each rest i w1
  end.

(** Months counted from January of year 0. *)
Definition month_count (d : JSDate.t) : Z :=
  12 * JSDate.getFullYear d + JSDate.getMonth d.

Module NavRuns.

Lemma currentDate_navigated now action o cd w :
  currentDate (Behaviour.navigated now action o cd w) =
  Some (Behaviour.nav_target action cd).
Proof.
  unfold Behaviour.navigated. cbv zeta. destruct (onMonthChange o); reflexivity.
Qed.

Lemma setMonth_month_count d m :
  JSDate.getDate d <= 28 ->
  JSDate.getDate (JSDate.setMonth d m) = JSDate.getDate d /\
  month_count (JSDate.setMonth d m) = 12 * JSDate.getFullYear d + m.
Proof.
  intros Hd. destruct (setMonth_short_day d m Hd) as (Hy & Hm & Hdt).
  unfold month_count, JSDate.getDate, JSDate.getFullYear, JSDate.getMonth.
  rewrite Hy, Hm, Hdt. split; [reflexivity | zlia].
Qed.

Lemma navigated_fields now action o cd w :
  options w = Some o ->
  options (Behaviour.navigated now action o cd w) = Some o /\
  selectedDate (Behaviour.navigated now action o cd w) = selectedDate w /\
  container (Behaviour.navigated now action o cd w) =
    Some (attach (grid o (JSDate.getFullYear (Behaviour.nav_target action cd))
                       (JSDate.getMonth (Behaviour.nav_target action cd)) now)) /\
  log (Behaviour.navigated now action o cd w) =
    (log w ++ if onMonthChange o
              then [MonthChange (VDate (Behaviour.nav_target action cd))]
              else [])%list.
Proof.
  intros Ho. unfold Behaviour.navigated. cbv zeta.
  destruct (onMonthChange o);
    cbn [options selectedDate container log emit set_container set_currentDate];
    rewrite ?app_nil_r; auto.
Qed.

(** One click on "previous" (index 0) or "next" (index 1). *)
Lemma click_nav_step now i step w cd :
  (i = 0%nat /\ step = -1) \/ (i = 1%nat /\ step = 1) ->
  rendered w -> currentDate w = Some cd -> JSDate.getDate cd <= 28 ->
  exists w' cd',
    click_nav now i w = Ok w' /\ rendered w' /\ currentDate w' = Some cd' /\
    JSDate.getDate cd' = JSDate.getDate cd /\
    month_count cd' = month_count cd + step.
Proof.
  intros Hi R Hcd Hd. pose proof R as (o & cd0 & today & Ho & Hcd0 & Hc).
  assert (cd0 = cd) by congruence. subst cd0.
  rewrite (Behaviour.click_nav_rendered now i w o cd today Ho Hcd Hc).
  destruct Hi as [[-> ->] | [-> ->]].
  - eexists _, _. split; [reflexivity |].
    split; [apply Behaviour.navigated_rendered; exact Ho |].
    split; [apply currentDate_navigated |].
    change (Behaviour.nav_target "prev" cd)
      with (JSDate.setMonth cd (JSDate.getMonth cd - 1)).
    destruct (setMonth_month_count cd (JSDate.getMonth cd - 1) Hd) as [H1 H2].
    split; [exact H1 |]. rewrite H2. unfold month_count. lia.
  - eexists _, _. split; [reflexivity |].
    split; [apply Behaviour.navigated_rendered; exact Ho |].
    split; [apply currentDate_navigated |].
    change (Behaviour.nav_target "next" cd)
      with (JSDate.setMonth cd (JSDate.getMonth cd + 1)).
    destruct (setMonth_month_count cd (JSDate.getMonth cd + 1) Hd) as [H1 H2].
    split; [exact H1 |]. rewrite H2. unfold month_count. lia.
Qed.

Lemma click_nav_run i step clocks :
  (i = 0%nat /\ step = -1) \/ (i = 1%nat /\ step = 1) ->
  forall w cd,
    rendered w -> currentDate w = Some cd -> JSDate.getDate cd <= 28 ->
    exists w' cd',
      click_nav_each clocks i w = Ok w' /\ rendered w' /\
      currentDate w' = Some cd' /\
      JSDate.getDate cd' = JSDate.getDate cd /\
      month_count cd' = month_count cd + step * Z.of_nat (List.length clocks).
Proof.
  intros Hi. induction clocks as [| now rest IH]; intros w cd R Hcd Hd.
  - exists w, cd. cbn [click_nav_each List.length]. repeat split; auto. lia.
  - destruct (click_nav_step now i step w cd Hi R Hcd Hd)
      as (w1 & cd1 & H1 & R1 & Hcd1 & Hd1 & Hm1).
    destruct (IH w1 cd1 R1 Hcd1 ltac:(lia))
      as (w' & cd' & H' & R' & Hcd' & Hd' & Hm').
    exists w', cd'. cbn [click_nav_each]. rewrite H1. cbn [bind].
    repeat split; auto; [lia |].
    rewrite Hm', Hm1. cbn [List.length]. lia.
Qed.

(** The year and the month are read back from the count of months. *)
Lemma month_count_split d n :
  month_count d = n ->
  JSDate.getFullYear d = n / 12 /\ JSDate.getMonth d = n mod 12.
Proof.
  unfold month_count. pose proof (GridFacts.getMonth_range d). zlia.
Qed.

End NavRuns.



(** *** Next, then previous *)

Module RoundTrip.

(** Moving the month forward and back again (or back and forward) gives
    the same date when its day exists in every month. *)
Lemma setMonth_there_and_back d step :
  JSDate.getDate d <= 28 ->
  let d1 := JSDate.setMonth d (JSDate.getMonth d + step) in
  JSDate.setMonth d1 (JSDate.getMonth d1 - step) = d.
Proof.
  intros Hd d1.
  destruct (setMonth_short_day d (JSDate.getMonth d + step) Hd) as (Hy & Hm & Hdt).
  fold d1 in Hy, Hm, Hdt.
  destruct (date_decomposition d) as [_ Hdec].
  unfold JSDate.setMonth at 1. unfold JSDate.getMonth at 1.
  rewrite Hy, Hm, Hdt, MakeDay_carry.
  pose proof (GridFacts.getMonth_range d) as Hr. unfold JSDate.getMonth in *.
  replace (JSDate.YearFromDay d + (JSDate.MonthFromDay d + step) / 12 +
           ((JSDate.MonthFromDay d + step) mod 12 - step) / 12)
    with (JSDate.YearFromDay d) by zlia.
  replace (((JSDate.MonthFromDay d + step) mod 12 - step) mod 12)
    with (JSDate.MonthFromDay d) by zlia.
  symmetry. exact Hdec.
Qed.

End RoundTrip.



(** *** Days under their weekday *)

Module Columns.

(** Zeller's congruence and the Date object's weekday both advance by one
    per day. *)
Lemma weekday_of_day y m q :
  Gregorian.weekday y m q = (Gregorian.weekday y m 1 + (q - 1)) mod 7.
Proof. unfold Gregorian.weekday. cbv zeta. zlia. Qed.

Lemma index_weekday year month k :
  plain_year year -> 0 <= month <= 11 ->
  Z.of_nat (Z.to_nat (firstDay_of year month) + k) mod 7 =
  Gregorian.weekday year month (1 + Z.of_nat k).
Proof.
  intros Hy Hm. rewrite weekday_of_day.
  rewrite <- GridFacts.firstDay_of_gregorian by assumption.
  pose proof (GridShape.firstDay_of_range year month).
  f_equal. lia.
Qed.

End Columns.

(** On every instance a host page can hold that displays a month of a year
    the Date constructor takes at face value, the cell of day [d] sits at
    an index of the grid that is congruent modulo 7 to the weekday
    (0 = Sunday) of day [d] of that month: laid out seven to a row under
    the header Sun .. Sat, every day falls under its own weekday. *)
Theorem days_fall_under_their_weekday
    (w : Widget) (c : Container) (cd : JSDate.t) (i : nat) (cell : DayCell)
    (day : Z) :
  reachable w -> container w = Some c -> currentDate w = Some cd ->
  plain_year (JSDate.getFullYear cd) ->
  nth_error (days c) i = Some cell -> text cell = Some day ->
  Z.of_nat i mod 7 =
    Gregorian.weekday (JSDate.getFullYear cd) (JSDate.getMonth cd) day /\
  nth_error (weekdays c) (Nat.modulo i 7) =
    nth_error weekdayNames
      (Z.to_nat (Gregorian.weekday (JSDate.getFullYear cd) (JSDate.getMonth cd) day)).
Proof.
  intros R Hc Hcd Hplain Hnth Htext.
  destruct (Behaviour.reachable_rendered w c R Hc)
    as (o & cd0 & today & Ho & Hcd0 & Hc').
  assert (cd0 = cd) by congruence. subst cd0.
  assert (Ec : c = attach (grid o (JSDate.getFullYear cd) (JSDate.getMonth cd) today))
    by congruence.
  subst c.
  destruct (attach_grid_nth _ _ _ _ _ _ Hnth) as [[_ ->] | (k & -> & _ & ->)];
    [discriminate |].
  assert (Hday : day = 1 + Z.of_nat k)
    by (unfold listening, cell_of in Htext; cbn [text] in Htext; congruence).
  subst day.
  pose proof (Columns.index_weekday (JSDate.getFullYear cd) (JSDate.getMonth cd) k
                Hplain (GridFacts.getMonth_range cd)) as Hidx.
  split; [exact Hidx |].
  rewrite <- Hidx. f_equal.
  rewrite <- (Nat2Z.id (Nat.modulo _ 7)). f_equal.
  rewrite Nat2Z.inj_mod. reflexivity.
Qed.

Lemma days_fall_under_their_weekday_witness :
  Z.of_nat 15 mod 7 = Gregorian.weekday 2024 0 15 /\
  nth_error (weekdays (attach (grid plain_options 2024 0 (JSDate.make 2024 0 31))))
            (Nat.modulo 15 7) =
    nth_error weekdayNames (Z.to_nat (Gregorian.weekday 2024 0 15)).
Proof.
  apply (days_fall_under_their_weekday
           (january_2024 plain_options)
           (attach (grid plain_options 2024 0 (JSDate.make 2024 0 31)))
           (JSDate.make 2024 0 31) 15
           (listening (cell_of plain_options 2024 0 (JSDate.make 2024 0 31) 15))
           15).
  - apply (january_2024_reachable false false).
  - reflexivity.
  - reflexivity.
  - unfold plain_year. vm_compute. split; [split; discriminate |].
    intros [_ H]. apply H. reflexivity.
  - reflexivity.
  - reflexivity.
Defined.

(** *** The public methods, one after the other *)

Module Methods.

Definition with_entries (dates : list string) (o : Options) : Options :=
  mkOptions dates (onDateSelect o) (onMonthChange o) (highlightToday o).

Lemma setEntryDates_live dates now w c o cd :
  container w = Some c -> options w = Some o -> currentDate w = Some cd ->
  setEntryDates dates now w =
  Ok (set_container
        (attach (grid (with_entries dates o) (JSDate.getFullYear cd)
                      (JSDate.getMonth cd) now))
        (set_options (with_entries dates o) w)).
Proof.
  intros Hc Ho Hcd. rewrite (Behaviour.setEntryDates_init dates now w o Ho).
  apply (init_live now _ c); [exact Hc | reflexivity | exact Hcd].
Qed.

Lemma goToMonth_live year month now w c o cd :
  container w = Some c -> options w = Some o -> currentDate w = Some cd ->
  goToMonth year month now w =
  Ok (set_container
        (attach (grid o (JSDate.getFullYear (JSDate.make year month 1))
                      (JSDate.getMonth (JSDate.make year month 1)) now))
        (set_currentDate (JSDate.make year month 1) w)).
Proof.
  intros Hc Ho Hcd. rewrite Behaviour.goToMonth_init.
  apply (init_live now _ c); [exact Hc | exact Ho | reflexivity].
Qed.

End Methods.

(** On a live instance, [setEntryDates] and [goToMonth] only keep what the
    last call of each gave: a second [setEntryDates] makes the first one
    void, a second [goToMonth] makes the first one void, and the two
    methods commute (the subtree being rendered at the clock of whichever
    call comes last). *)
Theorem public_methods_compose
    (w : Widget) (c : Container) (now1 now2 : JSDate.t)
    (a b : list string) (y1 m1 y2 m2 : Z) :
  reachable w -> container w = Some c ->
  (w1 <- setEntryDates a now1 w ;; setEntryDates b now2 w1)
    = setEntryDates b now2 w /\
  (w1 <- goToMonth y1 m1 now1 w ;; goToMonth y2 m2 now2 w1)
    = goToMonth y2 m2 now2 w /\
  (w1 <- setEntryDates a now1 w ;; goToMonth y1 m1 now2 w1)
    = (w1 <- goToMonth y1 m1 now1 w ;; setEntryDates a now2 w1) /\
  (exists wa wb wc,
      setEntryDates b now2 w = Ok wa /\ goToMonth y2 m2 now2 w = Ok wb /\
      (w1 <- setEntryDates a now1 w ;; goToMonth y1 m1 now2 w1) = Ok wc).
Proof.
  intros R Hc.
  destruct (Behaviour.reachable_rendered w c R Hc)
    as (o & cd & today & Ho & Hcd & _).
  rewrite (Methods.setEntryDates_live a now1 w c o cd Hc Ho Hcd).
  rewrite (Methods.setEntryDates_live b now2 w c o cd Hc Ho Hcd).
  rewrite (Methods.goToMonth_live y1 m1 now1 w c o cd Hc Ho Hcd).
  rewrite (Methods.goToMonth_live y2 m2 now2 w c o cd Hc Ho Hcd).
  cbn [bind].
  erewrite (Methods.setEntryDates_live b now2);
    [| reflexivity | reflexivity | exact Hcd].
  erewrite (Methods.goToMonth_live y2 m2 now2);
    [| reflexivity | exact Ho | reflexivity].
  erewrite (Methods.goToMonth_live y1 m1 now2);
    [| reflexivity | reflexivity | exact Hcd].
  erewrite (Methods.setEntryDates_live a now2);
    [| reflexivity | exact Ho | reflexivity].
  unfold set_container, set_options, set_currentDate, Methods.with_entries.
  cbn [container options currentDate selectedDate log
       onDateSelect onMonthChange highlightToday].
  split; [reflexivity |]. split; [reflexivity |]. split; [reflexivity |].
  eexists _, _, _. repeat split; reflexivity.
Qed.

Lemma public_methods_compose_witness :
  (w1 <- setEntryDates ["2024-01-15"%string] (JSDate.make 2024 0 31)
           (january_2024 plain_options) ;;
   setEntryDates [] (JSDate.make 2024 1 1) w1)
    = setEntryDates [] (JSDate.make 2024 1 1) (january_2024 plain_options) /\
  (w1 <- goToMonth 2025 5 (JSDate.make 2024 0 31) (january_2024 plain_options) ;;
   goToMonth 2023 0 (JSDate.make 2024 1 1) w1)
    = goToMonth 2023 0 (JSDate.make 2024 1 1) (january_2024 plain_options) /\
  (w1 <- setEntryDates ["2024-01-15"%string] (JSDate.make 2024 0 31)
           (january_2024 plain_options) ;;
   goToMonth 2025 5 (JSDate.make 2024 1 1) w1)
    = (w1 <- goToMonth 2025 5 (JSDate.make 2024 0 31) (january_2024 plain_options) ;;
       setEntryDates ["2024-01-15"%string] (JSDate.make 2024 1 1) w1) /\
  (exists wa wb wc,
      setEntryDates [] (JSDate.make 2024 1 1) (january_2024 plain_options) = Ok wa /\
      goToMonth 2023 0 (JSDate.make 2024 1 1) (january_2024 plain_options) = Ok wb /\
      (w1 <- setEntryDates ["2024-01-15"%string] (JSDate.make 2024 0 31)
               (january_2024 plain_options) ;;
       goToMonth 2025 5 (JSDate.make 2024 1 1) w1) = Ok wc).
Proof.
  apply (public_methods_compose
           (january_2024 plain_options)
           (attach (grid plain_options 2024 0 (JSDate.make 2024 0 31)))).
  - apply (january_2024_reachable false false).
  - reflexivity.
Defined.

(** *** Selection and the callbacks *)

(** The identifier last handed to [onDateSelect], if any. *)
Fixpoint last_selected (l : list Event) : option string :=
  match l with
  | [] => None
  | e :: rest =>
      match last_selected rest with
      | Some s => Some s
      | None => match e with DateSelect ds => Some ds | _ => None end
      end
  end.

Module Selection.

Lemma last_selected_app l e :
  last_selected (l ++ [e]) =
  match e with DateSelect ds => Some ds | _ => last_selected l end.
Proof.
  induction l as [| x l IH].
  - destruct e; reflexivity.
  - cbn [app last_selected]. rewrite IH. destruct e; reflexivity.
Qed.

(** What one operation does to the selection and to the log of a rendered
    instance. *)
Definition keeps_selection (w w' : Widget) : Prop :=
  (selectedDate w' = selectedDate w /\
   exists l, log w' = (log w ++ l)%list /\
             Forall (fun e => exists v, e = MonthChange v) l) \/
  (exists ds, selectedDate w' = Some ds /\
              log w' = (log w ++ [DateSelect ds])%list).

Lemma keeps_selection_eq w w' :
  selectedDate w' = selectedDate w -> log w' = log w -> keeps_selection w w'.
Proof.
  intros Hs Hl. left. split; [exact Hs |]. exists []. rewrite app_nil_r. auto.
Qed.

Lemma keeps_selection_same w : keeps_selection w w.
Proof. apply keeps_selection_eq; reflexivity. Qed.

Lemma click_nav_selection now i w w' :
  rendered w -> click_nav now i w = Ok w' -> keeps_selection w w'.
Proof.
  intros (o & cd & today & Ho & Hcd & Hc) H.
  rewrite (Behaviour.click_nav_rendered now i w o cd today Ho Hcd Hc) in H.
  assert (Hn : forall action,
             keeps_selection w (Behaviour.navigated now action o cd w)).
  { intros action.
    destruct (NavRuns.navigated_fields now action o cd w Ho) as (_ & Hs & _ & Hl).
    left. split; [exact Hs |]. eexists. split; [exact Hl |].
    destruct (onMonthChange o); repeat constructor. eexists. reflexivity. }
  destruct i as [| [| i]]; injection H as <-;
    [apply Hn | apply Hn | apply keeps_selection_same].
Qed.

Lemma click_day_selection i w w' :
  rendered w -> click_day i w = Ok w' -> keeps_selection w w'.
Proof.
  intros R H. pose proof R as (o & cd & today & Ho & Hcd & Hc).
  destruct (nth_error
              (days (attach (grid o (JSDate.getFullYear cd)
                                  (JSDate.getMonth cd) today))) i)
    as [cell |] eqn:Hnth.
  - destruct (Behaviour.click_day_rendered i w o cd today cell Ho Hcd Hc Hnth)
      as [(_ & _ & _ & E) | (_ & _ & day & _ & _ & _ & _ & E)];
      rewrite E in H; injection H as <-.
    + apply keeps_selection_same.
    + unfold Behaviour.selected. destruct (onDateSelect o).
      * right. eexists. split; reflexivity.
      * apply keeps_selection_same.
  - unfold click_day in H. rewrite Hc, Hnth in H. injection H as <-.
    apply keeps_selection_same.
Qed.

Lemma setEntryDates_selection dates now w w' :
  rendered w -> setEntryDates dates now w = Ok w' -> keeps_selection w w'.
Proof.
  intros R H. destruct (rendered_live w R) as (c & o & cd & Hc & Ho & Hcd).
  rewrite (Methods.setEntryDates_live dates now w c o cd Hc Ho Hcd) in H.
  injection H as <-. apply keeps_selection_eq; reflexivity.
Qed.

Lemma goToMonth_selection year month now w w' :
  rendered w -> goToMonth year month now w = Ok w' -> keeps_selection w w'.
Proof.
  intros R H. destruct (rendered_live w R) as (c & o & cd & Hc & Ho & Hcd).
  rewrite (Methods.goToMonth_live year month now w c o cd Hc Ho Hcd) in H.
  injection H as <-. apply keeps_selection_eq; reflexivity.
Qed.

Lemma last_selected_month_changes l l' :
  Forall (fun e => exists v, e = MonthChange v) l' ->
  last_selected (l ++ l') = last_selected l.
Proof.
  induction l as [| x l IH]; intros Hl'.
  - cbn [app]. induction Hl' as [| e l' [v ->] _ IH']; [reflexivity |].
    cbn [last_selected]. rewrite IH'. reflexivity.
  - cbn [app last_selected]. rewrite IH by exact Hl'. reflexivity.
Qed.

Lemma keeps_selection_invariant w w' :
  keeps_selection w w' ->
  selectedDate w = last_selected (log w) ->
  selectedDate w' = last_selected (log w').
Proof.
  intros [[Hs (l & Hl & Hall)] | (ds & Hs & Hl)] Hinv.
  - rewrite Hs, Hl, last_selected_month_changes by exact Hall. exact Hinv.
  - rewrite Hs, Hl, last_selected_app. reflexivity.
Qed.

Lemma constructor_fresh doc now arg opts w :
  constructor doc now arg opts = Ok w ->
  selectedDate w = None /\
  (log w = [] \/ log w = [ConsoleError "Calendar container not found"]).
Proof.
  unfold constructor. destruct (resolve doc arg) as [c |].
  - destruct (given_entryDates opts) as [[l |] |]; [| discriminate |];
      set (o := mkOptions _ _ _ _);
      rewrite (init_live now (mkWidget (Some c) (Some o) (Some now) None [])
                         c o now eq_refl eq_refl eq_refl);
      intros [= <-]; (split; [reflexivity | left; reflexivity]).
  - intros [= <-]. split; [reflexivity | right; reflexivity].
Qed.

End Selection.

(** On every instance a host page can hold, [selectedDate] is the
    identifier most recently handed to [onDateSelect], and null as long as
    the callback has never been called: the selection and the callback
    never get out of step, whatever clicks and method calls come in
    between. *)
Theorem selection_is_last_callback (w : Widget) :
  reachable w -> selectedDate w = last_selected (log w).
Proof.
  induction 1 as [doc now arg opts w H
                 | now i w w' R IH H
                 | i w w' R IH H
                 | dates now w w' R IH H
                 | year month now w w' R IH H].
  - destruct (Selection.constructor_fresh _ _ _ _ _ H) as [-> [-> | ->]];
      reflexivity.
  - destruct (Behaviour.reachable_cases w R) as [[l ->] | Rw].
    + injection H as <-. exact IH.
    + exact (Selection.keeps_selection_invariant _ _
               (Selection.click_nav_selection _ _ _ _ Rw H) IH).
  - destruct (Behaviour.reachable_cases w R) as [[l ->] | Rw].
    + injection H as <-. exact IH.
    + exact (Selection.keeps_selection_invariant _ _
               (Selection.click_day_selection _ _ _ Rw H) IH).
  - destruct (Behaviour.reachable_cases w R) as [[l ->] | Rw].
    + destruct (Behaviour.setEntryDates_inert _ _ _ _ H).
    + exact (Selection.keeps_selection_invariant _ _
               (Selection.setEntryDates_selection _ _ _ _ Rw H) IH).
  - destruct (Behaviour.reachable_cases w R) as [[l ->] | Rw].
    + destruct (Behaviour.goToMonth_inert _ _ _ _ _ H).
    + exact (Selection.keeps_selection_invariant _ _
               (Selection.goToMonth_selection _ _ _ _ _ Rw H) IH).
Qed.

Lemma selection_is_last_callback_witness :
  selectedDate
    (emit (DateSelect "2024-01-15")
          (set_selectedDate "2024-01-15"
                            (january_2024 (mkOptions [] true true true)))) =
  last_selected
    (log (emit (DateSelect "2024-01-15")
               (set_selectedDate "2024-01-15"
                                 (january_2024 (mkOptions [] true true true))))).
Proof.
  apply selection_is_last_callback.
  apply (reach_click_day 15 (january_2024 (mkOptions [] true true true))).
  - apply january_2024_reachable.
  - vm_compute. reflexivity.
Defined.

(* ====================================================================== *)
(** ** initCalendarFromData *)

(** The element handed to [initCalendarFromData]: its subtree and the two
    data attributes the function reads ([None]: the attribute is absent). *)
Record DataElement := mkDataElement {
  subtree : Container;
  data_entry_dates : option string;
  data_filter_url : option string
}.

(** The argument: an element handle (possibly null), or a string, which
    the function does not expect. *)
Inductive InitArg :=
| ArgSelector (s : string)
| ArgElement (e : option DataElement).

Inductive JSError := JSSyntaxError | JSTypeError.

Inductive Outcome :=
| Returns (w : Widget)
| Throws (e : JSError).

(** [a || d] for an attribute value [a]: [undefined] and the empty string
    are falsy. *)
Definition or_else (a : option string) (d : string) : string :=
  match a with
  | Some s => if JSString.truthy s then s else d
  | None => d
  end.

(** The [onDateSelect] callback the function installs: the URL it assigns
    to [window.location.href], if it assigns one. *)
Definition filter_redirect (filterUrl : option string) (dateStr : string)
    : option string :=
  match filterUrl with
  | Some u =>
      if JSString.truthy u then Some (u ++ "?date=" ++ dateStr)%string else None
  | None => None
  end.

(** The assignments to [window.location.href] that the calls of the
    callback recorded in a log have made, in order. *)
Definition assignments (filterUrl : option string) (l : list Event)
    : list string :=
  flat_map (fun e =>
              match e with
              | DateSelect ds =>
                  match filter_redirect filterUrl ds with
                  | Some href => [href]
                  | None => []
                  end
              | _ => []
              end) l.

Section InitFromData.

(** [JSON.parse] on the text of the [data-entry-dates] attribute, which is
    taken to be the JSON text of an array of strings, as a page template
    writes it, or no JSON text at all: the array, or [None] for a
    SyntaxError. *)
Variable JSON_parse : string -> option (list string).

(** [initCalendarFromData(container)]; the element is not a string, so the
    constructor does not consult the document. *)
Definition initCalendarFromData (now : JSDate.t) (container : InitArg)
    : Outcome :=
  match container with
  | ArgSelector _ => Throws JSTypeError
  | ArgElement None => Throws JSTypeError
  | ArgElement (Some el) =>
      match JSON_parse (or_else (data_entry_dates el) "[]") with
      | None => Throws JSSyntaxError
      | Some entryDates =>
          match constructor (fun _ => None) now (Element (Some (subtree el)))
                            (mkUserOptions (Some (Some entryDates)) true false None) with
          | Ok w => Returns w
          | Throw TypeError _ => Throws JSTypeError
          end
      end
  end.

End InitFromData.

(** One click or one call of a public method that returns. *)
Inductive step : Widget -> Widget -> Prop :=
| step_click_nav now i w w' : click_nav now i w = Ok w' -> step w w'
| step_click_day i w w' : click_day i w = Ok w' -> step w w'
| step_setEntryDates dates now w w' :
    setEntryDates dates now w = Ok w' -> step w w'
| step_goToMonth year month now w w' :
    goToMonth year month now w = Ok w' -> step w w'.

(** What clicks and method calls make of an instance. *)
Inductive later (w0 : Widget) : Widget -> Prop :=
| later_now : later w0 w0
| later_step w w' : later w0 w -> step w w' -> later w0 w'.

Module FromData.

(** An event that is the call of a configured callback. *)
Definition configured_call (o : Options) (e : Event) : Prop :=
  (exists v, e = MonthChange v /\ onMonthChange o = true) \/
  (exists ds, e = DateSelect ds /\ onDateSelect o = true).

Definition same_callbacks (o o' : Options) : Prop :=
  onDateSelect o' = onDateSelect o /\ onMonthChange o' = onMonthChange o.

(** A step keeps the callbacks and calls only configured ones. *)
Lemma step_effect w w' o :
  rendered w -> options w = Some o -> step w w' ->
  rendered w' /\
  (exists o', options w' = Some o' /\ same_callbacks o o') /\
  exists l, log w' = (log w ++ l)%list /\ Forall (configured_call o) l.
Proof.
  intros R Ho S. pose proof R as (o0 & cd & today & Ho0 & Hcd & Hc).
  assert (o0 = o) by congruence. subst o0.
  assert (Same : forall w1, rendered w1 -> options w1 = Some o -> log w1 = log w ->
             rendered w1 /\
             (exists o', options w1 = Some o' /\ same_callbacks o o') /\
             exists l, log w1 = (log w ++ l)%list /\ Forall (configured_call o) l).
  { intros w1 R1 Ho1 Hl1. split; [exact R1 |].
    split; [exists o; split; [exact Ho1 | split; reflexivity] |].
    exists []. rewrite app_nil_r. auto. }
  destruct S as [now i w w' H | i w w' H | dates now w w' H | year month now w w' H].
  - pose proof (Behaviour.click_nav_keeps_rendered now i w w' R H) as R'.
    rewrite (Behaviour.click_nav_rendered now i w o cd today Ho Hcd Hc) in H.
    assert (Hn : forall action,
               (exists o', options (Behaviour.navigated now action o cd w) = Some o' /\
                           same_callbacks o o') /\
               exists l, log (Behaviour.navigated now action o cd w) = (log w ++ l)%list /\
                         Forall (configured_call o) l).
    { intros action.
      destruct (NavRuns.navigated_fields now action o cd w Ho) as (Ho' & _ & _ & Hl).
      split; [exists o; split; [exact Ho' | split; reflexivity] |].
      eexists. split; [exact Hl |].
      destruct (onMonthChange o) eqn:E; [| apply Forall_nil].
      apply Forall_cons; [| apply Forall_nil].
      left. eexists. split; [reflexivity | exact E]. }
    destruct i as [| [| i]]; injection H as <-.
    + split; [exact R' | apply Hn].
    + split; [exact R' | apply Hn].
    + apply Same; auto.
  - pose proof (Behaviour.click_day_keeps_rendered i w w' R H) as R'.
    destruct (nth_error
                (days (attach (grid o (JSDate.getFullYear cd)
                                    (JSDate.getMonth cd) today))) i)
      as [cell |] eqn:Hnth.
    + destruct (Behaviour.click_day_rendered i w o cd today cell Ho Hcd Hc Hnth)
        as [(_ & _ & _ & E) | (_ & _ & day & _ & _ & _ & _ & E)];
        rewrite E in H; injection H as <-.
      * apply Same; auto.
      * split; [exact R' |]. unfold Behaviour.selected in *.
        destruct (onDateSelect o) eqn:E'.
        -- split; [exists o; split; [exact Ho | split; reflexivity] |].
           eexists. split; [reflexivity |].
           apply Forall_cons; [| apply Forall_nil].
           right. eexists. split; [reflexivity | exact E'].
        -- apply Same; auto.
    + unfold click_day in H. rewrite Hc, Hnth in H. injection H as <-.
      apply Same; auto.
  - pose proof (Behaviour.setEntryDates_keeps_rendered dates now w w' R H) as R'.
    rewrite (Methods.setEntryDates_live dates now w _ o cd Hc Ho Hcd) in H.
    injection H as <-. split; [exact R' |].
    split; [eexists; split; [reflexivity | split; reflexivity] |].
    exists []. rewrite app_nil_r. auto.
  - pose proof (Behaviour.goToMonth_keeps_rendered year month now w w' R H) as R'.
    rewrite (Methods.goToMonth_live year month now w _ o cd Hc Ho Hcd) in H.
    injection H as <-. apply Same; auto.
Qed.

Lemma later_effect w0 w o0 :
  rendered w0 -> options w0 = Some o0 -> later w0 w ->
  rendered w /\
  (exists o, options w = Some o /\ same_callbacks o0 o) /\
  exists l, log w = (log w0 ++ l)%list /\ Forall (configured_call o0) l.
Proof.
  intros R0 Ho0. induction 1 as [| w w' _ IH S].
  - split; [exact R0 |].
    split; [exists o0; split; [exact Ho0 | split; reflexivity] |].
    exists []. rewrite app_nil_r. auto.
  - destruct IH as (R & (o & Ho & Hd & Hm) & l & Hl & Hall).
    destruct (step_effect w w' o R Ho S)
      as (R' & (o' & Ho' & Hd' & Hm') & l' & Hl' & Hall').
    split; [exact R' |].
    split; [exists o'; split; [exact Ho' | split; congruence] |].
    exists (l ++ l')%list. split; [rewrite Hl', Hl, app_assoc; reflexivity |].
    apply Forall_app. split; [exact Hall |].
    apply Forall_impl with (2 := Hall').
    intros e [(v & -> & E) | (ds & -> & E)]; unfold configured_call;
      [left | right]; eexists; (split; [reflexivity | congruence]).
Qed.

End FromData.

(** *** What initCalendarFromData returns or throws *)

(** The instance made for an element whose attribute parses. *)
Lemma init_from_element
    (JSON_parse : string -> option (list string)) (now : JSDate.t)
    (el : DataElement) (l : list string) :
  JSON_parse (or_else (data_entry_dates el) "[]") = Some l ->
  exists w c,
    initCalendarFromData JSON_parse now (ArgElement (Some el)) = Returns w /\
    reachable w /\
    container w = Some c /\
    options w = Some (mkOptions l true false true) /\
    getCurrentMonth w =
      Ok (VYearMonth (JSDate.getFullYear now) (JSDate.getMonth now)) /\
    selectedDate w = None /\
    log w = [] /\
    forall cell,
      In cell (days c) ->
      (has_class "has-entry" cell = true <->
       exists ds, data_date cell = Some ds /\ In ds l).
Proof.
  intros Hp.
  set (o := mkOptions l true false true).
  set (w0 := mkWidget (Some (subtree el)) (Some o) (Some now) None []).
  assert (Hcon : constructor (fun _ => None) now (Element (Some (subtree el)))
                             (mkUserOptions (Some (Some l)) true false None) =
                 Ok (set_container
                       (attach (grid o (JSDate.getFullYear now)
                                     (JSDate.getMonth now) now)) w0)).
  { unfold constructor. cbn [resolve given_entryDates given_onDateSelect
                             given_onMonthChange given_highlightToday].
    apply (init_live now w0 (subtree el) o now); reflexivity. }
  eexists _, _. split.
  { unfold initCalendarFromData. rewrite Hp, Hcon. reflexivity. }
  split; [exact (reach_new _ _ _ _ _ Hcon) |].
  split; [reflexivity |]. split; [reflexivity |]. split; [reflexivity |].
  split; [reflexivity |]. split; [reflexivity |].
  intros cell Hin.
  destruct (attach_grid_In _ _ _ _ _ Hin) as [-> | (day & _ & ->)].
  - split; [discriminate | intros (ds & Hd & _); discriminate].
  - change (has_class "has-entry" (listening ?x)) with (has_class "has-entry" x).
    rewrite cell_of_has_entry, includes_In. subst o. cbn [entryDates].
    split.
    + intros H. eexists. split; [reflexivity | exact H].
    + intros (ds & Hd & H). unfold listening, cell_of in Hd. cbn [data_date] in Hd.
      injection Hd as <-. exact H.
Qed.

(** [initCalendarFromData] throws a TypeError on anything that is not an
    element (a null handle included: unlike the constructor it does not
    log and return), and a SyntaxError when the [data-entry-dates]
    attribute does not parse.  An absent or empty attribute is parsed as
    ["[]"].  In every other case it returns a live widget, never an inert
    one: its subtree is rendered for the month of the clock, nothing has
    been logged or called, [onDateSelect] is configured and [onMonthChange]
    is not, and a cell is marked as having an entry exactly when its
    identifier is in the parsed array. *)
Theorem init_from_data_outcomes
    (JSON_parse : string -> option (list string)) (now : JSDate.t) :
  (forall s, initCalendarFromData JSON_parse now (ArgSelector s) = Throws JSTypeError) /\
  initCalendarFromData JSON_parse now (ArgElement None) = Throws JSTypeError /\
  forall el,
    (data_entry_dates el = None \/ data_entry_dates el = Some ""%string ->
     or_else (data_entry_dates el) "[]" = "[]"%string) /\
    (JSON_parse (or_else (data_entry_dates el) "[]") = None ->
     initCalendarFromData JSON_parse now (ArgElement (Some el)) =
       Throws JSSyntaxError) /\
    (forall l,
        JSON_parse (or_else (data_entry_dates el) "[]") = Some l ->
        exists w c,
          initCalendarFromData JSON_parse now (ArgElement (Some el)) = Returns w /\
          reachable w /\
          container w = Some c /\
          options w = Some (mkOptions l true false true) /\
          getCurrentMonth w =
            Ok (VYearMonth (JSDate.getFullYear now) (JSDate.getMonth now)) /\
          selectedDate w = None /\
          log w = [] /\
          forall cell,
            In cell (days c) ->
            (has_class "has-entry" cell = true <->
             exists ds, data_date cell = Some ds /\ In ds l)).
Proof.
  split; [reflexivity |]. split; [reflexivity |]. intros el. split.
  { intros [-> | ->]; reflexivity. }
  split.
  { intros Hp. unfold initCalendarFromData. rewrite Hp. reflexivity. }
  intros l Hp. apply init_from_element. exact Hp.
Qed.

(** A parser that knows the empty array only, and an element with a filter
    URL and no entry dates, to evaluate the statements on. *)
Definition parse_empty_array (s : string) : option (list string) :=
  if String.eqb s "[]" then Some [] else None.

Definition filter_element : DataElement :=
  mkDataElement blank_container None (Some "/journal/"%string).

Lemma init_from_data_outcomes_witness :
  exists w c,
    initCalendarFromData parse_empty_array (JSDate.make 2024 0 31)
                         (ArgElement (Some filter_element)) = Returns w /\
    reachable w /\
    container w = Some c /\
    options w = Some (mkOptions [] true false true) /\
    getCurrentMonth w = Ok (VYearMonth 2024 0) /\
    selectedDate w = None /\
    log w = [] /\
    forall cell,
      In cell (days c) ->
      (has_class "has-entry" cell = true <->
       exists ds, data_date cell = Some ds /\ In ds []).
Proof.
  apply (proj2 (proj2 (proj2 (proj2 (init_from_data_outcomes
                                       parse_empty_array (JSDate.make 2024 0 31)))
                             filter_element)) []).
  reflexivity.
Defined.

(** *** Day clicks on a calendar made from data attributes *)

(** On a calendar made by [initCalendarFromData], at any later time, a
    click on a cell that carries an identifier always selects it: it sets
    [selectedDate] to the identifier and calls the installed callback once
    with it, without re-rendering.  The callback assigns
    [<filterUrl>?date=<identifier>] to [window.location.href] when the
    [data-filter-url] attribute is present and not empty, and assigns
    nothing otherwise.  Nothing but these callback calls is ever sent out:
    no month-change notification and no console diagnostic. *)
Theorem init_from_data_day_click
    (JSON_parse : string -> option (list string)) (now : JSDate.t)
    (el : DataElement) (w0 w : Widget) (c : Container) (i : nat)
    (cell : DayCell) (ds : string) :
  initCalendarFromData JSON_parse now (ArgElement (Some el)) = Returns w0 ->
  later w0 w ->
  container w = Some c ->
  nth_error (days c) i = Some cell ->
  data_date cell = Some ds ->
  Forall (fun e => exists d, e = DateSelect d) (log w) /\
  exists w',
    click_day i w = Ok w' /\
    selectedDate w' = Some ds /\
    log w' = (log w ++ [DateSelect ds])%list /\
    container w' = Some c /\
    assignments (data_filter_url el) (log w') =
      (assignments (data_filter_url el) (log w) ++
       match data_filter_url el with
       | Some u => if JSString.truthy u then [u ++ "?date=" ++ ds]%string else []
       | None => []
       end)%list.
Proof.
  intros Hinit Hlater Hc Hnth Hds.
  destruct (JSON_parse (or_else (data_entry_dates el) "[]")) as [l |] eqn:Hp;
    [| unfold initCalendarFromData in Hinit; rewrite Hp in Hinit; discriminate].
  destruct (init_from_element JSON_parse now el l Hp)
    as (w1 & c1 & E & R1 & Hc1 & Ho1 & _ & _ & Hl1 & _).
  rewrite E in Hinit. injection Hinit as <-.
  pose proof (Behaviour.reachable_rendered w1 c1 R1 Hc1) as Rw1.
  destruct (FromData.later_effect w1 w _ Rw1 Ho1 Hlater)
    as (Rw & (o & Ho & Hd & Hm) & evs & Hl & Hall).
  cbn [onDateSelect onMonthChange] in Hd, Hm.
  rewrite Hl1 in Hl. cbn [app] in Hl.
  split.
  { rewrite Hl. apply Forall_impl with (2 := Hall).
    intros e [(v & _ & F) | (d & -> & _)]; [discriminate F |].
    eexists. reflexivity. }
  destruct Rw as (o' & cd & today & Ho' & Hcd & Hc').
  assert (o' = o) by congruence. subst o'.
  assert (Ec : c = attach (grid o (JSDate.getFullYear cd) (JSDate.getMonth cd) today))
    by congruence.
  subst c.
  destruct (Behaviour.click_day_rendered i w o cd today cell Ho Hcd Hc' Hnth)
    as [(_ & Hnone' & _) | (_ & _ & day & _ & _ & Hid & _ & Eclick)];
    [congruence |].
  assert (Eds : dateStr (JSDate.getFullYear cd) (JSDate.getMonth cd) day = ds)
    by congruence.
  rewrite Eds in Eclick. unfold Behaviour.selected in Eclick. rewrite Hd in Eclick.
  eexists. split; [exact Eclick |].
  split; [reflexivity |]. split; [reflexivity |]. split; [exact Hc' |].
  cbn [log emit set_selectedDate]. unfold assignments.
  rewrite flat_map_app. f_equal. cbn [flat_map]. rewrite app_nil_r.
  unfold filter_redirect. destruct (data_filter_url el) as [u |]; [| reflexivity].
  destruct (JSString.truthy u); reflexivity.
Qed.

Lemma init_from_data_day_click_witness :
  Forall (fun e => exists d, e = DateSelect d)
         (log (january_2024 (mkOptions [] true false true))) /\
  exists w',
    click_day 15 (january_2024 (mkOptions [] true false true)) = Ok w' /\
    selectedDate w' = Some "2024-01-15"%string /\
    log w' = (log (january_2024 (mkOptions [] true false true)) ++
              [DateSelect "2024-01-15"])%list /\
    container w' =
      Some (attach (grid (mkOptions [] true false true) 2024 0
                         (JSDate.make 2024 0 31))) /\
    assignments (Some "/journal/"%string) (log w') =
      (assignments (Some "/journal/"%string)
                   (log (january_2024 (mkOptions [] true false true))) ++
       ["/journal/?date=2024-01-15"%string])%list.
Proof.
  apply (init_from_data_day_click
           parse_empty_array (JSDate.make 2024 0 31) filter_element
           (january_2024 (mkOptions [] true false true))
           (january_2024 (mkOptions [] true false true))
           (attach (grid (mkOptions [] true false true) 2024 0
                         (JSDate.make 2024 0 31)))
           15
           (listening (cell_of (mkOptions [] true false true) 2024 0
                               (JSDate.make 2024 0 31) 15))
           "2024-01-15").
  - vm_compute. reflexivity.
  - apply later_now.
  - reflexivity.
  - reflexivity.
  - reflexivity.
Defined.

(* ====================================================================== *)
(** ** Base utilities: truncateText *)

Module Text.
Local Open Scope string_scope.

(** [s.slice(start, end)] (ECMA-262 String.prototype.slice) for integer
    arguments: a negative index counts from the end of the string, and
    both are clamped to the string. *)
Definition slice (s : string) (start end_ : Z) : string :=
  let len := Z.of_nat (String.length s) in
  let from := if (start <? 0)%Z then Z.max (len + start) 0 else Z.min start len in
  let to := if (end_ <? 0)%Z then Z.max (len + end_) 0 else Z.min end_ len in
  if (from >=? to)%Z then ""
  else substring (Z.to_nat from) (Z.to_nat (to - from)) s.

(** [truncateText(text, maxLength = 50)]; [None] is an argument left out. *)
Definition truncateText (text : string) (maxLength : option Z) : string :=
  let maxLength := match maxLength with Some m => m | None => 50 end in
  if (Z.of_nat (String.length text) <=? maxLength)%Z then text
  else slice text 0 (maxLength - 3) ++ "...".

End Text.

Module TextFacts.
Import Text.
Local Open Scope string_scope.

Lemma length_append s t :
  String.length (s ++ t) = (String.length s + String.length t)%nat.
Proof. induction s as [| c s IH]; [reflexivity |]. cbn. rewrite IH. reflexivity. Qed.

Lemma append_assoc s t u : (s ++ t) ++ u = s ++ (t ++ u).
Proof. induction s as [| c s IH]; [reflexivity |]. cbn. rewrite IH. reflexivity. Qed.

Lemma append_nil_r s : s ++ "" = s.
Proof. induction s as [| c s IH]; [reflexivity |]. cbn. rewrite IH. reflexivity. Qed.

Lemma length_prefix n s :
  (n <= String.length s)%nat -> String.length (substring 0 n s) = n.
Proof.
  revert s. induction n as [| n IH]; intros s Hn.
  - destruct s; reflexivity.
  - destruct s as [| c s]; [cbn in Hn; lia |].
    cbn [substring String.length]. rewrite IH by (cbn in Hn; lia). reflexivity.
Qed.

Lemma prefix_all s : substring 0 (String.length s) s = s.
Proof. induction s as [| c s IH]; [reflexivity |]. cbn. rewrite IH. reflexivity. Qed.

(** [slice(0, e)]: the first [e] characters, or all but the last [-e]. *)
Lemma slice_0 s e :
  slice s 0 e =
  substring 0 (Z.to_nat (if (e <? 0)%Z
                         then Z.max (Z.of_nat (String.length s) + e) 0
                         else Z.min e (Z.of_nat (String.length s)))) s.
Proof.
  unfold slice. cbv zeta. change (0 <? 0)%Z with false. cbv iota.
  set (len := Z.of_nat (String.length s)).
  set (to := if (e <? 0)%Z then Z.max (len + e) 0 else Z.min e len).
  assert (Hto : (0 <= to)%Z) by (subst to; destruct (e <? 0)%Z eqn:E; lia).
  replace (Z.min 0 len) with 0%Z by lia.
  destruct (Z.geb_spec 0 to) as [H | H].
  - replace to with 0%Z by lia. destruct s; reflexivity.
  - rewrite Z.sub_0_r. reflexivity.
Qed.

Lemma length_slice_0 s e :
  Z.of_nat (String.length (slice s 0 e)) =
  if (e <? 0)%Z then Z.max (Z.of_nat (String.length s) + e) 0
  else Z.min e (Z.of_nat (String.length s)).
Proof.
  rewrite slice_0. rewrite length_prefix; destruct (e <? 0)%Z eqn:E; lia.
Qed.

End TextFacts.

Import Text.

(** *** truncateText *)

(** With a limit of at least 3, [truncateText] returns a text of at most
    [maxLength] characters: the text itself when it fits, and otherwise
    its first [maxLength - 3] characters followed by three dots, which is
    exactly [maxLength] characters long.  Truncating twice is truncating
    once.  A limit left out is 50. *)
Theorem truncateText_fits (text : string) (m : Z) :
  3 <= m ->
  Z.of_nat (String.length (truncateText text (Some m))) <= m /\
  (Z.of_nat (String.length text) <= m -> truncateText text (Some m) = text) /\
  (m < Z.of_nat (String.length text) ->
   truncateText text (Some m) =
     (substring 0 (Z.to_nat (m - 3)) text ++ "...")%string /\
   Z.of_nat (String.length (truncateText text (Some m))) = m) /\
  truncateText (truncateText text (Some m)) (Some m) = truncateText text (Some m) /\
  truncateText text None = truncateText text (Some 50).
Proof.
  intros Hm.
  assert (Hshort : Z.of_nat (String.length text) <= m ->
                   truncateText text (Some m) = text).
  { intros H. unfold truncateText. cbv zeta.
    destruct (Z.leb_spec (Z.of_nat (String.length text)) m); [reflexivity | lia]. }
  assert (Hlong : m < Z.of_nat (String.length text) ->
                  truncateText text (Some m) =
                    (substring 0 (Z.to_nat (m - 3)) text ++ "...")%string /\
                  Z.of_nat (String.length (truncateText text (Some m))) = m).
  { intros H. unfold truncateText. cbv zeta.
    destruct (Z.leb_spec (Z.of_nat (String.length text)) m); [lia |].
    split.
    - rewrite TextFacts.slice_0.
      destruct (Z.ltb_spec (m - 3) 0); [lia |].
      replace (Z.min (m - 3) (Z.of_nat (String.length text))) with (m - 3) by lia.
      reflexivity.
    - rewrite TextFacts.length_append, Nat2Z.inj_add, TextFacts.length_slice_0.
      destruct (Z.ltb_spec (m - 3) 0); [lia |].
      change (Z.of_nat (String.length "...")) with 3. lia. }
  assert (Hlen : Z.of_nat (String.length (truncateText text (Some m))) <= m).
  { destruct (Z.le_gt_cases (Z.of_nat (String.length text)) m) as [H | H].
    - rewrite Hshort by exact H. exact H.
    - rewrite (proj2 (Hlong H)). lia. }
  split; [exact Hlen |]. split; [exact Hshort |]. split; [exact Hlong |].
  split; [| reflexivity].
  unfold truncateText at 1. cbv zeta.
  destruct (Z.leb_spec (Z.of_nat (String.length (truncateText text (Some m)))) m);
    [reflexivity | lia].
Qed.

Lemma truncateText_fits_witness :
  Z.of_nat (String.length (truncateText "A long day at the office" (Some 10))) <= 10 /\
  (Z.of_nat (String.length "A long day at the office") <= 10 ->
   truncateText "A long day at the office" (Some 10) = "A long day at the office"%string) /\
  (10 < Z.of_nat (String.length "A long day at the office") ->
   truncateText "A long day at the office" (Some 10) =
     (substring 0 (Z.to_nat (10 - 3)) "A long day at the office" ++ "...")%string /\
   Z.of_nat (String.length (truncateText "A long day at the office" (Some 10))) = 10) /\
  truncateText (truncateText "A long day at the office" (Some 10)) (Some 10) =
    truncateText "A long day at the office" (Some 10) /\
  truncateText "A long day at the office" None =
    truncateText "A long day at the office" (Some 50).
Proof. apply (truncateText_fits "A long day at the office" 10). lia. Defined.

(** With a limit below 3 the function does not truncate to the limit: for
    a text longer than the limit, [slice(0, maxLength - 3)] has a negative
    end, which drops the last [3 - maxLength] characters, and the three
    dots are added to what is left.  The result is always longer than the
    limit; with a limit of 1 or 2 and a text of at least 3 characters it is
    longer than the text itself. *)
Theorem truncateText_small_limit (text : string) (m : Z) :
  m < 3 -> m < Z.of_nat (String.length text) ->
  let len := Z.of_nat (String.length text) in
  truncateText text (Some m) =
    (substring 0 (Z.to_nat (len - (3 - m))) text ++ "...")%string /\
  Z.of_nat (String.length (truncateText text (Some m))) = Z.max (len - (3 - m)) 0 + 3 /\
  m < Z.of_nat (String.length (truncateText text (Some m))) /\
  (1 <= m -> 3 <= len ->
   len < Z.of_nat (String.length (truncateText text (Some m)))).
Proof.
  intros Hm Hlen len.
  assert (E : truncateText text (Some m) = (slice text 0 (m - 3) ++ "...")%string).
  { unfold truncateText. cbv zeta.
    destruct (Z.leb_spec (Z.of_nat (String.length text)) m); [lia | reflexivity]. }
  assert (L : Z.of_nat (String.length (truncateText text (Some m))) =
              Z.max (len - (3 - m)) 0 + 3).
  { rewrite E, TextFacts.length_append, Nat2Z.inj_add, TextFacts.length_slice_0.
    destruct (Z.ltb_spec (m - 3) 0); [| lia].
    change (Z.of_nat (String.length "...")) with 3. fold len. lia. }
  split.
  { rewrite E, TextFacts.slice_0. destruct (Z.ltb_spec (m - 3) 0); [| lia].
    fold len. f_equal. f_equal. lia. }
  split; [exact L |]. rewrite L. split; lia.
Qed.

Lemma truncateText_small_limit_witness :
  truncateText "abcdef" (Some 2) = "abcde..."%string /\
  Z.of_nat (String.length (truncateText "abcdef" (Some 2))) = 8 /\
  2 < Z.of_nat (String.length (truncateText "abcdef" (Some 2))) /\
  (1 <= 2 -> 3 <= 6 -> 6 < Z.of_nat (String.length (truncateText "abcdef" (Some 2)))).
Proof. apply (truncateText_small_limit "abcdef" 2); cbn; lia. Defined.

(* ====================================================================== *)
(** ** Base utilities: formatNumber *)

Module Commas.
Import JSString.
Local Open Scope string_scope.

(** [\d] *)
Definition is_digit (c : ascii) : bool := DayId.is_digit c.

(** [\w]: a letter, a digit or an underscore. *)
Definition is_word (c : ascii) : bool :=
  let n := nat_of_ascii c in
  ((48 <=? n) && (n <=? 57) || (65 <=? n) && (n <=? 90) ||
   (97 <=? n) && (n <=? 122) || (n =? 95))%nat.

(** The number of digits a string starts with. *)
Fixpoint digit_run (s : string) : nat :=
  match s with
  | String c rest => if is_digit c then S (digit_run rest) else 0
  | EmptyString => 0
  end.

(** The lookahead [(?=(\d{3})+(?!\d))] at the start of [rest]: one or more
    groups of three digits follow and then no digit, that is, the digits
    that follow are a positive multiple of three in number. *)
Definition lookahead (rest : string) : bool :=
  let n := digit_run rest in (0 <? n)%nat && (Nat.modulo n 3 =? 0)%nat.

Definition word_before (prev : option ascii) : bool :=
  match prev with Some c => is_word c | None => false end.

Definition word_after (rest : string) : bool :=
  match rest with String c _ => is_word c | EmptyString => false end.

(** [\B] between [prev] and [rest]: no word boundary, the characters on
    both sides are word characters or neither is (the ends of the string
    count as non-word). *)
Definition non_boundary (prev : option ascii) (rest : string) : bool :=
  Bool.eqb (word_before prev) (word_after rest).

(** [s.replace(/\B(?=(\d{3})+(?!\d))/g, ',')].  The pattern matches the
    empty string, so it is tried once at every position of [s], from left
    to right, and a comma is inserted wherever it matches; [prev] is the
    character before the current position. *)
Fixpoint replace_from (prev : option ascii) (s : string) : string :=
  let here := if non_boundary prev s && lookahead s then "," else "" in
  match s with
  | EmptyString => here
  | String c rest => here ++ String c (replace_from (Some c) rest)
  end.

Definition add_commas (s : string) : string := replace_from None s.

(** [formatNumber(num)] for an integer [num] that [String] writes out in
    full (a safe integer). *)
Definition formatNumber (num : Z) : string := add_commas (of_number num).

(** Removing the commas from a string. *)
Fixpoint strip_commas (s : string) : string :=
  match s with
  | String c rest =>
      if Ascii.eqb c ","%char then strip_commas rest
      else String c (strip_commas rest)
  | EmptyString => EmptyString
  end.

(** The three digits of a number below 1000. *)
Definition three_digits (r : Z) : string :=
  String (digit_char (r / 100))
    (String (digit_char (r / 10 mod 10)) (String (digit_char (r mod 10)) "")).

Definition MAX_SAFE_INTEGER : Z := 9007199254740991.

End Commas.

Module CommasFacts.
Import JSString Commas.
Local Open Scope string_scope.

(** *** The decimal digits of a number *)

Lemma digits_acc fuel : forall n acc,
  digits fuel n acc = digits fuel n "" ++ acc.
Proof.
  induction fuel as [| f IH]; intros n acc; [reflexivity |].
  cbn [digits]. destruct (n / 10 =? 0)%Z; [reflexivity |].
  rewrite (IH _ (String _ acc)), (IH _ (String _ "")).
  rewrite TextFacts.append_assoc. reflexivity.
Qed.

(** Any fuel that covers the digits of [n] gives the same string. *)
Lemma digits_fuel f1 : forall f2 n acc,
  0 <= n < 10 ^ Z.of_nat (S f1) -> n < 10 ^ Z.of_nat (S f2) ->
  digits (S f1) n acc = digits (S f2) n acc.
Proof.
  induction f1 as [| f1 IH]; intros f2 n acc H1 H2.
  - cbn [digits]. change (10 ^ Z.of_nat 1) with 10 in H1.
    destruct (Z.eqb_spec (n / 10) 0) as [_ | E]; [reflexivity | zlia].
  - cbn [digits]. destruct (Z.eqb_spec (n / 10) 0) as [_ | E]; [reflexivity |].
    destruct f2 as [| f2].
    + change (10 ^ Z.of_nat 1) with 10 in H2. zlia.
    + fold (digits (S f1) (n / 10) (String (digit_char (n mod 10)) acc)).
      fold (digits (S f2) (n / 10) (String (digit_char (n mod 10)) acc)).
      apply IH.
      * rewrite (Nat2Z.inj_succ (S f1)), Z.pow_succ_r in H1 by lia. zlia.
      * rewrite (Nat2Z.inj_succ (S f2)), Z.pow_succ_r in H2 by lia. zlia.
Qed.

Lemma digits_step f n acc :
  n / 10 <> 0 ->
  digits (S f) n acc = digits f (n / 10) (String (digit_char (n mod 10)) acc).
Proof.
  intros H. cbn [digits]. destruct (Z.eqb_spec (n / 10) 0); [contradiction | reflexivity].
Qed.

Lemma of_number_small d : 0 <= d <= 9 -> of_number d = String (digit_char d) "".
Proof.
  intros Hd. unfold of_number. destruct (Z.ltb_spec d 0); [lia |].
  cbn [digits]. replace (d / 10) with 0 by zlia. replace (d mod 10) with d by zlia.
  reflexivity.
Qed.

(** The digits of [10 * q + d] are those of [q] followed by [d]. *)
Lemma of_number_snoc q d :
  1 <= q -> 0 <= d <= 9 ->
  of_number (10 * q + d) = of_number q ++ String (digit_char d) "".
Proof.
  intros Hq Hd. unfold of_number.
  destruct (Z.ltb_spec (10 * q + d) 0); [lia |].
  destruct (Z.ltb_spec q 0); [lia |].
  set (n := 10 * q + d).
  pose proof (IdFacts.fuel_suffices n ltac:(lia)) as Fn.
  pose proof (IdFacts.fuel_suffices q ltac:(lia)) as Fq.
  assert (Hlog : 3 <= Z.log2 n).
  { change 3 with (Z.log2 10). apply Z.log2_le_mono. lia. }
  destruct (Z.to_nat (Z.log2 n)) as [| f] eqn:E; [lia |].
  rewrite (digits_step (S f) n "") by (subst n; zlia).
  replace (n / 10) with q by (subst n; zlia).
  replace (n mod 10) with d by (subst n; zlia).
  rewrite (digits_acc (S f) q (String (digit_char d) "")). f_equal.
  apply digits_fuel.
  - rewrite (Nat2Z.inj_succ (S f)), Z.pow_succ_r in Fn by lia. subst n. lia.
  - exact Fq.
Qed.

(** The digits of [1000 * q + r] are those of [q] followed by the three
    digits of [r]. *)
Lemma of_number_thousands q r :
  1 <= q -> 0 <= r < 1000 ->
  of_number (1000 * q + r) = of_number q ++ three_digits r.
Proof.
  intros Hq Hr. unfold three_digits.
  replace (1000 * q + r) with (10 * (10 * (10 * q + r / 100) + r / 10 mod 10) + r mod 10)
    by zlia.
  rewrite !of_number_snoc by zlia.
  rewrite !TextFacts.append_assoc. reflexivity.
Qed.

(** *** Strings of digits *)

Fixpoint all_digits (s : string) : bool :=
  match s with
  | String c rest => is_digit c && all_digits rest
  | EmptyString => true
  end.

(** The character before the end of [s], [prev] standing before [s]. *)
Fixpoint last_char (prev : option ascii) (s : string) : option ascii :=
  match s with
  | String c rest => last_char (Some c) rest
  | EmptyString => prev
  end.

Lemma is_digit_word c : is_digit c = true -> is_word c = true.
Proof.
  unfold is_digit, DayId.is_digit, is_word. cbv zeta. intros ->. reflexivity.
Qed.

Lemma all_digits_app s t : all_digits (s ++ t) = all_digits s && all_digits t.
Proof.
  induction s as [| c s IH]; [reflexivity |].
  cbn [append all_digits]. rewrite IH, andb_assoc. reflexivity.
Qed.

Lemma digit_run_all s t :
  all_digits s = true -> digit_run (s ++ t) = (String.length s + digit_run t)%nat.
Proof.
  induction s as [| c s IH]; [reflexivity |].
  cbn [append all_digits digit_run String.length]. intros H.
  apply andb_true_iff in H. destruct H as [Hc Hs]. rewrite Hc, IH by exact Hs.
  reflexivity.
Qed.

Lemma digit_run_stop s c t :
  is_digit c = false -> digit_run (s ++ String c t) = digit_run s.
Proof.
  intros Hc. induction s as [| a s IH].
  - cbn [append digit_run]. rewrite Hc. reflexivity.
  - cbn [append digit_run]. rewrite IH. reflexivity.
Qed.

Lemma last_char_word prev s :
  all_digits s = true -> s <> "" -> word_before (last_char prev s) = true.
Proof.
  revert prev. induction s as [| c s IH]; intros prev H Hne; [congruence |].
  cbn [all_digits] in H. apply andb_true_iff in H. destruct H as [Hc Hs].
  cbn [last_char]. destruct s as [| c' s'].
  - cbn [last_char word_before]. apply is_digit_word, Hc.
  - apply IH; [exact Hs | discriminate].
Qed.

(** *** The replacement *)

(** The character before a position matters only through [\w]. *)
Lemma replace_from_prev p1 p2 s :
  word_before p1 = word_before p2 -> replace_from p1 s = replace_from p2 s.
Proof.
  intros H. destruct s as [| c s]; cbn [replace_from]; unfold non_boundary;
    rewrite H; reflexivity.
Qed.

Lemma replace_from_empty prev : replace_from prev "" = "".
Proof.
  cbn [replace_from]. unfold lookahead. cbn [digit_run Nat.ltb Nat.leb andb].
  rewrite andb_false_r. reflexivity.
Qed.

Lemma replace_from_cons prev c rest :
  replace_from prev (String c rest) =
  (if non_boundary prev (String c rest) && lookahead (String c rest)
   then "," else "") ++ String c (replace_from (Some c) rest).
Proof. reflexivity. Qed.

(** Fewer than three digits: no comma. *)
Lemma replace_from_short s : forall prev,
  all_digits s = true -> (String.length s < 3)%nat -> replace_from prev s = s.
Proof.
  induction s as [| c s IH]; intros prev H Hlen; [apply replace_from_empty |].
  rewrite replace_from_cons.
  cbn [all_digits] in H. apply andb_true_iff in H. destruct H as [Hc Hs].
  cbn [String.length] in Hlen.
  rewrite IH by (try exact Hs; lia).
  assert (L : lookahead (String c s) = false).
  { unfold lookahead. cbn [digit_run]. rewrite Hc.
    rewrite <- (TextFacts.append_nil_r s), digit_run_all by exact Hs.
    cbn [digit_run]. rewrite Nat.add_0_r.
    destruct (String.length s) as [| [| n]]; [reflexivity | reflexivity | lia]. }
  rewrite L, andb_false_r. reflexivity.
Qed.

(** Three digits: a comma before them when a word character precedes. *)
Lemma replace_from_three prev a b c :
  is_digit a = true -> is_digit b = true -> is_digit c = true ->
  replace_from prev (String a (String b (String c ""))) =
  (if word_before prev then "," else "") ++ String a (String b (String c "")).
Proof.
  intros Ha Hb Hc. rewrite replace_from_cons.
  rewrite (replace_from_short (String b (String c "")))
    by (cbn [all_digits String.length]; rewrite ?Hb, ?Hc; auto).
  unfold lookahead, non_boundary. cbn [digit_run word_after].
  rewrite Ha, Hb, Hc, (is_digit_word a Ha). cbn [Nat.ltb Nat.leb Nat.modulo].
  destruct (word_before prev); reflexivity.
Qed.

Lemma lookahead_three_more s a b c rest :
  all_digits s = true -> s <> "" ->
  is_digit a = true -> is_digit b = true -> is_digit c = true ->
  digit_run rest = 0%nat ->
  lookahead (s ++ String a (String b (String c rest))) = lookahead s.
Proof.
  intros Hs Hne Ha Hb Hc Hr. unfold lookahead.
  rewrite digit_run_all by exact Hs. cbn [digit_run]. rewrite Ha, Hb, Hc, Hr.
  rewrite <- (TextFacts.append_nil_r s) at 3 4. rewrite digit_run_all by exact Hs.
  cbn [digit_run]. rewrite Nat.add_0_r.
  destruct s as [| x s]; [congruence |]. cbn [String.length].
  replace (S (String.length s) + 3)%nat with (S (String.length s) + 1 * 3)%nat by lia.
  rewrite Nat.Div0.mod_add. reflexivity.
Qed.

(** Three more digits at the end of a run of digits: the commas within the
    run stay where they are and one more comes before the three digits. *)
Lemma replace_from_append_three s : forall prev a b c,
  all_digits s = true ->
  is_digit a = true -> is_digit b = true -> is_digit c = true ->
  replace_from prev (s ++ String a (String b (String c ""))) =
  replace_from prev s ++
  (if word_before (last_char prev s) then "," else "") ++
  String a (String b (String c "")).
Proof.
  induction s as [| x s IH]; intros prev a b c Hs Ha Hb Hc.
  - cbn [append last_char]. rewrite replace_from_empty.
    apply replace_from_three; assumption.
  - cbn [all_digits] in Hs. pose proof Hs as Hxs.
    apply andb_true_iff in Hs. destruct Hs as [Hx Hs].
    cbn [append last_char]. rewrite !replace_from_cons.
    rewrite (IH (Some x) a b c Hs Ha Hb Hc).
    change (String x (s ++ String a (String b (String c ""))))
      with (String x s ++ String a (String b (String c ""))).
    rewrite (lookahead_three_more (String x s) a b c "" Hxs ltac:(discriminate)
               Ha Hb Hc eq_refl).
    change (non_boundary prev (String x s ++ String a (String b (String c ""))))
      with (non_boundary prev (String x s)).
    destruct (non_boundary prev (String x s) && lookahead (String x s));
      cbn [append]; reflexivity.
Qed.

(** *** The digits of a number are digits *)

Lemma three_digits_digits r :
  0 <= r < 1000 ->
  is_digit (digit_char (r / 100)) = true /\
  is_digit (digit_char (r / 10 mod 10)) = true /\
  is_digit (digit_char (r mod 10)) = true.
Proof.
  intros Hr. repeat split; apply IdFacts.is_digit_digit_char; zlia.
Qed.

Lemma of_number_all_digits n : 0 <= n -> all_digits (of_number n) = true.
Proof.
  intros Hn.
  apply (Z_lt_induction (fun n => 0 <= n -> all_digits (of_number n) = true));
    [| exact Hn | exact Hn].
  clear n Hn. intros n IH Hn.
  destruct (Z_lt_le_dec n 10) as [Hlt | Hge].
  - rewrite of_number_small by lia. cbn [all_digits].
    unfold is_digit. rewrite IdFacts.is_digit_digit_char by lia. reflexivity.
  - replace n with (10 * (n / 10) + n mod 10) by zlia.
    rewrite of_number_snoc by zlia. rewrite all_digits_app, IH by zlia.
    cbn [all_digits]. unfold is_digit.
    rewrite IdFacts.is_digit_digit_char by zlia. reflexivity.
Qed.

Lemma of_number_length n :
  0 <= n < 1000 -> (String.length (of_number n) <= 3)%nat.
Proof.
  intros Hn. destruct (Z_lt_le_dec n 10) as [H1 | H1].
  - rewrite of_number_small by lia. cbn. lia.
  - replace n with (10 * (n / 10) + n mod 10) by zlia.
    rewrite of_number_snoc by zlia. rewrite TextFacts.length_append.
    destruct (Z_lt_le_dec (n / 10) 10) as [H2 | H2].
    + rewrite (of_number_small (n / 10)) by zlia. cbn. lia.
    + replace (n / 10) with (10 * (n / 10 / 10) + n / 10 mod 10) by zlia.
      rewrite of_number_snoc by zlia. rewrite TextFacts.length_append.
      rewrite (of_number_small (n / 10 / 10)) by zlia. cbn. lia.
Qed.

(** Up to three digits at the start of the text: no comma. *)
Lemma add_commas_short s :
  all_digits s = true -> (String.length s <= 3)%nat -> add_commas s = s.
Proof.
  intros Hs Hlen. unfold add_commas. destruct s as [| c s]; [apply replace_from_empty |].
  rewrite replace_from_cons.
  cbn [all_digits] in Hs. apply andb_true_iff in Hs. destruct Hs as [Hc Hs].
  cbn [String.length] in Hlen. rewrite replace_from_short by (try exact Hs; lia).
  unfold non_boundary. cbn [word_before word_after].
  rewrite (is_digit_word c Hc). reflexivity.
Qed.

Lemma strip_replace_from s : forall prev,
  strip_commas (replace_from prev s) = strip_commas s.
Proof.
  induction s as [| c s IH]; intros prev.
  - cbn [replace_from]. destruct (_ && _); reflexivity.
  - rewrite replace_from_cons.
    destruct (_ && _); cbn [append strip_commas Ascii.eqb Bool.eqb];
      rewrite IH; reflexivity.
Qed.

Lemma strip_all_digits s : all_digits s = true -> strip_commas s = s.
Proof.
  induction s as [| c s IH]; [reflexivity |].
  cbn [all_digits strip_commas]. intros H.
  apply andb_true_iff in H. destruct H as [Hc Hs]. rewrite IH by exact Hs.
  destruct (Ascii.eqb_spec c ","%char) as [-> | _]; [discriminate Hc | reflexivity].
Qed.

Lemma of_number_negative n :
  n < 0 -> of_number n = String "-"%char (of_number (- n)).
Proof.
  intros Hn. unfold of_number.
  destruct (Z.ltb_spec n 0); [| lia]. destruct (Z.ltb_spec (- n) 0); [lia |].
  reflexivity.
Qed.

End CommasFacts.

Import Commas.

(** *** formatNumber *)

(** For a non-negative safe integer, [formatNumber] writes the digits in
    groups of three counted from the right, with a comma between the
    groups: a number below 1000 is written as it is, and a number from
    1000 on is the formatted number of its thousands, a comma, and the
    three digits of the rest. *)
Theorem formatNumber_groups_of_three (n : Z) :
  0 <= n <= MAX_SAFE_INTEGER ->
  (n < 1000 -> formatNumber n = JSString.of_number n) /\
  (1000 <= n ->
   formatNumber n =
     (formatNumber (n / 1000) ++ "," ++ three_digits (n mod 1000))%string).
Proof.
  intros [Hn _]. split.
  - intros Hlt. unfold formatNumber.
    apply CommasFacts.add_commas_short;
      [apply CommasFacts.of_number_all_digits; lia
      | apply CommasFacts.of_number_length; lia].
  - intros Hge. unfold formatNumber, add_commas.
    replace n with (1000 * (n / 1000) + n mod 1000) at 1 by zlia.
    rewrite CommasFacts.of_number_thousands by zlia.
    destruct (CommasFacts.three_digits_digits (n mod 1000) ltac:(zlia))
      as (Ha & Hb & Hc).
    unfold three_digits.
    rewrite CommasFacts.replace_from_append_three
      by (try assumption; apply CommasFacts.of_number_all_digits; zlia).
    rewrite CommasFacts.last_char_word;
      [reflexivity
      | apply CommasFacts.of_number_all_digits; zlia
      | apply IdFacts.of_number_nonempty].
Qed.

Lemma formatNumber_groups_of_three_witness :
  (1234567 < 1000 -> formatNumber 1234567 = JSString.of_number 1234567) /\
  (1000 <= 1234567 ->
   formatNumber 1234567 = (formatNumber 1234 ++ "," ++ "567")%string).
Proof.
  apply (formatNumber_groups_of_three 1234567). unfold MAX_SAFE_INTEGER. lia.
Defined.

(** [formatNumber] only inserts commas: without them the text is
    [String(num)] again, and reading that back gives the number.  A
    negative number is written as a minus sign and the formatted number of
    its absolute value. *)
Theorem formatNumber_keeps_the_number (n : Z) :
  - MAX_SAFE_INTEGER <= n <= MAX_SAFE_INTEGER ->
  strip_commas (formatNumber n) = JSString.of_number n /\
  (0 <= n -> IdFacts.decode (strip_commas (formatNumber n)) = n) /\
  (n < 0 -> formatNumber n = String "-"%char (formatNumber (- n))).
Proof.
  intros _.
  assert (Hneg : n < 0 -> formatNumber n = String "-"%char (formatNumber (- n))).
  { intros Hn. unfold formatNumber, add_commas.
    rewrite CommasFacts.of_number_negative by exact Hn.
    rewrite CommasFacts.replace_from_cons.
    unfold lookahead at 1. cbn [digit_run].
    change (is_digit "-"%char) with false. cbv iota.
    cbn [Nat.ltb Nat.leb andb]. rewrite andb_false_r. cbn [append].
    f_equal. apply CommasFacts.replace_from_prev. reflexivity. }
  assert (Hstrip : strip_commas (formatNumber n) = JSString.of_number n).
  { unfold formatNumber, add_commas. rewrite CommasFacts.strip_replace_from.
    destruct (Z_lt_le_dec n 0) as [Hn | Hn].
    - rewrite CommasFacts.of_number_negative by exact Hn.
      cbn [strip_commas Ascii.eqb Bool.eqb]. f_equal.
      apply CommasFacts.strip_all_digits, CommasFacts.of_number_all_digits. lia.
    - apply CommasFacts.strip_all_digits, CommasFacts.of_number_all_digits. lia. }
  split; [exact Hstrip |]. split; [| exact Hneg].
  intros Hn. rewrite Hstrip. apply IdFacts.of_number_decode. exact Hn.
Qed.

Lemma formatNumber_keeps_the_number_witness :
  strip_commas (formatNumber (-1234567)) = JSString.of_number (-1234567) /\
  (0 <= -1234567 ->
   IdFacts.decode (strip_commas (formatNumber (-1234567))) = -1234567) /\
  (-1234567 < 0 ->
   formatNumber (-1234567) = String "-"%char (formatNumber (- -1234567))).
Proof.
  apply (formatNumber_keeps_the_number (-1234567)). unfold MAX_SAFE_INTEGER. lia.
Defined.

Module Decimal.
Import CommasFacts.
Local Open Scope string_scope.

Lemma replace_from_point i : forall prev f,
  replace_from prev (i ++ String "."%char f) =
  replace_from prev i ++ String "."%char (replace_from None f).
Proof.
  induction i as [| c i IH]; intros prev f.
  - cbn [append]. rewrite replace_from_empty, replace_from_cons.
    unfold lookahead at 1. cbn [digit_run].
    change (is_digit "."%char) with false. cbv iota.
    cbn [Nat.ltb Nat.leb andb]. rewrite andb_false_r. cbn [append].
    f_equal. apply replace_from_prev. reflexivity.
  - cbn [append]. rewrite !replace_from_cons, IH.
    change (non_boundary prev (String c (i ++ String "."%char f)))
      with (non_boundary prev (String c i)).
    assert (L : lookahead (String c (i ++ String "."%char f)) =
                lookahead (String c i)).
    { unfold lookahead.
      change (String c (i ++ String "."%char f))
        with (String c i ++ String "."%char f).
      rewrite digit_run_stop by reflexivity. reflexivity. }
    rewrite L. destruct (non_boundary prev (String c i) && lookahead (String c i));
      cbn [append]; reflexivity.
Qed.

End Decimal.

(** The replacement groups every run of digits on its own, and a decimal
    point does not end it: in a text with a decimal point the digits
    before and the digits after the point are both grouped, so a fraction
    of more than three digits gets commas too. *)
Theorem add_commas_groups_the_fraction (i f : string) :
  add_commas (i ++ "." ++ f) = (add_commas i ++ "." ++ add_commas f)%string /\
  add_commas "1234.5678" = "1,234.5,678"%string.
Proof.
  split; [apply Decimal.replace_from_point | reflexivity].
Qed.

(* ====================================================================== *)
(** ** Base utilities: debounce *)

(** [debounce(func, wait)] rests on the timers of the host page.  The model
    keeps the timers that belong to one debounced function: a timer is
    pending from [setTimeout] until it fires or is cleared, and timers fire
    in the order of their due times.  The page is taken to be idle between
    its tasks: a timer runs as soon as the clock has reached its due time,
    never while a task runs, and before a task that starts at that very
    time (an order the event loop does not promise: the statements below
    keep tasks away from the due times, or say what they assume). *)
Module Debounce.

Section Debounced.

(** The arguments of one call of the debounced function. *)
Context {A : Type}.

Record Timer := mkTimer {
  timer_id : nat;
  due : Z;
  args : A
}.

(** The clock (in milliseconds), the pending timers, the next timer
    handle, the closure variable [timeout] and the calls of [func] made so
    far, in order. *)
Record State := mkState {
  clock : Z;
  pending : list Timer;
  next_id : nat;
  timeout : option nat;
  calls : list A
}.

(** Right after [debounce(func, wait)]: [timeout] is undefined. *)
Definition initial (t0 : Z) : State := mkState t0 [] 1 None [].

(** [wait = 300] when the argument is left out. *)
Definition wait_of (wait : option Z) : Z :=
  match wait with Some ms => ms | None => 300 end.

(** [clearTimeout(id)]: nothing happens when [id] is undefined or names no
    pending timer. *)
Definition clearTimeout (id : option nat) (st : State) : State :=
  match id with
  | None => st
  | Some i =>
      mkState (clock st)
              (filter (fun tm => negb (Nat.eqb (timer_id tm) i)) (pending st))
              (next_id st) (timeout st) (calls st)
  end.

(** [setTimeout(later, wait)], [later] being the closure over the
    arguments [a]: the new handle, and the state with the timer pending.
    A negative delay counts as 0. *)
Definition setTimeout (a : A) (wait : Z) (st : State) : nat * State :=
  (next_id st,
   mkState (clock st)
           (pending st ++ [mkTimer (next_id st) (clock st + Z.max wait 0) a])
           (S (next_id st)) (timeout st) (calls st)).

(** [executedFunction(...args)], the function [debounce] returns. *)
Definition executedFunction (wait : option Z) (a : A) (st : State) : State :=
  let st1 := clearTimeout (timeout st) st in
  let (id, st2) := setTimeout a (wait_of wait) st1 in
  mkState (clock st2) (pending st2) (next_id st2) (Some id) (calls st2).

(** [later()], run when its timer fires: it clears [timeout] and calls
    [func] with the arguments of the call that set the timer. *)
Definition later (a : A) (st : State) : State :=
  let st1 := clearTimeout (timeout st) st in
  mkState (clock st1) (pending st1) (next_id st1) (timeout st1)
          (calls st1 ++ [a]).

(** The pending timer that fires first: the earliest due time, and the
    oldest timer among equal due times. *)
Fixpoint earliest (l : list Timer) : option Timer :=
  match l with
  | [] => None
  | tm :: rest =>
      match earliest rest with
      | Some tm' => if due tm' <? due tm then Some tm' else Some tm
      | None => Some tm
      end
  end.

(** The event loop up to time [t]: the timers due by then fire in order,
    each one leaving the pending list before its callback runs. *)
Fixpoint run_timers (fuel : nat) (t : Z) (st : State) : State :=
  match fuel with
  | O => st
  | S k =>
      match earliest (pending st) with
      | Some tm =>
          if due tm <=? t then
            run_timers k t
              (later (args tm)
                 (mkState (Z.max (clock st) (due tm))
                          (filter (fun x => negb (Nat.eqb (timer_id x) (timer_id tm)))
                                  (pending st))
                          (next_id st) (timeout st) (calls st)))
          else st
      | None => st
      end
  end.

(** Time passes until the clock reads [t]. *)
Definition advance (t : Z) (st : State) : State :=
  let st1 := run_timers (List.length (pending st)) t st in
  mkState (Z.max (clock st1) t) (pending st1) (next_id st1) (timeout st1)
          (calls st1).

(** A call of the debounced function at time [t], in a task of its own. *)
Definition call_at (wait : option Z) (t : Z) (a : A) (st : State) : State :=
  executedFunction wait a (advance t st).

(** Calls at the given times, one after the other, each in a task of its
    own. *)
Fixpoint calls_at (wait : option Z) (l : list (Z * A)) (st : State) : State :=
  match l with
  | [] => st
  | (t, a) :: rest => calls_at wait rest (call_at wait t a st)
  end.

(** A task of the page that calls the debounced function: starting at time
    [start], it makes the calls [earlier], one after the other, and then
    the call [final].  No timer runs while the task runs. *)
Record Task := mkTask {
  start : Z;
  earlier : list A;
  final : A
}.

Definition task_at (wait : option Z) (tk : Task) (st : State) : State :=
  executedFunction wait (final tk)
    (fold_left (fun s a => executedFunction wait a s) (earlier tk)
               (advance (start tk) st)).

(** Tasks, one after the other. *)
Fixpoint tasks_at (wait : option Z) (l : list Task) (st : State) : State :=
  match l with
  | [] => st
  | tk :: rest => tasks_at wait rest (task_at wait tk st)
  end.

End Debounced.

Arguments Timer A : clear implicits.
Arguments State A : clear implicits.
Arguments Task A : clear implicits.

End Debounce.

Module DebounceFacts.
Import Debounce.

Section Facts.
Context {A : Type}.

(** The one timer a debounced function may have pending. *)
Definition holds (st : State A) (p : option (Timer A)) : Prop :=
  match p with
  | Some tm => pending st = [tm] /\ timeout st = Some (timer_id tm)
  | None => pending st = []
  end.

(** What the pending timer contributes by time [t]. *)
Definition fires_by (p : option (Timer A)) (t : Z) : list A :=
  match p with
  | Some tm => if due tm <=? t then [args tm] else []
  | None => []
  end.

Lemma advance_effect (st : State A) p t :
  holds st p -> clock st <= t ->
  clock (advance t st) = t /\
  calls (advance t st) = (calls st ++ fires_by p t)%list /\
  next_id (advance t st) = next_id st /\
  holds (advance t st)
        (match p with
         | Some tm => if due tm <=? t then None else Some tm
         | None => None
         end).
Proof.
  intros H Hc. unfold advance. destruct p as [tm |]; cbn [holds fires_by] in *.
  - destruct H as [Hp Ht]. rewrite Hp. cbn [List.length run_timers earliest].
    rewrite Hp. cbn [earliest].
    destruct (Z.leb_spec (due tm) t) as [Hd | Hd].
    + cbn [filter]. rewrite Nat.eqb_refl. cbn [negb].
      unfold later, clearTimeout. cbn [timeout pending clock next_id calls].
      rewrite Ht. cbn [filter clock pending next_id timeout calls holds].
      repeat split; try reflexivity; lia.
    + cbn [clock pending next_id timeout calls holds].
      rewrite app_nil_r. repeat split; auto; lia.
  - rewrite H. cbn [List.length run_timers clock pending next_id timeout calls holds].
    rewrite H. cbn [earliest clock pending next_id timeout calls].
    rewrite app_nil_r. repeat split; auto; lia.
Qed.

Lemma executedFunction_effect wait a (st : State A) p :
  holds st p ->
  let tm := mkTimer (next_id st) (clock st + Z.max (wait_of wait) 0) a in
  clock (executedFunction wait a st) = clock st /\
  calls (executedFunction wait a st) = calls st /\
  holds (executedFunction wait a st) (Some tm).
Proof.
  intros H tm. unfold executedFunction, setTimeout, clearTimeout.
  destruct p as [tm0 |]; cbn [holds] in H.
  - destruct H as [Hp Ht]. rewrite Ht, Hp. cbn [filter]. rewrite Nat.eqb_refl.
    cbn [negb clock pending next_id timeout calls holds app timer_id].
    repeat split; reflexivity.
  - destruct (timeout st);
      cbn [filter clock pending next_id timeout calls holds app timer_id];
      rewrite H; cbn [filter app]; repeat split; reflexivity.
Qed.

(** The time of the next call, or the time [T] up to which the page is
    watched. *)
Definition next_time (l : list (Z * A)) (T : Z) : Z :=
  match l with
  | (t, _) :: _ => t
  | [] => T
  end.

(** The calls that are followed by a quiet period of [W] milliseconds. *)
Fixpoint fired (W : Z) (l : list (Z * A)) (T : Z) : list A :=
  match l with
  | [] => []
  | (t, a) :: rest =>
      ((if t + Z.max W 0 <=? next_time rest T then [a] else []) ++ fired W rest T)%list
  end.

(** Times that do not go back: from [prev] through the calls to [T]. *)
Fixpoint in_order (prev : Z) (l : list (Z * A)) (T : Z) : Prop :=
  match l with
  | [] => prev <= T
  | (t, _) :: rest => prev <= t /\ in_order t rest T
  end.

(** A burst: every call comes less than [W] after the one before. *)
Fixpoint burst (W : Z) (prev : Z) (l : list (Z * A)) : Prop :=
  match l with
  | [] => True
  | (t, _) :: rest => prev <= t < prev + W /\ burst W t rest
  end.

Lemma calls_at_effect wait T (l : list (Z * A)) : forall st p,
  holds st p -> in_order (clock st) l T ->
  calls (advance T (calls_at wait l st)) =
  (calls st ++ fires_by p (next_time l T) ++ fired (wait_of wait) l T)%list.
Proof.
  induction l as [| [t a] rest IH]; intros st p H Hord.
  - cbn [calls_at next_time fired in_order] in *. rewrite app_nil_r.
    apply (advance_effect st p T H Hord).
  - cbn [calls_at next_time fired in_order] in *. destruct Hord as [Ht Hord].
    unfold call_at.
    destruct (advance_effect st p t H Ht) as (Hc1 & Hl1 & _ & H1).
    destruct (executedFunction_effect wait a (advance t st) _ H1)
      as (Hc2 & Hl2 & H2).
    rewrite (IH _ _ H2) by (rewrite Hc2, Hc1; exact Hord).
    rewrite Hl2, Hl1, Hc1. cbn [fires_by due args].
    rewrite <- app_assoc. reflexivity.
Qed.

Lemma last_cons (x d : Z * A) l : last (x :: l) d = last l x.
Proof.
  revert x d. induction l as [| y l IH]; intros x d; [reflexivity |].
  change (last (x :: y :: l) d) with (last (y :: l) d).
  rewrite (IH y d), (IH y x). reflexivity.
Qed.

Lemma fired_burst W T (rest : list (Z * A)) : forall t1 a1,
  burst W t1 rest ->
  fired W ((t1, a1) :: rest) T =
  if fst (last rest (t1, a1)) + Z.max W 0 <=? T
  then [snd (last rest (t1, a1))] else [].
Proof.
  induction rest as [| [t2 a2] r IH]; intros t1 a1 Hb.
  - cbn [fired next_time last fst snd]. rewrite app_nil_r. reflexivity.
  - cbn [burst] in Hb. destruct Hb as [Ht Hb].
    rewrite last_cons.
    change (fired W ((t1, a1) :: (t2, a2) :: r) T)
      with ((if t1 + Z.max W 0 <=? t2 then [a1] else []) ++
            fired W ((t2, a2) :: r) T)%list.
    destruct (Z.leb_spec (t1 + Z.max W 0) t2); [lia |].
    cbn [app]. apply IH. exact Hb.
Qed.

Lemma burst_in_order W T (rest : list (Z * A)) : forall t1 a1,
  burst W t1 rest -> fst (last rest (t1, a1)) <= T -> in_order t1 rest T.
Proof.
  induction rest as [| [t2 a2] r IH]; intros t1 a1 Hb HT.
  - exact HT.
  - cbn [burst in_order] in *. destruct Hb as [Ht Hb].
    split; [lia |]. apply (IH t2 a2 Hb). rewrite last_cons in HT. exact HT.
Qed.

(** *** Tasks *)

Lemma executedFunctions_effect wait (l : list A) : forall (st : State A) p,
  holds st p ->
  let st' := fold_left (fun s a => executedFunction wait a s) l st in
  clock st' = clock st /\ calls st' = calls st /\ exists p', holds st' p'.
Proof.
  induction l as [| a l IH]; intros st p H; cbn [fold_left].
  - repeat split. exists p. exact H.
  - destruct (executedFunction_effect wait a st p H) as (Hc & Hl & H').
    destruct (IH _ _ H') as (Hc2 & Hl2 & H2).
    cbv zeta in *. rewrite Hc2, Hl2, Hc, Hl. repeat split. exact H2.
Qed.

(** The start of the next task, or the time [T] up to which the page is
    watched. *)
Definition next_start (l : list (Task A)) (T : Z) : Z :=
  match l with
  | tk :: _ => start tk
  | [] => T
  end.

(** The tasks that are followed by a quiet period of more than [W]
    milliseconds, by their last calls. *)
Fixpoint task_fired (W : Z) (l : list (Task A)) (T : Z) : list A :=
  match l with
  | [] => []
  | tk :: rest =>
      ((if start tk + Z.max W 0 <? next_start rest T then [final tk] else [])
         ++ task_fired W rest T)%list
  end.

(** Times that do not go back: from [prev] through the tasks to [T]. *)
Fixpoint task_order (prev : Z) (l : list (Task A)) (T : Z) : Prop :=
  match l with
  | [] => prev <= T
  | tk :: rest => prev <= start tk /\ task_order (start tk) rest T
  end.

(** No task starts, and the watch does not end, at the very time at which
    the timer of the task before is due. *)
Fixpoint no_tie (W : Z) (l : list (Task A)) (T : Z) : Prop :=
  match l with
  | [] => True
  | tk :: rest =>
      start tk + Z.max W 0 <> next_start rest T /\ no_tie W rest T
  end.

Lemma tasks_at_effect wait T (l : list (Task A)) : forall st p,
  holds st p -> task_order (clock st) l T ->
  (forall tm, p = Some tm -> due tm <> next_start l T) ->
  no_tie (wait_of wait) l T ->
  calls (advance T (tasks_at wait l st)) =
  (calls st ++ fires_by p (next_start l T) ++ task_fired (wait_of wait) l T)%list.
Proof.
  induction l as [| tk rest IH]; intros st p H Hord Hp Hties.
  - cbn [tasks_at next_start task_fired task_order] in *. rewrite app_nil_r.
    apply (advance_effect st p T H Hord).
  - cbn [tasks_at next_start task_fired task_order no_tie] in *.
    destruct Hord as [Ht Hord]. destruct Hties as [Htie Hties].
    unfold task_at.
    destruct (advance_effect st p (start tk) H Ht) as (Hc1 & Hl1 & _ & H1).
    destruct (executedFunctions_effect wait (earlier tk) _ _ H1)
      as (Hc2 & Hl2 & p2 & H2).
    cbv zeta in Hc2, Hl2, H2.
    destruct (executedFunction_effect wait (final tk) _ p2 H2)
      as (Hc3 & Hl3 & H3).
    cbv zeta in H3.
    rewrite (IH _ _ H3).
    + rewrite Hl3, Hl2, Hl1. cbn [fires_by due args]. rewrite Hc2, Hc1.
      rewrite <- app_assoc. f_equal. f_equal. f_equal.
      destruct (Z.leb_spec (start tk + Z.max (wait_of wait) 0) (next_start rest T)),
               (Z.ltb_spec (start tk + Z.max (wait_of wait) 0) (next_start rest T));
        try reflexivity; lia.
    + rewrite Hc3, Hc2, Hc1. exact Hord.
    + intros tm [= <-]. cbn [due]. rewrite Hc2, Hc1. exact Htie.
    + exact Hties.
Qed.

End Facts.

End DebounceFacts.

(** *** debounce *)





(* ====================================================================== *)
(** ** Modal utilities: showConfirmModal, showDeleteModal, showAlertModal,
    initDeleteModals *)

Module Modal.
Local Open Scope string_scope.

(** A callback handed to a modal: a function of the host page, known by a
    name, whose calls are recorded, or the [onConfirm] closure that
    [initDeleteModals] builds over a button's delete URL and CSRF token. *)
Inductive Callback :=
| HostFunction (name : string)
| DeleteForm (deleteUrl csrfToken : option string).

(** The option of a modal through which a callback is called. *)
Inductive Role := OnConfirm | OnCancel.

(** What the page has done, and for which modal (by the handle of its
    overlay): called a host function, or submitted a POST form. *)
Inductive Effect :=
| Called (modal : nat) (role : Role) (name : string)
| Submitted (modal : nat) (role : Role) (action csrfmiddlewaretoken : string).

(** The [options] argument of [showConfirmModal]; [None] is an absent key
    (for a callback also [null] or [undefined]). *)
Record ModalOptions := mkModalOptions {
  opt_title : option string;
  opt_message : option string;
  opt_confirmText : option string;
  opt_cancelText : option string;
  opt_type : option string;
  opt_onConfirm : option Callback;
  opt_onCancel : option Callback
}.

(** [{ ...defaults, ...options }] on one key. *)
Definition merged (given : option string) (default : string) : string :=
  match given with Some s => s | None => default end.

(** The three tables indexed by the modal type; [None] is [undefined].
    Types are taken not to be names that every object inherits (such as
    [constructor]). *)
Definition iconMap (type : string) : option string :=
  if String.eqb type "danger" then Some "exclamation-triangle"
  else if String.eqb type "warning" then Some "exclamation-circle"
  else if String.eqb type "success" then Some "check-circle"
  else if String.eqb type "info" then Some "info-circle"
  else None.

Definition colorMap (type : string) : option string :=
  if String.eqb type "danger" then Some "#dc2626"
  else if String.eqb type "warning" then Some "#d97706"
  else if String.eqb type "success" then Some "#16a34a"
  else if String.eqb type "info" then Some "#2563eb"
  else None.

Definition bgColorMap (type : string) : option string :=
  if String.eqb type "danger" then Some "#fee2e2"
  else if String.eqb type "warning" then Some "#fef3c7"
  else if String.eqb type "success" then Some "#dcfce7"
  else if String.eqb type "info" then Some "#dbeafe"
  else None.

(** A value as a template literal writes it. *)
Definition shown (v : option string) : string :=
  match v with Some s => s | None => "undefined" end.

(** The source writes its texts into [innerHTML] as they are.  A text is
    plain when the HTML parser takes it as it is, within an element and
    within a double-quoted attribute value alike, and a form submits it as
    it is: it holds no [<], no [&], no double quote, and none of the
    characters that the parser's input stream or the form submission drops
    or changes (NUL, carriage return, line feed). *)
Definition markup_char (c : ascii) : bool :=
  let n := nat_of_ascii c in
  ((n =? 60) || (n =? 38) || (n =? 34) || (n =? 0) || (n =? 13) || (n =? 10))%nat.

Fixpoint plain (s : string) : bool :=
  match s with
  | EmptyString => true
  | String c rest => negb (markup_char c) && plain rest
  end.

Inductive Kind := Confirm | Alert.

(** An overlay appended to the body: the texts and classes its markup
    holds, and the callbacks its listeners close over. *)
Record Overlay := mkOverlay {
  handle : nat;
  kind : Kind;
  icon_class : string;
  icon_color : option string;
  icon_background : option string;
  heading : string;
  text : string;
  buttons : list (string * string);
  on_confirm : option Callback;
  on_cancel : option Callback
}.

(** The page: the overlays attached to the body, the [handleEscape]
    listeners registered on the document (each with the handle of its
    overlay and the [onCancel] it closes over), the value of the page's
    [csrfmiddlewaretoken] input if there is one, the next handle, and what
    the page has done so far. *)
Record Page := mkPage {
  body : list Overlay;
  keydown : list (nat * option Callback);
  page_token : option string;
  next_handle : nat;
  effects : list Effect
}.

Definition truthy (v : option string) : bool :=
  match v with Some s => JSString.truthy s | None => false end.

(** What [if (cb) cb()] does for a modal's callback. *)
Definition callback_effects (modal : nat) (role : Role) (cb : option Callback)
    : list Effect :=
  match cb with
  | None => []
  | Some (HostFunction name) => [Called modal role name]
  | Some (DeleteForm deleteUrl csrfToken) =>
      if truthy deleteUrl && truthy csrfToken
      then [Submitted modal role (shown deleteUrl) (shown csrfToken)]
      else []
  end.

(** [overlay.remove()] *)
Definition remove_overlay (h : nat) (l : list Overlay) : list Overlay :=
  filter (fun o => negb (Nat.eqb (handle o) h)) l.

(** [showConfirmModal(options)] *)
Definition showConfirmModal (options : ModalOptions) (p : Page) : Page :=
  let title := merged (opt_title options) "Confirm" in
  let message := merged (opt_message options) "Are you sure?" in
  let confirmText := merged (opt_confirmText options) "Confirm" in
  let cancelText := merged (opt_cancelText options) "Cancel" in
  let type := merged (opt_type options) "danger" in
  let overlay :=
    mkOverlay (next_handle p) Confirm
              ("bi bi-" ++ shown (iconMap type))
              (colorMap type) (bgColorMap type)
              title message
              [("btn btn-secondary cancel-btn", cancelText);
               ("btn btn-" ++ type ++ " confirm-btn", confirmText)]
              (opt_onConfirm options) (opt_onCancel options) in
  mkPage (body p ++ [overlay])
         (keydown p ++ [(next_handle p, opt_onCancel options)])
         (page_token p) (S (next_handle p)) (effects p).

(** The [options] argument of [showDeleteModal]. *)
Record DeleteOptions := mkDeleteOptions {
  del_itemName : option string;
  del_onConfirm : option Callback;
  del_onCancel : option Callback
}.

(** [a || d] *)
Definition or_default (a : option string) (d : string) : string :=
  match a with
  | Some s => if JSString.truthy s then s else d
  | None => d
  end.

(** [showDeleteModal(options)] *)
Definition showDeleteModal (options : DeleteOptions) (p : Page) : Page :=
  showConfirmModal
    (mkModalOptions
       (Some ("Delete " ++ or_default (del_itemName options) "Item"))
       (Some ("Are you sure you want to delete this " ++
              or_default (del_itemName options) "item" ++
              "? This action cannot be undone."))
       (Some "Delete") (Some "Cancel") (Some "danger")
       (del_onConfirm options) (del_onCancel options))
    p.

(** [showAlertModal(title, message, type = 'info')] *)
Definition showAlertModal (title message : string) (type : option string)
    (p : Page) : Page :=
  let type := merged type "info" in
  let overlay :=
    mkOverlay (next_handle p) Alert
              ("bi bi-" ++ shown (iconMap type) ++ " text-" ++ type)
              None None title message
              [("btn btn-" ++ type ++ " px-4 close-btn", "OK")]
              None None in
  mkPage (body p ++ [overlay]) (keydown p) (page_token p)
         (S (next_handle p)) (effects p).

(** A button marked [data-delete-modal], with its data attributes. *)
Record DeleteButton := mkDeleteButton {
  data_item_name : option string;
  data_delete_url : option string;
  data_csrf_token : option string
}.

(** The click listener [initDeleteModals] binds to such a button. *)
Definition delete_button_click (btn : DeleteButton) (p : Page) : Page :=
  let itemName := or_default (data_item_name btn) "item" in
  let deleteUrl := data_delete_url btn in
  let csrfToken :=
    if truthy (data_csrf_token btn) then data_csrf_token btn else page_token p in
  showDeleteModal
    (mkDeleteOptions (Some itemName) (Some (DeleteForm deleteUrl csrfToken)) None)
    p.

(** What the user does.  A click lands on a part of an overlay that is
    attached to the body: a button, the content box beside the buttons, or
    the overlay itself around the content box. *)
Inductive Target := CancelButton | ConfirmButton | CloseButton | ContentBox | Backdrop.

Inductive Input :=
| Click (h : nat) (target : Target)
| Key (key : string)
| ClickDelete (btn : DeleteButton)
| ShowConfirm (options : ModalOptions)
| ShowAlert (title message : string) (type : option string).

Definition find_overlay (h : nat) (p : Page) : option Overlay :=
  find (fun o => Nat.eqb (handle o) h) (body p).

(** [closeModal()] followed by [if (cb) cb()]. *)
Definition close (h : nat) (role : Role) (cb : option Callback) (p : Page)
    : Page :=
  mkPage (remove_overlay h (body p)) (keydown p) (page_token p)
         (next_handle p) (effects p ++ callback_effects h role cb).

(** The listeners that run for a click on [target] of overlay [o]: the
    one of the button, if any, and then, the event bubbling up, the one of
    the overlay, which acts only when the overlay itself was clicked. *)
Definition click (o : Overlay) (target : Target) (p : Page) : Page :=
  match kind o, target with
  | Confirm, CancelButton => close (handle o) OnCancel (on_cancel o) p
  | Confirm, ConfirmButton => close (handle o) OnConfirm (on_confirm o) p
  | Confirm, Backdrop => close (handle o) OnCancel (on_cancel o) p
  | Alert, CloseButton => close (handle o) OnCancel None p
  | Alert, Backdrop => close (handle o) OnCancel None p
  | _, _ => p
  end.

(** One [handleEscape] listener, for the key Escape. *)
Definition escape (l : nat * option Callback) (p : Page) : Page :=
  let p1 := close (fst l) OnCancel (snd l) p in
  mkPage (body p1)
         (filter (fun x => negb (Nat.eqb (fst x) (fst l))) (keydown p1))
         (page_token p1) (next_handle p1) (effects p1).

(** A keydown event on the document: the listeners registered when the
    event is dispatched run in the order of their registration. *)
Definition keydown_event (key : string) (p : Page) : Page :=
  if String.eqb key "Escape"
  then fold_left (fun q l => escape l q) (keydown p) p
  else p.

Definition handle_input (i : Input) (p : Page) : Page :=
  match i with
  | Click h target =>
      match find_overlay h p with
      | Some o => click o target p
      | None => p
      end
  | Key key => keydown_event key p
  | ClickDelete btn => delete_button_click btn p
  | ShowConfirm options => showConfirmModal options p
  | ShowAlert title message type => showAlertModal title message type p
  end.

Definition run (inputs : list Input) (p : Page) : Page :=
  fold_left (fun q i => handle_input i q) inputs p.

(** A page with no overlay yet, and the pages that come of it. *)
Definition blank (token : option string) : Page := mkPage [] [] token 0 [].

Definition arises (p : Page) : Prop :=
  exists token inputs, p = run inputs (blank token).

End Modal.

Module ModalFacts.
Import Modal.

Definition handles (p : Page) : list nat := map handle (body p).

Definition listening (p : Page) : list nat := map fst (keydown p).

Definition effect_modal (e : Effect) : nat :=
  match e with Called m _ _ => m | Submitted m _ _ _ => m end.

Definition effect_role (e : Effect) : Role :=
  match e with Called _ r _ => r | Submitted _ r _ _ => r end.

(** Handles are given out once; every confirmation overlay on the page has
    its Escape listener registered, and no alert overlay has one. *)
Record wf (p : Page) : Prop := mk_wf {
  wf_body_fresh : forall o, In o (body p) -> (handle o < next_handle p)%nat;
  wf_keydown_fresh : forall h, In h (listening p) -> (h < next_handle p)%nat;
  wf_effects_fresh :
    forall e, In e (effects p) -> (effect_modal e < next_handle p)%nat;
  wf_keydown_nodup : NoDup (listening p);
  wf_confirm_listens :
    forall o, In o (body p) -> kind o = Confirm -> In (handle o) (listening p);
  wf_alert_silent :
    forall o, In o (body p) -> kind o = Alert -> ~ In (handle o) (listening p)
}.

Lemma wf_blank token : wf (blank token).
Proof.
  constructor; cbn; try contradiction; try constructor.
Qed.

Lemma callback_effects_modal h role cb e :
  In e (callback_effects h role cb) -> effect_modal e = h /\ effect_role e = role.
Proof.
  destruct cb as [[name | url tok] |]; cbn [callback_effects].
  - intros [<- | []]. split; reflexivity.
  - destruct (truthy url && truthy tok); [| intros []].
    intros [<- | []]. split; reflexivity.
  - intros [].
Qed.

Lemma callback_effects_length h role cb :
  (List.length (callback_effects h role cb) <= 1)%nat.
Proof.
  destruct cb as [[name | url tok] |]; cbn [callback_effects]; cbn; try lia.
  destruct (truthy url && truthy tok); cbn; lia.
Qed.

Lemma In_remove_overlay h o l :
  In o (remove_overlay h l) <-> In o l /\ handle o <> h.
Proof.
  unfold remove_overlay. rewrite filter_In, negb_true_iff, Nat.eqb_neq. reflexivity.
Qed.

Lemma wf_close h role cb p :
  wf p -> (h < next_handle p)%nat -> wf (close h role cb p).
Proof.
  intros W Hh. destruct W as [W1 W2 W3 W4 W5 W6].
  constructor; unfold close, listening in *; cbn [body keydown next_handle effects].
  - intros o Ho. apply In_remove_overlay in Ho. apply W1, Ho.
  - exact W2.
  - intros e He. apply in_app_or in He. destruct He as [He | He]; [apply W3, He |].
    apply callback_effects_modal in He. destruct He as [-> _]. exact Hh.
  - exact W4.
  - intros o Ho. apply In_remove_overlay in Ho. apply W5, Ho.
  - intros o Ho. apply In_remove_overlay in Ho. apply W6, Ho.
Qed.

Lemma listening_filter h (l : list (nat * option Callback)) x :
  In x (map fst (filter (fun y => negb (Nat.eqb (fst y) h)) l)) <->
  In x (map fst l) /\ x <> h.
Proof.
  rewrite !in_map_iff. split.
  - intros (y & <- & Hy). apply filter_In in Hy. destruct Hy as [Hy Hne].
    apply negb_true_iff, Nat.eqb_neq in Hne. split; [exists y; auto | exact Hne].
  - intros [(y & <- & Hy) Hne]. exists y. split; [reflexivity |].
    apply filter_In. split; [exact Hy |].
    apply negb_true_iff, Nat.eqb_neq. exact Hne.
Qed.

Lemma NoDup_listening_filter h (l : list (nat * option Callback)) :
  NoDup (map fst l) ->
  NoDup (map fst (filter (fun y => negb (Nat.eqb (fst y) h)) l)).
Proof.
  induction l as [| y l IH]; intros H; [constructor |].
  cbn [map] in H. inversion H as [| ? ? Hn Hd]; subst.
  cbn [filter]. destruct (negb (Nat.eqb (fst y) h)); [| apply IH, Hd].
  cbn [map]. constructor; [| apply IH, Hd].
  intros Hin. apply listening_filter in Hin. apply Hn, Hin.
Qed.

Lemma NoDup_snoc (l : list nat) x : NoDup l -> ~ In x l -> NoDup (l ++ [x]).
Proof.
  intros Hl Hx. induction Hl as [| y l Hy Hl IH]; cbn [app].
  - constructor; [intros [] | constructor].
  - constructor.
    + intros Hin. apply in_app_or in Hin. destruct Hin as [Hin | [-> | []]];
        [exact (Hy Hin) | apply Hx; left; reflexivity].
    + apply IH. intros Hin. apply Hx. right. exact Hin.
Qed.

Lemma wf_escape l p :
  wf p -> (fst l < next_handle p)%nat -> wf (escape l p).
Proof.
  intros W Hl. pose proof (wf_close (fst l) OnCancel (snd l) p W Hl) as Wc.
  destruct Wc as [W1 W2 W3 W4 W5 W6].
  constructor; unfold escape, listening in *;
    cbn [body keydown next_handle effects] in *.
  - exact W1.
  - intros h Hh. apply listening_filter in Hh. apply W2, Hh.
  - exact W3.
  - apply NoDup_listening_filter, W4.
  - intros o Ho Hk. apply listening_filter. split; [apply (W5 o Ho Hk) |].
    apply In_remove_overlay in Ho. apply Ho.
  - intros o Ho Hk Hin. apply listening_filter in Hin. apply (W6 o Ho Hk), Hin.
Qed.

Lemma next_handle_escape l p : next_handle (escape l p) = next_handle p.
Proof. reflexivity. Qed.

Lemma wf_escapes ls : forall p,
  wf p -> (forall l, In l ls -> (fst l < next_handle p)%nat) ->
  wf (fold_left (fun q l => escape l q) ls p).
Proof.
  induction ls as [| l ls IH]; intros p W H; [exact W |].
  cbn [fold_left]. apply IH.
  - apply wf_escape; [exact W | apply H; left; reflexivity].
  - intros l' Hl'. rewrite next_handle_escape. apply H. right. exact Hl'.
Qed.

Lemma wf_showConfirmModal options p : wf p -> wf (showConfirmModal options p).
Proof.
  intros [W1 W2 W3 W4 W5 W6].
  constructor; unfold showConfirmModal, listening in *; cbv zeta;
    cbn [body keydown next_handle effects].
  - intros o Ho. apply in_app_or in Ho. destruct Ho as [Ho | [<- | []]];
      [specialize (W1 o Ho); lia | cbn [handle]; lia].
  - intros h Hh. rewrite map_app in Hh. apply in_app_or in Hh.
    destruct Hh as [Hh | [<- | []]]; [specialize (W2 h Hh); lia | cbn [fst]; lia].
  - intros e He. specialize (W3 e He). lia.
  - rewrite map_app. cbn [map fst]. apply NoDup_snoc; [exact W4 |].
    intros Hin. specialize (W2 _ Hin). lia.
  - intros o Ho Hk. rewrite map_app. apply in_or_app.
    apply in_app_or in Ho. destruct Ho as [Ho | [<- | []]].
    + left. apply (W5 o Ho Hk).
    + right. left. reflexivity.
  - intros o Ho Hk Hin. rewrite map_app in Hin. apply in_app_or in Hin.
    apply in_app_or in Ho. destruct Ho as [Ho | [<- | []]].
    + destruct Hin as [Hin | [Hin | []]]; [exact (W6 o Ho Hk Hin) |].
      cbn [fst] in Hin. specialize (W1 o Ho). lia.
    + discriminate Hk.
Qed.

Lemma wf_showAlertModal title message type p :
  wf p -> wf (showAlertModal title message type p).
Proof.
  intros [W1 W2 W3 W4 W5 W6].
  constructor; unfold showAlertModal, listening in *; cbv zeta;
    cbn [body keydown next_handle effects].
  - intros o Ho. apply in_app_or in Ho. destruct Ho as [Ho | [<- | []]];
      [specialize (W1 o Ho); lia | cbn [handle]; lia].
  - intros h Hh. specialize (W2 h Hh). lia.
  - intros e He. specialize (W3 e He). lia.
  - exact W4.
  - intros o Ho Hk. apply in_app_or in Ho. destruct Ho as [Ho | [<- | []]];
      [apply (W5 o Ho Hk) | discriminate Hk].
  - intros o Ho Hk Hin. apply in_app_or in Ho. destruct Ho as [Ho | [<- | []]];
      [exact (W6 o Ho Hk Hin) |].
    cbn [handle] in Hin. specialize (W2 _ Hin). lia.
Qed.

Lemma find_overlay_In h p o :
  find_overlay h p = Some o -> In o (body p) /\ handle o = h.
Proof.
  unfold find_overlay. intros H. apply find_some in H.
  destruct H as [Hin Heq]. apply Nat.eqb_eq in Heq. auto.
Qed.

Lemma wf_click o target p :
  wf p -> In o (body p) -> wf (click o target p).
Proof.
  intros W Ho. pose proof (wf_body_fresh p W o Ho) as Hh.
  unfold click. destruct (kind o), target; try exact W; apply wf_close; assumption.
Qed.

Lemma wf_keydown_event key p : wf p -> wf (keydown_event key p).
Proof.
  intros W. unfold keydown_event. destruct (String.eqb key "Escape"); [| exact W].
  apply wf_escapes; [exact W |].
  intros l Hl. apply (wf_keydown_fresh p W). unfold listening.
  apply in_map. exact Hl.
Qed.

Lemma wf_handle_input i p : wf p -> wf (handle_input i p).
Proof.
  intros W. destruct i as [h target | key | btn | options | title message type];
    cbn [handle_input].
  - destruct (find_overlay h p) as [o |] eqn:E; [| exact W].
    apply wf_click; [exact W | apply (find_overlay_In h p o E)].
  - apply wf_keydown_event, W.
  - apply wf_showConfirmModal, W.
  - apply wf_showConfirmModal, W.
  - apply wf_showAlertModal, W.
Qed.

Lemma run_snoc inputs i p :
  run (inputs ++ [i]) p = handle_input i (run inputs p).
Proof. unfold run. rewrite fold_left_app. reflexivity. Qed.

Lemma wf_run inputs : forall p, wf p -> wf (run inputs p).
Proof.
  induction inputs as [| i inputs IH]; intros p W; [exact W |].
  apply (IH (handle_input i p)), wf_handle_input, W.
Qed.

Lemma arises_wf p : arises p -> wf p.
Proof. intros (token & inputs & ->). apply wf_run, wf_blank. Qed.

(** *** The Escape key *)

Definition escaped (ls : list (nat * option Callback)) (h : nat) : bool :=
  existsb (Nat.eqb h) (map fst ls).

Lemma filter_twice {X} (f g : X -> bool) l :
  filter f (filter g l) = filter (fun x => f x && g x) l.
Proof.
  induction l as [| x l IH]; [reflexivity |].
  cbn [filter]. destruct (g x); cbn [filter]; rewrite IH;
    [destruct (f x); reflexivity | rewrite andb_false_r; reflexivity].
Qed.

(** What the Escape listeners [ls] do, one after the other. *)
Lemma escapes_effect ls : forall p,
  let q := fold_left (fun q l => escape l q) ls p in
  body q = filter (fun o => negb (escaped ls (handle o))) (body p) /\
  keydown q = filter (fun x => negb (escaped ls (fst x))) (keydown p) /\
  effects q =
    (effects p ++
     flat_map (fun l => callback_effects (fst l) OnCancel (snd l)) ls)%list /\
  next_handle q = next_handle p /\ page_token q = page_token p.
Proof.
  induction ls as [| l ls IH]; intros p; cbv zeta.
  - cbn [fold_left flat_map escaped map existsb negb].
    rewrite app_nil_r, !filter_true. repeat split; reflexivity.
  - cbn [fold_left]. destruct (IH (escape l p)) as (Hb & Hk & He & Hn & Ht).
    rewrite Hb, Hk, He, Hn, Ht. unfold escape, close, remove_overlay.
    cbn [body keydown effects next_handle page_token flat_map].
    rewrite !filter_twice, <- app_assoc.
    repeat split.
    + apply filter_ext. intros o. unfold escaped. cbn [map existsb].
      rewrite negb_orb, (Nat.eqb_sym (handle o)). apply andb_comm.
    + apply filter_ext. intros x. unfold escaped. cbn [map existsb].
      rewrite negb_orb, (Nat.eqb_sym (fst x)). apply andb_comm.
Qed.

Lemma escaped_In ls h : escaped ls h = true <-> In h (map fst ls).
Proof.
  unfold escaped. rewrite existsb_exists. split.
  - intros (x & Hx & E). apply Nat.eqb_eq in E. subst x. exact Hx.
  - intros H. exists h. split; [exact H | apply Nat.eqb_refl].
Qed.

(** Inputs other than the Escape key leave every Escape listener in
    place. *)
Lemma keydown_stays i p x :
  i <> Key "Escape" -> In x (keydown p) -> In x (keydown (handle_input i p)).
Proof.
  intros Hi Hx.
  destruct i as [h target | key | btn | options | title message type];
    cbn [handle_input].
  - destruct (find_overlay h p) as [o |]; [| exact Hx].
    unfold click. destruct (kind o), target; exact Hx.
  - unfold keydown_event. destruct (String.eqb_spec key "Escape") as [-> | _];
      [contradiction | exact Hx].
  - apply in_or_app. left. exact Hx.
  - apply in_or_app. left. exact Hx.
  - exact Hx.
Qed.

Lemma keydown_stays_run inputs : forall p x,
  (forall i, In i inputs -> i <> Key "Escape") ->
  In x (keydown p) -> In x (keydown (run inputs p)).
Proof.
  induction inputs as [| i inputs IH]; intros p x Hall Hx; [exact Hx |].
  apply (IH (handle_input i p)).
  - intros j Hj. apply Hall. right. exact Hj.
  - apply keydown_stays; [apply Hall; left; reflexivity | exact Hx].
Qed.

End ModalFacts.

Import Modal.

(** *** The Escape key and the modals *)


(** A page to evaluate the statements on: a confirmation modal, an alert
    and a second confirmation modal, shown in that order. *)
Definition ask (confirm cancel : string) : ModalOptions :=
  mkModalOptions None None None None None
                 (Some (HostFunction confirm)) (Some (HostFunction cancel)).

Definition three_modals : Page :=
  run [ShowConfirm (ask "save" "discard");
       ShowAlert "Saved" "Your entry was saved." None;
       ShowConfirm (ask "leave" "stay")]
      (blank None).




(** *** How often a modal's callbacks are called *)

Definition role_eqb (a b : Role) : bool :=
  match a, b with
  | OnConfirm, OnConfirm | OnCancel, OnCancel => true
  | _, _ => false
  end.

(** The number of calls made for modal [h] through the given option. *)
Definition calls_for (h : nat) (role : Role) (done : list Effect) : nat :=
  List.length
    (filter (fun e => Nat.eqb (ModalFacts.effect_modal e) h &&
                      role_eqb (ModalFacts.effect_role e) role) done).

Module Counting.
Import ModalFacts.

(** 0 while the overlay [h] is attached, 1 otherwise; likewise for the
    Escape listener of [h]. *)
Definition detached (h : nat) (p : Page) : nat :=
  if existsb (Nat.eqb h) (handles p) then 0 else 1.

Definition unregistered (h : nat) (p : Page) : nat :=
  if existsb (Nat.eqb h) (listening p) then 0 else 1.

Definition bounded (p : Page) : Prop :=
  forall h,
    (calls_for h OnConfirm (effects p) <= detached h p)%nat /\
    (calls_for h OnConfirm (effects p) + calls_for h OnCancel (effects p)
     <= detached h p + unregistered h p)%nat.

Lemma calls_for_app h role l1 l2 :
  calls_for h role (l1 ++ l2) = (calls_for h role l1 + calls_for h role l2)%nat.
Proof. unfold calls_for. rewrite filter_app, length_app. reflexivity. Qed.

Lemma calls_for_other h h0 role role0 cb :
  h <> h0 -> calls_for h role (callback_effects h0 role0 cb) = 0%nat.
Proof.
  intros Hne. unfold calls_for.
  rewrite (filter_ext_in _ (fun _ => false)); [rewrite Today.filter_false; reflexivity |].
  intros e He. apply callback_effects_modal in He. destruct He as [-> _].
  apply andb_false_iff. left. apply Nat.eqb_neq. auto.
Qed.

Lemma calls_for_other_role h h0 cb :
  calls_for h OnConfirm (callback_effects h0 OnCancel cb) = 0%nat /\
  calls_for h OnCancel (callback_effects h0 OnConfirm cb) = 0%nat.
Proof.
  unfold calls_for. split;
    (rewrite (filter_ext_in _ (fun _ => false));
     [rewrite Today.filter_false; reflexivity |]);
    intros e He; apply callback_effects_modal in He; destruct He as [_ ->];
    apply andb_false_r.
Qed.

Lemma calls_for_le h role h0 role0 cb :
  (calls_for h role (callback_effects h0 role0 cb) <= 1)%nat.
Proof.
  unfold calls_for.
  pose proof (filter_length_le
                (fun e => Nat.eqb (effect_modal e) h && role_eqb (effect_role e) role)
                (callback_effects h0 role0 cb)).
  pose proof (callback_effects_length h0 role0 cb). lia.
Qed.

Lemma calls_for_fresh h role p :
  wf p -> (next_handle p <= h)%nat -> calls_for h role (effects p) = 0%nat.
Proof.
  intros W Hh. unfold calls_for.
  rewrite (filter_ext_in _ (fun _ => false)); [rewrite Today.filter_false; reflexivity |].
  intros e He. apply andb_false_iff. left. apply Nat.eqb_neq.
  pose proof (wf_effects_fresh p W e He). lia.
Qed.

Lemma existsb_In h l : existsb (Nat.eqb h) l = true <-> In h l.
Proof.
  rewrite existsb_exists. split.
  - intros (x & Hx & E). apply Nat.eqb_eq in E. subst x. exact Hx.
  - intros H. exists h. split; [exact H | apply Nat.eqb_refl].
Qed.

Lemma handles_removed h h0 l :
  existsb (Nat.eqb h) (map handle (remove_overlay h0 l)) =
  existsb (Nat.eqb h) (map handle l) && negb (Nat.eqb h h0).
Proof.
  apply eq_true_iff_eq. rewrite andb_true_iff, negb_true_iff, Nat.eqb_neq,
    !existsb_In, !in_map_iff.
  split.
  - intros (o & <- & Ho). apply In_remove_overlay in Ho.
    split; [exists o; split; [reflexivity | apply Ho] | apply Ho].
  - intros [(o & <- & Ho) Hne]. exists o. split; [reflexivity |].
    apply In_remove_overlay. auto.
Qed.

Lemma listening_removed h h0 (l : list (nat * option Callback)) :
  existsb (Nat.eqb h)
          (map fst (filter (fun x => negb (Nat.eqb (fst x) h0)) l)) =
  existsb (Nat.eqb h) (map fst l) && negb (Nat.eqb h h0).
Proof.
  apply eq_true_iff_eq. rewrite andb_true_iff, negb_true_iff, Nat.eqb_neq,
    !existsb_In.
  apply listening_filter.
Qed.

Lemma bounded_close h0 role cb p :
  bounded p -> In h0 (handles p) -> bounded (close h0 role cb p).
Proof.
  intros B Hin h. destruct (B h) as [B1 B2].
  unfold detached, unregistered, close, handles, listening in *.
  cbn [body keydown effects]. rewrite handles_removed, !calls_for_app.
  destruct (Nat.eqb_spec h h0) as [-> | Hne].
  - apply existsb_In in Hin. rewrite Hin in *. rewrite andb_false_r.
    pose proof (calls_for_le h0 OnConfirm h0 role cb).
    pose proof (calls_for_le h0 OnCancel h0 role cb).
    destruct (calls_for_other_role h0 h0 cb) as [Z1 Z2].
    destruct role; [rewrite Z2 | rewrite Z1]; lia.
  - rewrite andb_true_r, !calls_for_other by exact Hne. lia.
Qed.

Lemma bounded_escape l p :
  bounded p -> In (fst l) (listening p) -> bounded (escape l p).
Proof.
  intros B Hin h. destruct (B h) as [B1 B2].
  unfold detached, unregistered, escape, close, handles, listening in *.
  cbn [body keydown effects].
  rewrite handles_removed, listening_removed, !calls_for_app.
  destruct (Nat.eqb_spec h (fst l)) as [-> | Hne].
  - apply existsb_In in Hin. rewrite Hin in *. rewrite !andb_false_r.
    pose proof (calls_for_le (fst l) OnCancel (fst l) OnCancel (snd l)).
    destruct (calls_for_other_role (fst l) (fst l) (snd l)) as [Z1 _].
    rewrite Z1.
    destruct (existsb (Nat.eqb (fst l)) (map handle (body p))); lia.
  - rewrite !andb_true_r, !calls_for_other by exact Hne. lia.
Qed.

Lemma bounded_escapes ls : forall p,
  NoDup (map fst ls) ->
  (forall l, In l ls -> In (fst l) (listening p)) ->
  bounded p -> bounded (fold_left (fun q l => escape l q) ls p).
Proof.
  induction ls as [| l ls IH]; intros p Hnd Hin B; [exact B |].
  cbn [map] in Hnd. inversion Hnd as [| ? ? Hn Hd]; subst.
  cbn [fold_left]. apply IH.
  - exact Hd.
  - intros l' Hl'. unfold listening, escape, close. cbn [keydown].
    apply listening_filter. split; [apply Hin; right; exact Hl' |].
    intros E. apply Hn. rewrite <- E. apply in_map. exact Hl'.
  - apply bounded_escape; [exact B | apply Hin; left; reflexivity].
Qed.

Lemma existsb_snoc h l n :
  h <> n -> existsb (Nat.eqb h) (l ++ [n]) = existsb (Nat.eqb h) l.
Proof.
  intros Hne. rewrite existsb_app. cbn [existsb].
  replace (Nat.eqb h n) with false by (symmetry; apply Nat.eqb_neq; exact Hne).
  rewrite !orb_false_r. reflexivity.
Qed.

Lemma bounded_showConfirmModal options p :
  wf p -> bounded p -> bounded (showConfirmModal options p).
Proof.
  intros W B h. destruct (B h) as [B1 B2].
  destruct (Nat.eq_dec h (next_handle p)) as [-> | Hne].
  - unfold showConfirmModal. cbv zeta. cbn [effects].
    rewrite !calls_for_fresh by (try exact W; lia). lia.
  - unfold detached, unregistered, showConfirmModal, handles, listening in *.
    cbv zeta. cbn [body keydown effects]. rewrite !map_app. cbn [map handle fst].
    rewrite !existsb_snoc by exact Hne. lia.
Qed.

Lemma bounded_showAlertModal title message type p :
  wf p -> bounded p -> bounded (showAlertModal title message type p).
Proof.
  intros W B h. destruct (B h) as [B1 B2].
  destruct (Nat.eq_dec h (next_handle p)) as [-> | Hne].
  - unfold showAlertModal. cbv zeta. cbn [effects].
    rewrite !calls_for_fresh by (try exact W; lia). lia.
  - unfold detached, unregistered, showAlertModal, handles, listening in *.
    cbv zeta. cbn [body keydown effects]. rewrite !map_app. cbn [map handle].
    rewrite !existsb_snoc by exact Hne. lia.
Qed.

Lemma bounded_handle_input i p :
  wf p -> bounded p -> bounded (handle_input i p).
Proof.
  intros W B. destruct i as [h target | key | btn | options | title message type];
    cbn [handle_input].
  - destruct (find_overlay h p) as [o |] eqn:E; [| exact B].
    destruct (find_overlay_In h p o E) as [Ho _].
    assert (Hin : In (handle o) (handles p)) by (apply in_map; exact Ho).
    unfold click. destruct (kind o), target; try exact B;
      apply bounded_close; assumption.
  - unfold keydown_event. destruct (String.eqb key "Escape"); [| exact B].
    apply bounded_escapes; [apply (wf_keydown_nodup p W) | | exact B].
    intros l Hl. apply in_map. exact Hl.
  - apply bounded_showConfirmModal; assumption.
  - apply bounded_showConfirmModal; assumption.
  - apply bounded_showAlertModal; assumption.
Qed.

Lemma bounded_run inputs : forall p, wf p -> bounded p -> bounded (run inputs p).
Proof.
  induction inputs as [| i inputs IH]; intros p W B; [exact B |].
  apply (IH (handle_input i p)); [apply wf_handle_input, W |].
  apply bounded_handle_input; assumption.
Qed.

Lemma bounded_blank token : bounded (blank token).
Proof. intros h. cbn. lia. Qed.

End Counting.


(** Cancelled by its button and then "cancelled" again by Escape. *)
Definition cancelled_twice : Page :=
  run [ShowConfirm (ask "save" "discard"); Click 0 CancelButton; Key "Escape"]
      (blank None).


(** *** Delete buttons *)

Module DeleteFlow.
Import ModalFacts.

Lemma or_default_truthy a d :
  JSString.truthy d = true -> JSString.truthy (or_default a d) = true.
Proof.
  intros Hd. unfold or_default. destruct a as [s |]; [| exact Hd].
  destruct (JSString.truthy s) eqn:E; [exact E | exact Hd].
Qed.

Lemma or_default_again a d d' :
  JSString.truthy d = true ->
  or_default (Some (or_default a d)) d' = or_default a d.
Proof.
  intros Hd. unfold or_default at 1. rewrite or_default_truthy by exact Hd.
  reflexivity.
Qed.

Lemma find_new_overlay h (l : list Overlay) o :
  handle o = h -> (forall x, In x l -> handle x <> h) ->
  find (fun x => Nat.eqb (handle x) h) (l ++ [o]) = Some o.
Proof.
  intros Ho Hl. induction l as [| x l IH]; cbn [app find].
  - rewrite Ho, Nat.eqb_refl. reflexivity.
  - destruct (Nat.eqb_spec (handle x) h) as [E | _].
    + destruct (Hl x (or_introl eq_refl) E).
    + apply IH. intros y Hy. apply Hl. right. exact Hy.
Qed.

Lemma remove_new_overlay h (l : list Overlay) o :
  handle o = h -> (forall x, In x l -> handle x <> h) ->
  remove_overlay h (l ++ [o]) = l.
Proof.
  intros Ho Hl. unfold remove_overlay. rewrite filter_app. cbn [filter].
  rewrite Ho, Nat.eqb_refl. cbn [negb]. rewrite app_nil_r.
  rewrite (filter_ext_in _ (fun _ => true)); [apply filter_true |].
  intros x Hx. apply negb_true_iff, Nat.eqb_neq, Hl, Hx.
Qed.

End DeleteFlow.

(** A click on a button marked [data-delete-modal] whose item name and
    CSRF token are plain texts shows a confirmation modal of type danger
    with the buttons Cancel and Delete, titled "Delete" and the item name
    of the button, or "Delete item" when the button names none (the
    capitalised fallback of [showDeleteModal] is never reached from here).
    A click on Delete closes the modal and submits a POST form to the
    button's delete URL, with the button's CSRF token or else the page's,
    when there is a URL and a token; without one of them it closes the
    modal and does nothing.  A click on anything but Delete submits
    nothing. *)
Theorem delete_button_flow (p : Page) (btn : DeleteButton) :
  arises p ->
  let h := next_handle p in
  let name := or_default (data_item_name btn) "item" in
  let token :=
    if Modal.truthy (data_csrf_token btn) then data_csrf_token btn
    else page_token p in
  let p1 := handle_input (ClickDelete btn) p in
  plain name = true ->
  (forall s, token = Some s -> plain s = true) ->
  (exists o,
      find_overlay h p1 = Some o /\ kind o = Confirm /\
      heading o = ("Delete " ++ name)%string /\
      text o = ("Are you sure you want to delete this " ++ name ++
                "? This action cannot be undone.")%string /\
      icon_class o = "bi bi-exclamation-triangle"%string /\
      buttons o = [("btn btn-secondary cancel-btn", "Cancel");
                   ("btn btn-danger confirm-btn", "Delete")]%string) /\
  effects (handle_input (Click h ConfirmButton) p1) =
    (effects p ++
     if Modal.truthy (data_delete_url btn) && Modal.truthy token
     then [Submitted h OnConfirm (shown (data_delete_url btn)) (shown token)]
     else [])%list /\
  body (handle_input (Click h ConfirmButton) p1) = body p /\
  (forall target,
      target <> ConfirmButton ->
      effects (handle_input (Click h target) p1) = effects p).
Proof.
  intros Ha h name token p1 _ _. pose proof (ModalFacts.arises_wf p Ha) as W.
  assert (Hfresh : forall x, In x (body p) -> handle x <> h).
  { intros x Hx. pose proof (ModalFacts.wf_body_fresh p W x Hx). subst h. lia. }
  set (o := mkOverlay h Confirm "bi bi-exclamation-triangle"
                      (Some "#dc2626"%string) (Some "#fee2e2"%string)
                      ("Delete " ++ name)
                      ("Are you sure you want to delete this " ++ name ++
                       "? This action cannot be undone.")
                      [("btn btn-secondary cancel-btn", "Cancel");
                       ("btn btn-danger confirm-btn", "Delete")]%string
                      (Some (DeleteForm (data_delete_url btn) token)) None).
  assert (E1 : p1 = mkPage (body p ++ [o]) (keydown p ++ [(h, None)])
                           (page_token p) (S h) (effects p)).
  { subst p1. cbn [handle_input]. unfold delete_button_click. cbv zeta.
    unfold showDeleteModal. cbn [del_itemName del_onConfirm del_onCancel].
    rewrite !DeleteFlow.or_default_again by reflexivity.
    reflexivity. }
  assert (Hfind : find_overlay h p1 = Some o).
  { rewrite E1. unfold find_overlay. cbn [body].
    apply DeleteFlow.find_new_overlay; [reflexivity | exact Hfresh]. }
  split.
  { exists o. split; [exact Hfind |]. repeat split; reflexivity. }
  assert (Hclick : forall target,
             handle_input (Click h target) p1 = click o target p1).
  { intros target. cbn [handle_input]. rewrite Hfind. reflexivity. }
  split.
  { rewrite Hclick, E1. reflexivity. }
  split.
  { rewrite Hclick, E1. cbn [click kind o close body handle].
    apply DeleteFlow.remove_new_overlay; [reflexivity | exact Hfresh]. }
  intros target Ht. rewrite Hclick, E1.
  destruct target; try contradiction; cbn [click kind o close effects on_cancel
                                           callback_effects];
    rewrite ?app_nil_r; reflexivity.
Qed.

Definition entry_button : DeleteButton :=
  mkDeleteButton None (Some "/entries/5/delete/"%string) None.

Lemma delete_button_flow_witness :
  (exists o,
      find_overlay 0 (handle_input (ClickDelete entry_button)
                                   (blank (Some "tok"%string))) = Some o /\
      kind o = Confirm /\
      heading o = "Delete item"%string /\
      text o = ("Are you sure you want to delete this item" ++
                "? This action cannot be undone.")%string /\
      icon_class o = "bi bi-exclamation-triangle"%string /\
      buttons o = [("btn btn-secondary cancel-btn", "Cancel");
                   ("btn btn-danger confirm-btn", "Delete")]%string) /\
  effects (handle_input (Click 0 ConfirmButton)
             (handle_input (ClickDelete entry_button) (blank (Some "tok"%string)))) =
    [Submitted 0 OnConfirm "/entries/5/delete/" "tok"] /\
  body (handle_input (Click 0 ConfirmButton)
          (handle_input (ClickDelete entry_button) (blank (Some "tok"%string)))) = [] /\
  (forall target,
      target <> ConfirmButton ->
      effects (handle_input (Click 0 target)
                 (handle_input (ClickDelete entry_button)
                               (blank (Some "tok"%string)))) = []).
Proof.
  apply (delete_button_flow (blank (Some "tok"%string)) entry_button).
  - exists (Some "tok"%string), []. reflexivity.
  - reflexivity.
  - intros s [= <-]. reflexivity.
Defined.

(* ====================================================================== *)
(** ** Navigation components: the sidebar toggle and the active link *)

Module Sidebar.
Local Open Scope string_scope.

(** The parts of the page [initSidebarToggle] looks up, with the number of
    click listeners bound to each.  [None] is an element that is not on
    the page; for the toggle button the inner option is the class of its
    [<i>] icon, if it has one.  The booleans tell whether the class [show]
    is set.  [inner_width] is [window.innerWidth], a whole number of
    pixels. *)
Record Page := mkPage {
  toggle_icon : option (option string);
  sidebar_show : option bool;
  backdrop_show : option bool;
  link_listeners : list nat;
  toggle_listeners : nat;
  backdrop_listeners : nat;
  inner_width : Z
}.

(** [initSidebarToggle()] *)
Definition initSidebarToggle (p : Page) : Page :=
  match toggle_icon p, sidebar_show p with
  | Some _, Some _ =>
      mkPage (toggle_icon p) (sidebar_show p)
             (Some (match backdrop_show p with Some b => b | None => false end))
             (map S (link_listeners p))
             (S (toggle_listeners p)) (S (backdrop_listeners p))
             (inner_width p)
  | _, _ => p
  end.

(** Writing the class of the toggle button's icon, when there is one. *)
Definition set_icon (cls : string) (icon : option (option string))
    : option (option string) :=
  match icon with
  | Some (Some _) => Some (Some cls)
  | other => other
  end.

Definition shown (b : option bool) : bool :=
  match b with Some true => true | _ => false end.

(** The click listener of the toggle button. *)
Definition toggle_handler (p : Page) : Page :=
  let sidebar := option_map negb (sidebar_show p) in
  mkPage (set_icon (if shown sidebar then "bi bi-x-lg" else "bi bi-list")
                   (toggle_icon p))
         sidebar (option_map negb (backdrop_show p))
         (link_listeners p) (toggle_listeners p) (backdrop_listeners p)
         (inner_width p).

(** The click listener of the backdrop. *)
Definition close_handler (p : Page) : Page :=
  mkPage (set_icon "bi bi-list" (toggle_icon p))
         (option_map (fun _ => false) (sidebar_show p))
         (option_map (fun _ => false) (backdrop_show p))
         (link_listeners p) (toggle_listeners p) (backdrop_listeners p)
         (inner_width p).

(** The click listener of a sidebar link: [innerWidth <= 991.98]. *)
Definition link_handler (p : Page) : Page :=
  if (inner_width p <=? 991)%Z then close_handler p else p.

(** A click runs every listener bound to the clicked element. *)
Fixpoint times (n : nat) (h : Page -> Page) (p : Page) : Page :=
  match n with
  | O => p
  | S k => times k h (h p)
  end.

Inductive Input :=
| ClickToggle
| ClickBackdrop
| ClickLink (i : nat)
| Resize (width : Z).

Definition handle_input (i : Input) (p : Page) : Page :=
  match i with
  | ClickToggle => times (toggle_listeners p) toggle_handler p
  | ClickBackdrop => times (backdrop_listeners p) close_handler p
  | ClickLink k => times (nth k (link_listeners p) 0%nat) link_handler p
  | Resize width =>
      mkPage (toggle_icon p) (sidebar_show p) (backdrop_show p)
             (link_listeners p) (toggle_listeners p) (backdrop_listeners p)
             width
  end.

Definition run (inputs : list Input) (p : Page) : Page :=
  fold_left (fun q i => handle_input i q) inputs p.

(** A page as it is loaded: nothing is bound yet. *)
Definition loaded (p : Page) : Prop :=
  toggle_listeners p = 0%nat /\ backdrop_listeners p = 0%nat /\
  Forall (fun n => n = 0%nat) (link_listeners p).

End Sidebar.

Module SidebarFacts.
Import Sidebar.
Local Open Scope string_scope.

(** Initialised once, with the sidebar and the backdrop both showing or
    both hidden ([s]); the icon, if there is one, is as the page was
    loaded ([None]) or as the listeners last wrote it. *)
Definition ready (original : option string) (side : bool) (s : bool)
    (p : Page) : Prop :=
  toggle_listeners p = 1%nat /\ backdrop_listeners p = 1%nat /\
  Forall (fun n => n = 1%nat) (link_listeners p) /\
  sidebar_show p = Some s /\ backdrop_show p = Some s /\
  (toggle_icon p = Some None /\ original = None \/
   exists cls,
     toggle_icon p = Some (Some cls) /\
     (cls = (if s then "bi bi-x-lg" else "bi bi-list") \/
      original = Some cls /\ s = side)).

Lemma ready_init p0 icon side :
  loaded p0 -> toggle_icon p0 = Some icon -> sidebar_show p0 = Some side ->
  shown (backdrop_show p0) = side ->
  ready icon side side (initSidebarToggle p0).
Proof.
  intros (H1 & H2 & H3) Hi Hs Hb. unfold initSidebarToggle. rewrite Hi, Hs.
  unfold ready. cbn [toggle_listeners backdrop_listeners link_listeners
                     sidebar_show backdrop_show toggle_icon].
  rewrite H1, H2. repeat split.
  - apply Forall_map. apply Forall_impl with (2 := H3). intros n ->. reflexivity.
  - f_equal. unfold shown in Hb. destruct (backdrop_show p0) as [[|] |];
      congruence.
  - destruct icon as [cls |]; [right | left; auto].
    exists cls. split; [reflexivity |]. right. auto.
Qed.

Lemma ready_toggle original side s p :
  ready original side s p -> ready original side (negb s) (toggle_handler p).
Proof.
  intros (H1 & H2 & H3 & Hs & Hb & Hi). unfold ready, toggle_handler.
  cbv zeta. cbn [toggle_listeners backdrop_listeners link_listeners
                 sidebar_show backdrop_show toggle_icon].
  rewrite Hs, Hb. cbn [option_map shown].
  repeat split; try assumption.
  destruct Hi as [[Hi Ho] | (cls & Hi & _)]; rewrite Hi; cbn [set_icon].
  - left. auto.
  - right. eexists. split; [reflexivity |]. left. destruct s; reflexivity.
Qed.

Lemma ready_close original side s p :
  ready original side s p -> ready original side false (close_handler p).
Proof.
  intros (H1 & H2 & H3 & Hs & Hb & Hi). unfold ready, close_handler.
  cbn [toggle_listeners backdrop_listeners link_listeners
       sidebar_show backdrop_show toggle_icon].
  rewrite Hs, Hb. cbn [option_map].
  repeat split; try assumption.
  destruct Hi as [[Hi Ho] | (cls & Hi & _)]; rewrite Hi; cbn [set_icon].
  - left. auto.
  - right. eexists. split; [reflexivity |]. left. reflexivity.
Qed.

(** The state of the sidebar after one input, as a function of the state
    before, the number of links and the width of the window. *)
Definition next_show (i : Input) (links : nat) (width : Z) (s : bool) : bool :=
  match i with
  | ClickToggle => negb s
  | ClickBackdrop => false
  | ClickLink k => if (k <? links)%nat && (width <=? 991)%Z then false else s
  | Resize _ => s
  end.

Definition next_width (i : Input) (width : Z) : Z :=
  match i with Resize w => w | _ => width end.

Lemma ready_handle_input original side s i p :
  ready original side s p ->
  ready original side
        (next_show i (List.length (link_listeners p)) (inner_width p) s)
        (handle_input i p) /\
  List.length (link_listeners (handle_input i p)) =
    List.length (link_listeners p) /\
  inner_width (handle_input i p) = next_width i (inner_width p).
Proof.
  intros R. pose proof R as (H1 & H2 & H3 & Hs & Hb & Hi).
  destruct i as [| | k | width]; cbn [handle_input next_show next_width].
  - rewrite H1. cbn [times].
    split; [apply (ready_toggle _ _ _ _ R) | split; reflexivity].
  - rewrite H2. cbn [times].
    split; [apply (ready_close _ _ _ _ R) | split; reflexivity].
  - destruct (Nat.ltb_spec k (List.length (link_listeners p))) as [Hk | Hk].
    + replace (nth k (link_listeners p) 0%nat) with 1%nat.
      * cbn [times andb]. unfold link_handler.
        destruct (inner_width p <=? 991)%Z;
          (split; [first [apply (ready_close _ _ _ _ R) | exact R]
                  | split; reflexivity]).
      * symmetry. rewrite Forall_forall in H3. apply H3, nth_In, Hk.
    + rewrite nth_overflow by exact Hk. cbn [times andb].
      split; [exact R | split; reflexivity].
  - split; [exact R | split; reflexivity].
Qed.

(** The state of the sidebar after a run of inputs. *)
Fixpoint final_show (inputs : list Input) (links : nat) (width : Z) (s : bool)
    : bool :=
  match inputs with
  | [] => s
  | i :: rest =>
      final_show rest links (next_width i width) (next_show i links width s)
  end.

Lemma ready_run original side inputs : forall s p,
  ready original side s p ->
  ready original side
        (final_show inputs (List.length (link_listeners p)) (inner_width p) s)
        (run inputs p).
Proof.
  induction inputs as [| i rest IH]; intros s p R; [exact R |].
  destruct (ready_handle_input original side s i p R) as (R' & Hl & Hw).
  cbn [final_show]. change (run (i :: rest) p) with (run rest (handle_input i p)).
  pose proof (IH _ _ R') as R''. rewrite Hl, Hw in R''. exact R''.
Qed.

End SidebarFacts.

Import Sidebar.

(** *** The sidebar toggle *)

(** On a page loaded with the toggle button and the sidebar, the sidebar
    and the backdrop both showing or both hidden, [initSidebarToggle]
    called once keeps them together for good: after any clicks and window
    resizes the sidebar and the backdrop show together or are hidden
    together.  Each click on the toggle button flips that state, a click
    on the backdrop hides both, a click on a sidebar link hides both when
    the window is at most 991 pixels wide and changes nothing otherwise.
    The icon of the toggle button, if it has one, is the close icon while
    the sidebar shows and the list icon while it is hidden, from the first
    click that runs a listener on. *)
Theorem sidebar_follows_its_toggle
    (p0 : Page) (icon : option string) (side : bool) (inputs : list Input) :
  loaded p0 ->
  toggle_icon p0 = Some icon -> sidebar_show p0 = Some side ->
  shown (backdrop_show p0) = side ->
  let p := run inputs (initSidebarToggle p0) in
  let s := SidebarFacts.final_show inputs (List.length (link_listeners p0))
                                   (inner_width p0) side in
  sidebar_show p = Some s /\ backdrop_show p = Some s /\
  (forall cls,
      toggle_icon p = Some (Some cls) ->
      cls = (if s then "bi bi-x-lg" else "bi bi-list")%string \/
      icon = Some cls /\ s = side).
Proof.
  intros Hl Hi Hs Hb p s.
  pose proof (SidebarFacts.ready_run icon side inputs side (initSidebarToggle p0)
                (SidebarFacts.ready_init p0 icon side Hl Hi Hs Hb)) as R.
  assert (E : List.length (link_listeners (initSidebarToggle p0)) =
              List.length (link_listeners p0) /\
              inner_width (initSidebarToggle p0) = inner_width p0).
  { unfold initSidebarToggle. rewrite Hi, Hs. cbn [link_listeners inner_width].
    rewrite length_map. split; reflexivity. }
  destruct E as [E1 E2]. rewrite E1, E2 in R. fold p s in R.
  destruct R as (_ & _ & _ & Rs & Rb & Ri).
  split; [exact Rs |]. split; [exact Rb |].
  intros cls Hc. destruct Ri as [[Ri _] | (cls' & Ri & Hcls)]; [congruence |].
  assert (cls' = cls) by congruence. subst cls'. exact Hcls.
Qed.

(** A narrow page with an icon in the toggle button, two sidebar links and
    no backdrop element. *)
Definition narrow_page : Page :=
  mkPage (Some (Some "bi bi-list"%string)) (Some false) None [0%nat; 0%nat]
         0 0 768.

Lemma sidebar_follows_its_toggle_witness :
  sidebar_show (run [ClickToggle; ClickLink 1; ClickToggle; Resize 1200; ClickLink 0]
                    (initSidebarToggle narrow_page)) = Some true /\
  backdrop_show (run [ClickToggle; ClickLink 1; ClickToggle; Resize 1200; ClickLink 0]
                     (initSidebarToggle narrow_page)) = Some true /\
  (forall cls,
      toggle_icon (run [ClickToggle; ClickLink 1; ClickToggle; Resize 1200;
                        ClickLink 0]
                       (initSidebarToggle narrow_page)) = Some (Some cls) ->
      cls = "bi bi-x-lg"%string \/
      Some "bi bi-list"%string = Some cls /\ true = false).
Proof.
  apply (sidebar_follows_its_toggle
           narrow_page (Some "bi bi-list"%string) false
           [ClickToggle; ClickLink 1; ClickToggle; Resize 1200; ClickLink 0]).
  - repeat split; repeat constructor.
  - reflexivity.
  - reflexivity.
  - reflexivity.
Defined.

Module Twice.

(** [initSidebarToggle] called [n] times. *)
Fixpoint init_times (n : nat) (p : Page) : Page :=
  match n with
  | O => p
  | S k => initSidebarToggle (init_times k p)
  end.

Lemma init_times_fields n p icon side :
  toggle_icon p = Some icon -> sidebar_show p = Some side ->
  toggle_icon (init_times n p) = Some icon /\
  sidebar_show (init_times n p) = Some side /\
  toggle_listeners (init_times n p) = (n + toggle_listeners p)%nat /\
  (0 < n -> backdrop_show (init_times n p) = Some (shown (backdrop_show p)))%nat.
Proof.
  intros Hi Hs. induction n as [| n (Ji & Js & Jt & Jb)].
  - repeat split; auto. lia.
  - cbn [init_times]. unfold initSidebarToggle. rewrite Ji, Js.
    cbn [toggle_icon sidebar_show toggle_listeners backdrop_show].
    rewrite Jt. repeat split. intros _. f_equal.
    destruct n as [| n].
    + cbn [init_times]. unfold shown. destruct (backdrop_show p) as [[|] |]; reflexivity.
    + rewrite Jb by lia. reflexivity.
Qed.

Lemma toggles n : forall p side back,
  sidebar_show p = Some side -> backdrop_show p = Some back ->
  sidebar_show (times n toggle_handler p) =
    Some (if Nat.even n then side else negb side) /\
  backdrop_show (times n toggle_handler p) =
    Some (if Nat.even n then back else negb back).
Proof.
  induction n as [n IH] using (well_founded_induction Wf_nat.lt_wf).
  intros p side back Hs Hb.
  destruct n as [| [| n]].
  - auto.
  - cbn [times Nat.even]. unfold toggle_handler. cbv zeta.
    cbn [sidebar_show backdrop_show]. rewrite Hs, Hb. auto.
  - change (times (S (S n)) toggle_handler p)
      with (times n toggle_handler (toggle_handler (toggle_handler p))).
    change (Nat.even (S (S n))) with (Nat.even n).
    apply IH; [lia | |]; unfold toggle_handler; cbv zeta;
      cbn [sidebar_show backdrop_show]; rewrite ?Hs, ?Hb; cbn [option_map];
      rewrite negb_involutive; reflexivity.
Qed.

End Twice.

(** Every call of [initSidebarToggle] binds one more listener to the
    toggle button, and a click runs them all: after [n] calls, a click on
    the toggle button flips the sidebar and the backdrop [n] times.  With
    the function called twice, the button no longer opens the sidebar. *)
Theorem sidebar_toggle_counts_initialisations
    (p0 : Page) (icon : option string) (side : bool) (n : nat) :
  loaded p0 ->
  toggle_icon p0 = Some icon -> sidebar_show p0 = Some side ->
  (0 < n)%nat ->
  let p := handle_input ClickToggle (Twice.init_times n p0) in
  sidebar_show p = Some (if Nat.even n then side else negb side) /\
  backdrop_show p =
    Some (if Nat.even n then shown (backdrop_show p0)
          else negb (shown (backdrop_show p0))).
Proof.
  intros (Hl & _) Hi Hs Hn p.
  destruct (Twice.init_times_fields n p0 icon side Hi Hs) as (Ji & Js & Jt & Jb).
  subst p. cbn [handle_input]. rewrite Jt, Hl, Nat.add_0_r.
  apply Twice.toggles; [exact Js | apply Jb, Hn].
Qed.

Lemma sidebar_toggle_counts_initialisations_witness :
  sidebar_show (handle_input ClickToggle
                  (initSidebarToggle (initSidebarToggle narrow_page))) = Some false /\
  backdrop_show (handle_input ClickToggle
                   (initSidebarToggle (initSidebarToggle narrow_page))) = Some false.
Proof.
  apply (sidebar_toggle_counts_initialisations
           narrow_page (Some "bi bi-list"%string) false 2).
  - repeat split; repeat constructor.
  - reflexivity.
  - reflexivity.
  - lia.
Defined.

(* ====================================================================== *)
(** ** Navigation components: setActiveNavItem *)

Module ActiveLink.
Local Open Scope string_scope.

(** A link matching [.sidebar-nav-link, .nav-link-item]: its [href]
    attribute ([None] when it has none) and whether it carries the class
    [active]. *)
Record NavLink := mkNavLink {
  href : option string;
  active : bool
}.

(** [href && currentPath.startsWith(href)] *)
Definition matches (currentPath : string) (link : NavLink) : bool :=
  match href link with
  | Some h => JSString.truthy h && prefix h currentPath
  | None => false
  end.

(** [setActiveNavItem()], [currentPath] being [window.location.pathname]
    and [links] the links of the page in document order. *)
Definition setActiveNavItem (currentPath : string) (links : list NavLink)
    : list NavLink :=
  map (fun link =>
         if matches currentPath link then mkNavLink (href link) true else link)
      links.

End ActiveLink.

Module ActiveLinkFacts.
Import ActiveLink.
Local Open Scope string_scope.

Lemma prefix_trans a : forall b c,
  prefix a b = true -> prefix b c = true -> prefix a c = true.
Proof.
  induction a as [| x a IH]; intros b c Hab Hbc.
  - destruct c; reflexivity.
  - destruct b as [| y b]; [discriminate Hab |].
    destruct c as [| z c]; [discriminate Hbc |].
    cbn [prefix] in *.
    destruct (ascii_dec x y) as [-> | _]; [| discriminate Hab].
    destruct (ascii_dec y z) as [-> | _]; [| discriminate Hbc].
    apply (IH b c Hab Hbc).
Qed.

Lemma prefix_slash path : prefix "/" (String "/" path) = true.
Proof. cbn [prefix]. destruct (ascii_dec "/" "/"); [| congruence]. destruct path; reflexivity. Qed.

Lemma active_after currentPath link :
  active (if matches currentPath link then mkNavLink (href link) true else link) =
  active link || matches currentPath link.
Proof.
  destruct (matches currentPath link); cbn [active];
    [rewrite orb_true_r | rewrite orb_false_r]; reflexivity.
Qed.

Lemma href_after currentPath link :
  href (if matches currentPath link then mkNavLink (href link) true else link) =
  href link.
Proof. destruct (matches currentPath link); reflexivity. Qed.

End ActiveLinkFacts.

Import ActiveLink.

(** [setActiveNavItem] marks a link active when its [href] is not empty
    and is a prefix of the current path, and never takes the mark away:
    the links stay in place with their [href], a link that was active
    stays active, and calling the function for a second path adds to the
    marks of the first.  Marks follow prefixes: when a link is marked
    because of the path, so is every link whose non-empty [href] is a
    prefix of that link's [href]; in particular a link to ["/"] is marked
    on every path that starts with a slash. *)
Theorem active_links_follow_prefixes
    (currentPath : string) (links : list NavLink) :
  map href (setActiveNavItem currentPath links) = map href links /\
  map active (setActiveNavItem currentPath links) =
    map (fun l => active l || matches currentPath l) links /\
  setActiveNavItem currentPath (setActiveNavItem currentPath links) =
    setActiveNavItem currentPath links /\
  (forall otherPath,
      map active (setActiveNavItem otherPath (setActiveNavItem currentPath links)) =
      map (fun l => active l || matches currentPath l || matches otherPath l) links) /\
  (forall l1 l2 h1 h2,
      href l1 = Some h1 -> href l2 = Some h2 ->
      JSString.truthy h1 = true -> prefix h1 h2 = true ->
      matches currentPath l2 = true -> matches currentPath l1 = true) /\
  (forall l rest,
      href l = Some "/"%string -> currentPath = String "/" rest ->
      matches currentPath l = true).
Proof.
  unfold setActiveNavItem. repeat split.
  - rewrite map_map. apply map_ext. intros l. apply ActiveLinkFacts.href_after.
  - rewrite map_map. apply map_ext. intros l. apply ActiveLinkFacts.active_after.
  - rewrite map_map. apply map_ext. intros l.
    destruct (matches currentPath l) eqn:E; [| rewrite E; reflexivity].
    unfold matches at 1. cbn [href]. fold (matches currentPath l). rewrite E.
    reflexivity.
  - intros otherPath. rewrite !map_map. apply map_ext. intros l.
    rewrite ActiveLinkFacts.active_after.
    assert (E : matches otherPath
                  (if matches currentPath l then mkNavLink (href l) true else l) =
                matches otherPath l)
      by (unfold matches at 1 3; rewrite ActiveLinkFacts.href_after; reflexivity).
    rewrite E, ActiveLinkFacts.active_after. reflexivity.
  - intros l1 l2 h1 h2 H1 H2 Ht Hp Hm. unfold matches in *.
    rewrite H1. rewrite H2 in Hm. apply andb_true_iff in Hm.
    destruct Hm as [_ Hm]. rewrite Ht. cbn [andb].
    apply (ActiveLinkFacts.prefix_trans h1 h2 currentPath Hp Hm).
  - intros l rest Hl ->. unfold matches. rewrite Hl.
    apply ActiveLinkFacts.prefix_slash.
Qed.

(** The links of a page: home, the journal, the insights, and a link
    without [href]. *)
Definition menu : list NavLink :=
  [mkNavLink (Some "/"%string) false; mkNavLink (Some "/journal/"%string) false;
   mkNavLink (Some "/insights/"%string) false; mkNavLink None false].

Lemma active_links_follow_prefixes_witness :
  map active (setActiveNavItem "/journal/entries/5/" menu) =
    [true; true; false; false] /\
  map active (setActiveNavItem "/insights/"
                (setActiveNavItem "/journal/entries/5/" menu)) =
    [true; true; true; false].
Proof.
  split.
  - apply (proj1 (proj2 (active_links_follow_prefixes "/journal/entries/5/" menu))).
  - apply (proj1 (proj2 (proj2 (proj2
             (active_links_follow_prefixes "/journal/entries/5/" menu))))).
Defined.

(* ====================================================================== *)
(** ** Chart utilities: the configurations handed to Chart.js *)

Module Charts.
Local Open Scope string_scope.

(** The values of a configuration object: booleans, numbers (whole, or a
    ratio such as 3/10), strings, arrays, objects as their keys and values
    in order, and functions and built-in objects, known by a name. *)
#[warnings="-register-all"]
Inductive Json :=
| JBool (b : bool)
| JInt (n : Z)
| JRatio (num den : Z)
| JStr (s : string)
| JList (l : list Json)
| JObj (fields : list (string * Json))
| JFun (name : string).

Definition Obj := list (string * Json).

(** Reading a key of an object; [None] is [undefined]. *)
Fixpoint get (k : string) (o : Obj) : option Json :=
  match o with
  | [] => None
  | (k', v) :: rest => if String.eqb k' k then Some v else get k rest
  end.

(** Writing a key: an existing key keeps its place, a new key comes
    last (the order of keys that are no array indices). *)
Fixpoint set (k : string) (v : Json) (o : Obj) : Obj :=
  match o with
  | [] => [(k, v)]
  | (k', v') :: rest =>
      if String.eqb k' k then (k, v) :: rest else (k', v') :: set k v rest
  end.

(** [{ ...base, ...extra }]: the keys of [extra] are written one by one. *)
Definition spread (base extra : Obj) : Obj :=
  fold_left (fun o kv => set (fst kv) (snd kv) o) extra base.

Definition MOOD_COLORS : list (string * string) :=
  [("ecstatic", "#a855f7"); ("happy", "#22c55e"); ("neutral", "#6b7280");
   ("sad", "#3b82f6"); ("angry", "#ef4444")].

Definition grid_off : Json := JObj [("display", JBool false)].

Definition defaultLineChartOptions : Obj :=
  [("responsive", JBool true);
   ("maintainAspectRatio", JBool false);
   ("plugins", JObj [("legend", JObj [("display", JBool false)])]);
   ("scales",
    JObj [("x", JObj [("grid", grid_off);
                      ("ticks", JObj [("color", JStr "#6b7280")])]);
          ("y", JObj [("grid", JObj [("color", JStr "#f3f4f6")]);
                      ("ticks", JObj [("color", JStr "#6b7280")])])])].

Definition defaultBarChartOptions : Obj :=
  [("responsive", JBool true);
   ("maintainAspectRatio", JBool false);
   ("plugins", JObj [("legend", JObj [("display", JBool false)])]);
   ("scales",
    JObj [("x", JObj [("grid", grid_off);
                      ("ticks", JObj [("color", JStr "#6b7280")])]);
          ("y", JObj [("grid", JObj [("color", JStr "#f3f4f6")]);
                      ("ticks", JObj [("color", JStr "#6b7280")])])])].

Definition defaultDoughnutChartOptions : Obj :=
  [("responsive", JBool true);
   ("maintainAspectRatio", JBool false);
   ("plugins",
    JObj [("legend",
           JObj [("position", JStr "bottom");
                 ("labels", JObj [("padding", JInt 10);
                                  ("font", JObj [("size", JInt 11)])])])])].

(** The [scales] and [plugins] objects the three functions write out. *)
Definition bar_scales : Json :=
  JObj [("x", JObj [("display", JBool true);
                    ("grid", grid_off);
                    ("ticks", JObj [("color", JStr "rgba(255,255,255,0.7)");
                                    ("font", JObj [("size", JInt 10)])])]);
        ("y", JObj [("display", JBool true);
                    ("grid", JObj [("color", JStr "rgba(255,255,255,0.1)")]);
                    ("ticks", JObj [("color", JStr "rgba(255,255,255,0.7)");
                                    ("stepSize", JInt 10)])])].

Definition sentiment_scales : Json :=
  JObj [("x", JObj [("grid", JObj [("color", JStr "rgba(255,255,255,0.1)")]);
                    ("ticks", JObj [("color", JStr "rgba(255,255,255,0.7)")])]);
        ("y", JObj [("min", JInt (-1));
                    ("max", JInt 1);
                    ("grid", JObj [("color", JStr "rgba(255,255,255,0.1)")]);
                    ("ticks", JObj [("color", JStr "rgba(255,255,255,0.7)");
                                    ("callback", JFun "sentimentTickLabel")])])].

Definition doughnut_plugins : Json :=
  JObj [("legend",
         JObj [("position", JStr "bottom");
               ("labels", JObj [("color", JStr "rgba(255,255,255,0.9)");
                                ("padding", JInt 10);
                                ("font", JObj [("size", JInt 11)])])])].

Section Configurations.

(** The data points of a chart: the functions pass them on unread. *)
Context {V : Type}.

Record Dataset := mkDataset {
  ds_data : list V;
  ds_backgroundColor : Json;
  ds_style : Obj
}.

(** The second argument of [new Chart(ctx, config)]. *)
Record Config := mkConfig {
  chart_type : string;
  chart_labels : list string;
  chart_datasets : list Dataset;
  chart_options : Obj
}.

Definition highlighted : string := "rgba(255,255,255,0.9)".
Definition dimmed : string := "rgba(255,255,255,0.4)".

(** [data.map((_, i) => i === currentMonth ? ... : ...)] *)
Definition bar_colors (currentMonth : Z) (data : list V) : list string :=
  map (fun i => if (Z.of_nat i =? currentMonth)%Z then highlighted else dimmed)
      (seq 0 (List.length data)).

(** [createEntriesBarChart(canvas, data, options = {})]; [now] is what
    [new Date()] returns.  [None] is the TypeError of
    [canvas.getContext] on a missing canvas. *)
Definition createEntriesBarChart (canvas : bool) (now : JSDate.t)
    (data : list V) (options : option Obj) : option Config :=
  if canvas then
    let currentMonth := JSDate.getMonth now in
    Some (mkConfig "bar"
            ["J"; "F"; "M"; "A"; "M"; "J"; "J"; "A"; "S"; "O"; "N"; "D"]
            [mkDataset data
                       (JList (map JStr (bar_colors currentMonth data)))
                       [("borderRadius", JInt 4); ("barThickness", JInt 12)]]
            (spread (set "scales" bar_scales defaultBarChartOptions)
                    (match options with Some o => o | None => [] end)))
  else None.

(** [createSentimentChart(canvas, labels, data, options = {})]; [zero] is
    the number 0 among the data points. *)
Definition createSentimentChart (zero : V) (canvas : bool)
    (labels : list string) (data : list V) (options : option Obj)
    : option Config :=
  if canvas then
    Some (mkConfig "line"
            (match labels with [] => ["No data"] | _ => labels end)
            [mkDataset (match data with [] => [zero] | _ => data end)
                       (JStr "rgba(255,255,255,0.1)")
                       [("label", JStr "Average Sentiment");
                        ("borderColor", JStr "rgba(255,255,255,0.9)");
                        ("fill", JBool true);
                        ("tension", JRatio 3 10);
                        ("pointBackgroundColor", JStr "white");
                        ("pointBorderColor", JStr "white")]]
            (spread (set "scales" sentiment_scales defaultLineChartOptions)
                    (match options with Some o => o | None => [] end)))
  else None.

(** [l.charAt(0).toUpperCase() + l.slice(1)], for a name whose first
    character is an ASCII one ([ascii_first]); the rest of the name is not
    looked at. *)
Definition is_ascii (c : ascii) : bool := (nat_of_ascii c <? 128)%nat.

Definition ascii_first (l : string) : bool :=
  match l with
  | EmptyString => true
  | String c _ => is_ascii c
  end.

Definition upper (c : ascii) : ascii :=
  let n := nat_of_ascii c in
  if ((97 <=? n) && (n <=? 122))%nat then ascii_of_nat (n - 32) else c.

Definition capitalize (l : string) : string :=
  match l with
  | EmptyString => EmptyString
  | String c rest => String (upper c) rest
  end.

(** The names every object literal inherits from [Object.prototype]. *)
Definition inherited : list string :=
  ["constructor"; "hasOwnProperty"; "isPrototypeOf"; "propertyIsEnumerable";
   "toLocaleString"; "toString"; "valueOf"; "__proto__";
   "__defineGetter__"; "__defineSetter__";
   "__lookupGetter__"; "__lookupSetter__"].

(** [MOOD_COLORS[l] || '#6b7280']: the colours of the palette are truthy,
    and so is what the object inherits. *)
Definition mood_color (l : string) : Json :=
  match find (fun kv => String.eqb (fst kv) l) MOOD_COLORS with
  | Some kv => JStr (snd kv)
  | None => if existsb (String.eqb l) inherited then JFun l
            else JStr "#6b7280"
  end.

(** [createMoodDoughnutChart(canvas, moodData, options = {})]; [moodData]
    is the object as its keys and values in order. *)
Definition createMoodDoughnutChart (canvas : bool)
    (moodData : list (string * V)) (options : option Obj) : option Config :=
  if canvas then
    let labels := map fst moodData in
    let values := map snd moodData in
    Some (mkConfig "doughnut"
            (map capitalize labels)
            [mkDataset values
                       (JList (map mood_color labels))
                       [("borderColor", JStr "rgba(255,255,255,0.2)");
                        ("borderWidth", JInt 2)]]
            (spread (set "plugins" doughnut_plugins defaultDoughnutChartOptions)
                    (match options with Some o => o | None => [] end)))
  else None.

End Configurations.

Arguments Dataset V : clear implicits.
Arguments Config V : clear implicits.

End Charts.

Module ChartFacts.
Import Charts.

Lemma get_set k k' v o :
  get k (set k' v o) = if String.eqb k' k then Some v else get k o.
Proof.
  induction o as [| [k0 v0] o IH]; cbn [set get].
  - destruct (String.eqb k' k); reflexivity.
  - destruct (String.eqb_spec k0 k') as [-> | Hne]; cbn [get].
    + destruct (String.eqb k' k); reflexivity.
    + rewrite IH. destruct (String.eqb_spec k0 k) as [-> | _]; [| reflexivity].
      destruct (String.eqb_spec k' k) as [-> | _]; [congruence | reflexivity].
Qed.

Lemma spread_snoc base extra kv :
  spread base (extra ++ [kv]) = set (fst kv) (snd kv) (spread base extra).
Proof. unfold spread. rewrite fold_left_app. reflexivity. Qed.

(** A key of [{ ...base, ...extra }] is the last one [extra] gives it, or
    else the one of [base]. *)
Lemma get_spread k base extra :
  get k (spread base extra) =
  match get k (rev extra) with Some v => Some v | None => get k base end.
Proof.
  induction extra as [| kv extra IH] using rev_ind; [reflexivity |].
  rewrite spread_snoc, get_set, rev_app_distr. cbn [rev app get].
  destruct kv as [k' v]. cbn [fst snd].
  destruct (String.eqb k' k); [reflexivity | exact IH].
Qed.

Lemma seq_split m n :
  (m < n)%nat -> seq 0 n = (seq 0 m ++ m :: seq (S m) (n - m - 1))%list.
Proof.
  intros H. replace n with (m + S (n - m - 1))%nat at 1 by lia.
  rewrite seq_app. reflexivity.
Qed.

Lemma map_const {X Y} (f : X -> Y) (y : Y) l :
  (forall x, In x l -> f x = y) -> map f l = repeat y (List.length l).
Proof.
  induction l as [| x l IH]; intros H; [reflexivity |].
  cbn [map List.length repeat]. rewrite (H x (or_introl eq_refl)), IH;
    [reflexivity |].
  intros x' Hx'. apply H. right. exact Hx'.
Qed.

(** The colours of the bars: all dimmed but the one of the current month,
    when the data reach that far. *)
Lemma bar_colors_shape {V} (m : Z) (data : list V) :
  0 <= m ->
  bar_colors m data =
  if (m <? Z.of_nat (List.length data))%Z
  then (repeat dimmed (Z.to_nat m) ++
        highlighted :: repeat dimmed (List.length data - Z.to_nat m - 1))%list
  else repeat dimmed (List.length data).
Proof.
  intros Hm. unfold bar_colors.
  destruct (Z.ltb_spec m (Z.of_nat (List.length data))) as [Hlt | Hge].
  - rewrite (seq_split (Z.to_nat m)) by lia. rewrite map_app. cbn [map].
    replace (Z.of_nat (Z.to_nat m) =? m)%Z with true
      by (symmetry; apply Z.eqb_eq; lia).
    f_equal; [| f_equal].
    + rewrite (map_const _ dimmed); [rewrite length_seq; reflexivity |].
      intros i Hi. apply in_seq in Hi.
      destruct (Z.eqb_spec (Z.of_nat i) m); [lia | reflexivity].
    + rewrite (map_const _ dimmed); [rewrite length_seq; reflexivity |].
      intros i Hi. apply in_seq in Hi.
      destruct (Z.eqb_spec (Z.of_nat i) m); [lia | reflexivity].
  - rewrite (map_const _ dimmed); [rewrite length_seq; reflexivity |].
    intros i Hi. apply in_seq in Hi.
    destruct (Z.eqb_spec (Z.of_nat i) m); [lia | reflexivity].
Qed.

Lemma nth_map_seq {Y} (f : nat -> Y) (d : Y) n i :
  (i < n)%nat -> nth i (map f (seq 0 n)) d = f i.
Proof.
  intros Hi. rewrite (nth_indep _ d (f 0%nat))
    by (rewrite length_map, length_seq; exact Hi).
  rewrite map_nth, seq_nth by exact Hi. reflexivity.
Qed.

End ChartFacts.

Import Charts.

(** *** The bar chart of the entries per month *)

(** [createEntriesBarChart] throws on a missing canvas.  Otherwise the
    chart gets the data as they are, under the twelve month letters, and
    one colour per data point: the bar whose index is the current month
    (0 = January) is highlighted and every other bar is dimmed.  With
    twelve data points exactly one bar is highlighted; with fewer data
    points than the current month has gone by, none is. *)
Theorem bar_chart_highlights_current_month
    {V : Type} (now : JSDate.t) (data : list V) (options : option Obj) :
  createEntriesBarChart false now data options = None /\
  exists cfg colors style,
    createEntriesBarChart true now data options = Some cfg /\
    chart_type cfg = "bar"%string /\
    List.length (chart_labels cfg) = 12%nat /\
    chart_datasets cfg = [mkDataset data (JList (map JStr colors)) style] /\
    List.length colors = List.length data /\
    (forall i, (i < List.length data)%nat ->
               nth i colors dimmed =
               if Z.of_nat i =? JSDate.getMonth now then highlighted else dimmed) /\
    colors =
      (if JSDate.getMonth now <? Z.of_nat (List.length data)
       then repeat dimmed (Z.to_nat (JSDate.getMonth now)) ++
            highlighted ::
            repeat dimmed (List.length data - Z.to_nat (JSDate.getMonth now) - 1)
       else repeat dimmed (List.length data))%list /\
    (List.length data = 12%nat ->
     List.length (filter (String.eqb highlighted) colors) = 1%nat).
Proof.
  split; [reflexivity |].
  pose proof (GridFacts.getMonth_range now) as Hm.
  pose proof (ChartFacts.bar_colors_shape (JSDate.getMonth now) data (proj1 Hm))
    as Hshape.
  eexists _, (bar_colors (JSDate.getMonth now) data), _.
  split; [reflexivity |]. split; [reflexivity |]. split; [reflexivity |].
  split; [reflexivity |].
  split; [unfold bar_colors; rewrite length_map, length_seq; reflexivity |].
  split.
  { intros i Hi. unfold bar_colors.
    rewrite ChartFacts.nth_map_seq by exact Hi. reflexivity. }
  split; [exact Hshape |].
  intros H12. rewrite Hshape, H12.
  destruct (Z.ltb_spec (JSDate.getMonth now) (Z.of_nat 12)) as [_ | Hge];
    [| cbn in Hge; lia].
  rewrite filter_app. cbn [filter]. rewrite String.eqb_refl.
  assert (Hd : forall n, filter (String.eqb highlighted) (repeat dimmed n) = []).
  { intros n. induction n as [| n IH]; [reflexivity | exact IH]. }
  rewrite !Hd. reflexivity.
Qed.

(** *** The doughnut chart of the moods *)

Module Moods.

Lemma mood_color_palette l c :
  In (l, c) MOOD_COLORS -> mood_color l = JStr c.
Proof.
  unfold MOOD_COLORS. cbn [In].
  intros [H | [H | [H | [H | [H | []]]]]]; inversion H; reflexivity.
Qed.

Lemma mood_color_other l :
  ~ In l (map fst MOOD_COLORS) ->
  mood_color l = if existsb (String.eqb l) inherited then JFun l
                 else JStr "#6b7280".
Proof.
  unfold mood_color, MOOD_COLORS. cbn [map fst snd In find]. intros H.
  repeat match goal with
         | |- context [String.eqb ?a l] =>
             destruct (String.eqb_spec a l) as [E | _];
             [exfalso; apply H; rewrite E; tauto |]
         end.
  reflexivity.
Qed.

Lemma capitalize_length l : String.length (capitalize l) = String.length l.
Proof. destruct l; reflexivity. Qed.

Lemma upper_upper c : upper (upper c) = upper c.
Proof.
  unfold upper.
  destruct ((97 <=? nat_of_ascii c) && (nat_of_ascii c <=? 122))%nat eqn:E.
  - apply andb_true_iff in E. destruct E as [E1 E2].
    apply Nat.leb_le in E1, E2.
    rewrite nat_ascii_embedding by lia.
    replace (97 <=? nat_of_ascii c - 32)%nat with false
      by (symmetry; apply Nat.leb_gt; lia).
    reflexivity.
  - rewrite E. reflexivity.
Qed.

End Moods.

(** [createMoodDoughnutChart] throws on a missing canvas.  Otherwise the
    chart gets one label, one value and one colour per mood of the data
    object, in the order of its keys.  The value is passed on as it is.
    The label of a name that starts with an ASCII character is the name
    with that character in upper case: as long as the name, and a name
    that is capitalised already stays as it is.  The colour is the one of
    the palette for its five moods; for any other name it is the grey of
    neutral, unless the name is one that the palette object inherits
    (toString, constructor, ...), where the colour is no string at all. *)
Theorem mood_chart_is_aligned
    {V : Type} (moodData : list (string * V)) (options : option Obj) :
  createMoodDoughnutChart false moodData options = None /\
  exists cfg colors style,
    createMoodDoughnutChart true moodData options = Some cfg /\
    chart_type cfg = "doughnut"%string /\
    chart_datasets cfg = [mkDataset (map snd moodData) (JList colors) style] /\
    List.length (chart_labels cfg) = List.length moodData /\
    List.length colors = List.length moodData /\
    (forall i mood value,
        nth_error moodData i = Some (mood, value) ->
        (ascii_first mood = true ->
         nth_error (chart_labels cfg) i = Some (capitalize mood) /\
         String.length (capitalize mood) = String.length mood /\
         capitalize (capitalize mood) = capitalize mood) /\
        nth_error colors i = Some (mood_color mood) /\
        (forall c, In (mood, c) MOOD_COLORS -> mood_color mood = JStr c) /\
        (~ In mood (map fst MOOD_COLORS) -> ~ In mood inherited ->
         mood_color mood = JStr "#6b7280") /\
        (In mood inherited -> mood_color mood = JFun mood)).
Proof.
  split; [reflexivity |].
  eexists _, (map mood_color (map fst moodData)), _.
  split; [reflexivity |].
  split; [reflexivity |].
  split; [reflexivity |].
  split; [cbn [chart_labels]; rewrite !length_map; reflexivity |].
  split; [rewrite !length_map; reflexivity |].
  intros i mood value Hi. cbn [chart_labels].
  rewrite !nth_error_map, Hi. cbn [option_map fst].
  split; [| split; [reflexivity | split; [| split]]].
  - intros _. split; [reflexivity |].
    split; [apply Moods.capitalize_length |].
    destruct mood as [| c rest]; [reflexivity |].
    cbn [capitalize]. rewrite Moods.upper_upper. reflexivity.
  - intros c. apply Moods.mood_color_palette.
  - intros Hp Hi'. rewrite Moods.mood_color_other by exact Hp.
    destruct (existsb (String.eqb mood) inherited) eqn:E; [| reflexivity].
    exfalso. apply Hi'. apply existsb_exists in E.
    destruct E as (x & Hx & Ex). apply String.eqb_eq in Ex. subst x. exact Hx.
  - intros Hin.
    assert (Hp : ~ In mood (map fst MOOD_COLORS)).
    { intros Hp. revert Hin. unfold MOOD_COLORS in Hp. cbn [map fst In] in Hp.
      destruct Hp as [<- | [<- | [<- | [<- | [<- | []]]]]];
        unfold inherited; cbn [In];
        intros H; repeat (destruct H as [H | H]; [discriminate H |]);
        exact H. }
    rewrite Moods.mood_color_other by exact Hp.
    replace (existsb (String.eqb mood) inherited) with true; [reflexivity |].
    symmetry. apply existsb_exists. exists mood. split; [exact Hin |].
    apply String.eqb_refl.
Qed.

(** *** The options of a chart *)

(** In all three chart functions the caller's options are spread last over
    the function's own: key by key, the value the caller gives wins as a
    whole, and what the function wrote for that key is dropped, not merged
    (a caller's [scales] replaces both axes of the function).  For a key
    the caller does not give, the bar and line charts take [scales] from
    the function and everything else from the default options, whose own
    [scales] never reach the chart; the doughnut chart takes [plugins]
    from the function likewise. *)
Theorem chart_options_merge_shallowly
    {V : Type} (zero : V) (now : JSDate.t) (data : list V)
    (labels : list string) (moodData : list (string * V))
    (options : Obj) (k : string) :
  let given := get k (rev options) in
  (exists cfg,
      createEntriesBarChart true now data (Some options) = Some cfg /\
      get k (chart_options cfg) =
        match given with
        | Some v => Some v
        | None => if String.eqb k "scales" then Some bar_scales
                  else get k defaultBarChartOptions
        end) /\
  (exists cfg,
      createSentimentChart zero true labels data (Some options) = Some cfg /\
      get k (chart_options cfg) =
        match given with
        | Some v => Some v
        | None => if String.eqb k "scales" then Some sentiment_scales
                  else get k defaultLineChartOptions
        end) /\
  (exists cfg,
      createMoodDoughnutChart true moodData (Some options) = Some cfg /\
      get k (chart_options cfg) =
        match given with
        | Some v => Some v
        | None => if String.eqb k "plugins" then Some doughnut_plugins
                  else get k defaultDoughnutChartOptions
        end).
Proof.
  intros given. repeat split; eexists; (split; [reflexivity |]);
    cbn [chart_options]; rewrite ChartFacts.get_spread; fold given;
    destruct given; try reflexivity; rewrite ChartFacts.get_set;
    rewrite (String.eqb_sym _ k); reflexivity.
Qed.
